(** * The metric plugin framework of the Oracle monitor

    A shallow embedding of [metrics/base_metric.py] (the [BaseMetric] contract
    and the [MetricRegistry]) and of the concrete metric plugins of the
    [metrics] package, with the properties of the registry fan-out, of the
    structured log channel and of the SQLite history store.

    Conventions of the embedding
    - a Python [dict] is an association list in insertion order ([dict_set]
      keeps the position of a key that is already present, as CPython does);
    - an instance of [Exception] is a value of [exn]; interpreter-exit signals
      that derive from [BaseException] only are not values of that type;
    - [datetime.now()] reads a clock kept in the world: every call consumes
      one reading;
    - the handler of a logger is the chronological list of the records it was
      given; every logger of the program writes into one list [log], tagged
      with the logger, so that the order between loggers is kept;
    - a [float] is the rational it denotes: rounding to double precision and
      the special values are not part of the model;
    - the parameters and the return value of a method have the types of its
      annotations ([Optional[Dict]] for a payload, [Optional[str]] for a
      sample identifier). *)

From Stdlib Require Import String ZArith QArith.QArith_base List Bool Lia.
From stdpp Require Import base option list gmap strings pretty.

Open Scope string_scope.
Open Scope list_scope.

(** ** Python values *)

#[local] Set Warnings "-register-all".

Inductive PyVal : Type :=
| VNone
| VBool (b : bool)
| VInt (z : Z)
| VFloat (q : Q)
| VStr (s : string)
| VList (l : list PyVal)
| VDict (d : list (string * PyVal)).

(** A [dict] with string keys. *)
Abbreviation PyDict := (list (string * PyVal)).

(** Python truth value testing ([if v:], [a or b], [all([...])]). *)
Definition truthy (v : PyVal) : bool :=
  match v with
  | VNone => false
  | VBool b => b
  | VInt z => negb (z =? 0)%Z
  | VFloat q => negb (Qnum q =? 0)%Z
  | VStr s => negb (String.eqb s "")
  | VList l => match l with [] => false | _ => true end
  | VDict d => match d with [] => false | _ => true end
  end.

(** [a or b] *)
Definition py_or (a b : PyVal) : PyVal := if truthy a then a else b.

(** Truth value of an [Optional[Dict]] ([if data:], [if not data:]). *)
Definition truthy_data (data : option PyDict) : bool :=
  match data with
  | None => false
  | Some [] => false
  | Some (_ :: _) => true
  end.

(** Truth value of an [Optional[str]]. *)
Definition truthy_str (s : option string) : bool :=
  match s with
  | None => false
  | Some s => negb (String.eqb s "")
  end.

(** [sample_id or fallback] for [sample_id : Optional[str]]. *)
Definition str_or (sample_id : option string) (fallback : string) : string :=
  match sample_id with
  | Some s => if String.eqb s "" then fallback else s
  | None => fallback
  end.

(** ** Insertion-ordered dictionaries *)

Section Dict.
Context {V : Type}.

(** [d.get(k)] *)
Fixpoint dict_get (d : list (string * V)) (k : string) : option V :=
  match d with
  | [] => None
  | (k', v) :: d' => if String.eqb k' k then Some v else dict_get d' k
  end.

(** [d[k] = v]: a present key keeps its position, a new key goes last. *)
Fixpoint dict_set (d : list (string * V)) (k : string) (v : V) : list (string * V) :=
  match d with
  | [] => [(k, v)]
  | (k', v') :: d' =>
      if String.eqb k' k then (k', v) :: d' else (k', v') :: dict_set d' k v
  end.

(** [k in d] *)
Definition dict_contains (d : list (string * V)) (k : string) : bool :=
  match dict_get d k with Some _ => true | None => false end.

Definition dict_keys (d : list (string * V)) : list string := map fst d.
Definition dict_values (d : list (string * V)) : list V := map snd d.
End Dict.

(** [rec.get(k)] on a dict of Python values: a missing key gives [None]. *)
Definition get (d : PyDict) (k : string) : PyVal :=
  match dict_get d k with Some v => v | None => VNone end.

(** ** Exceptions and results *)

(** [OracleDbError] is [oracledb.Error] and its subclasses; [OtherError ty]
    is any other instance of [Exception], of class [ty]. The string is
    [str(e)]. *)
Inductive exn : Type :=
| OracleDbError (msg : string)
| OtherError (ty : string) (msg : string).

Definition is_oracledb_error (e : exn) : bool :=
  match e with OracleDbError _ => true | OtherError _ _ => false end.

Definition exn_str (e : exn) : string :=
  match e with OracleDbError msg => msg | OtherError _ msg => msg end.

Inductive result (A : Type) : Type :=
| Ok (a : A)
| Raise (e : exn).
Arguments Ok {A} a.
Arguments Raise {A} e.

Definition result_bind {A B} (r : result A) (f : A -> result B) : result B :=
  match r with Ok a => f a | Raise e => Raise e end.

(** ** Logging *)

Inductive level : Type := INFO | WARNING | ERROR.

(** The text given to a logger: a formatted message, or the line
    [json.dumps(v, default=str)], kept as the value [v] that is dumped. *)
Inductive LogMsg : Type :=
| Text (s : string)
| Json (v : PyVal).

Record LogRecord : Type := mkLogRecord { rec_level : level; rec_msg : LogMsg }.

(** [RootLogger] is the logger behind [logging.error]; [MetricLogger n] is
    [logging.getLogger(f"oracle_monitor_{n}")], whose only handler appends to
    the file [<n.lower()>.jsonl] of the log directory. *)
Inductive logger : Type :=
| RootLogger
| MetricLogger (name : string).

Definition logger_eqb (a b : logger) : bool :=
  match a, b with
  | RootLogger, RootLogger => true
  | MetricLogger n, MetricLogger n' => String.eqb n n'
  | _, _ => false
  end.

(** ** The SQLite history store *)

(** A row is the list of the column values that its INSERT names (the
    surrogate [id] and the columns left NULL are not listed), a table has
    its columns and its rows in insertion order, a database file is a finite
    map from table names to tables. *)
Abbreviation Row := (list (string * PyVal)).

Record Table : Type := mkTable { tbl_columns : list string; tbl_rows : list Row }.

Abbreviation Store := (gmap string Table).

Definition has_column (t : Table) (c : string) : bool :=
  existsb (String.eqb c) (tbl_columns t).

(** The values that the [sqlite3] module binds to a parameter: [None], the
    numbers (an integer has to fit 64 bits) and the strings. *)
Definition sqlite_bindable (v : PyVal) : bool :=
  match v with
  | VNone | VBool _ | VFloat _ | VStr _ => true
  | VInt z => ((- 2 ^ 63 <=? z) && (z <? 2 ^ 63))%Z
  | VList _ | VDict _ => false
  end.

Definition bind_error (v : PyVal) : exn :=
  match v with
  | VInt _ => OtherError "OverflowError" "Python int too large to convert to SQLite INTEGER"
  | _ => OtherError "sqlite3.ProgrammingError" "Error binding parameter: type is not supported"
  end.

(** ** The world *)

Record World : Type := mkWorld {
  log : list (logger * LogRecord);
  files : gmap string Store;
  clock : nat -> string;
  ticks : nat
}.

Definition set_log (w : World) (l : list (logger * LogRecord)) : World :=
  {| log := l; files := files w; clock := clock w; ticks := ticks w |}.
Definition set_files (w : World) (f : gmap string Store) : World :=
  {| log := log w; files := f; clock := clock w; ticks := ticks w |}.
Definition set_ticks (w : World) (n : nat) : World :=
  {| log := log w; files := files w; clock := clock w; ticks := n |}.

(** The records a logger has received, oldest first. *)
Definition channel (lg : logger) (w : World) : list LogRecord :=
  map snd (filter (fun p => logger_eqb (fst p) lg = true) (log w)).

(** The rows of a table of a database file ([[]] when there is none). *)
Definition table_rows (w : World) (db_path table : string) : list Row :=
  match files w !! db_path with
  | Some st => match st !! table with Some t => tbl_rows t | None => [] end
  | None => []
  end.

(** ** The monad of the methods that log, read the clock or write the store *)

Definition M (A : Type) : Type := World -> result A * World.

Definition ret {A} (a : A) : M A := fun w => (Ok a, w).
Definition bind {A B} (m : M A) (f : A -> M B) : M B :=
  fun w => match m w with
           | (Ok a, w') => f a w'
           | (Raise e, w') => (Raise e, w')
           end.

Declare Scope m_scope.
Delimit Scope m_scope with m.
Notation "x <- c1 ;; c2" := (bind c1 (fun x => c2))
  (at level 100, c1 at next level, right associativity) : m_scope.
Notation "c1 ;; c2" := (bind c1 (fun _ => c2))
  (at level 100, right associativity) : m_scope.

(** [for x in l: body(x)] *)
Fixpoint for_each {A} (l : list A) (body : A -> M unit) : M unit :=
  match l with
  | [] => ret tt
  | x :: l' => bind (body x) (fun _ => for_each l' body)
  end.

(** [datetime.now().isoformat()] *)
Definition now_isoformat : M string :=
  fun w => (Ok (clock w (ticks w)), set_ticks w (S (ticks w))).

(** [lg.log(lvl, msg)]: the loggers of the program are at level INFO with an
    INFO handler, the root logger at its default WARNING; the three calls of
    the program (info on a metric logger, error on either) all pass. *)
Definition emit (lg : logger) (r : LogRecord) : M unit :=
  fun w => (Ok tt, set_log w (log w ++ [(lg, r)])).

(** [logging.error(msg)] *)
Definition logging_error (msg : string) : M unit :=
  emit RootLogger (mkLogRecord ERROR (Text msg)).

(** ** The effects of [collect]

    A metric's [collect] reads the connection and writes diagnostics to the
    metric's own logger; it neither reads the clock nor touches the store.
    Its run is the list of the records it gave to its logger and its
    outcome. *)

Definition Collect (A : Type) : Type := list LogRecord * result A.

Definition cret {A} (a : A) : Collect A := ([], Ok a).
Definition cbind {A B} (m : Collect A) (f : A -> Collect B) : Collect B :=
  match m with
  | (l, Ok a) => let '(l', r) := f a in (l ++ l', r)
  | (l, Raise e) => (l, Raise e)
  end.
Definition lift {A} (r : result A) : Collect A := ([], r).

(** [self.logger.error(msg)] *)
Definition logger_error (msg : string) : Collect unit :=
  ([mkLogRecord ERROR (Text msg)], Ok tt).

(** [try: body  except oracledb.Error as e: handler(e)] *)
Definition try_except_oracledb {A} (body : Collect A) (handler : exn -> Collect A)
  : Collect A :=
  match body with
  | (l, Raise e) =>
      if is_oracledb_error e then let '(l', r) := handler e in (l ++ l', r)
      else (l, Raise e)
  | (l, Ok a) => (l, Ok a)
  end.

Declare Scope collect_scope.
Delimit Scope collect_scope with collect.
Notation "x <- c1 ;; c2" := (cbind c1 (fun x => c2))
  (at level 100, c1 at next level, right associativity) : collect_scope.
Notation "c1 ;; c2" := (cbind c1 (fun _ => c2))
  (at level 100, right associativity) : collect_scope.

(** ** The monitored database, as [collect] sees it

    [cursor_error] is what [connection.cursor()] raises, if it does. A query
    is run by [cursor.execute(text, binds)]: it raises [exec_error], or
    leaves the rows [rows] to fetch, after which fetching raises
    [fetch_error], if any. *)

Abbreviation DbRow := (list PyVal).

Record QueryRun : Type := mkQueryRun {
  exec_error : option exn;
  rows : list DbRow;
  fetch_error : option exn
}.

Record Connection : Type := mkConnection {
  cursor_error : option exn;
  run : string -> PyDict -> QueryRun
}.

(** [**kwargs] *)
Abbreviation Kwargs := (list (string * PyVal)).

(** ** BaseMetric *)

(** [CREATE TABLE IF NOT EXISTS table (...)] *)
Record Schema : Type := mkSchema { schema_table : string; schema_columns : list string }.

(** An instance of a subclass of [BaseMetric]: the attributes set by
    [__init__] and the methods a subclass defines or overrides. [obj_id] is
    the identity of the object. *)
Record BaseMetric : Type := mkMetric {
  obj_id : nat;
  name : string;
  display_name : string;
  description : string;
  category : string;
  enabled : bool;
  collect : Connection -> Kwargs -> Collect (option PyDict);
  _get_storage_schema : option Schema;
  _get_storage_indexes : list string;
  _store_data_impl : string -> PyDict -> option string -> M unit
}.

(** [self.logger] *)
Definition metric_logger (self : BaseMetric) : logger := MetricLogger (name self).

(** The value of an [Optional[Dict]]. *)
Definition data_val (data : option PyDict) : PyVal :=
  match data with Some d => VDict d | None => VNone end.

(** [sample_id or fallback], the right operand being run only when the left
    one is false. *)
Definition or_else (sample_id : option string) (fallback : M string) : M string :=
  match sample_id with
  | Some s => if String.eqb s "" then fallback else ret s
  | None => fallback
  end.

(** [BaseMetric.log_data] *)
Definition log_data (self : BaseMetric) (data : option PyDict) (sample_id : option string)
  : M unit :=
  if negb (truthy_data data) then ret tt
  else
    (timestamp <- now_isoformat ;;
     sample_id <- or_else sample_id now_isoformat ;;
     let log_entry := VDict [("timestamp", VStr timestamp);
                             ("metric", VStr (name self));
                             ("sample_id", VStr sample_id);
                             ("data", data_val data)] in
     emit (metric_logger self) (mkLogRecord INFO (Json log_entry)))%m.

(** [BaseMetric.store_data]; [data] is a non-empty dict when the
    implementation of the subclass is reached. *)
Definition store_data (self : BaseMetric) (db_path : string) (data : option PyDict)
  (sample_id : option string) : M unit :=
  if negb (truthy_data data) then ret tt
  else _store_data_impl self db_path (default [] data) sample_id.

(** [sqlite3.connect(db_path)]: the file is created when it is missing; the
    connection works on a copy that [commit] writes back. *)
Definition sqlite3_connect (db_path : string) : M Store :=
  fun w => match files w !! db_path with
           | Some st => (Ok st, w)
           | None => (Ok ∅, set_files w (<[db_path := ∅]> (files w)))
           end.

(** [conn.commit()] *)
Definition commit (db_path : string) (conn : Store) : M unit :=
  fun w => (Ok tt, set_files w (<[db_path := conn]> (files w))).

(** [cursor.execute("CREATE TABLE IF NOT EXISTS ...")] *)
Definition create_table_if_not_exists (conn : Store) (s : Schema) : Store :=
  match conn !! schema_table s with
  | Some _ => conn
  | None => <[schema_table s := {| tbl_columns := schema_columns s; tbl_rows := [] |}]> conn
  end.

(** [BaseMetric.init_storage]; an index holds no data of its own. *)
Definition init_storage (self : BaseMetric) (db_path : string) : M unit :=
  (conn <- sqlite3_connect db_path ;;
   let conn := match _get_storage_schema self with
               | Some schema => create_table_if_not_exists conn schema
               | None => conn
               end in
   commit db_path conn)%m.

(** ** MetricRegistry *)

Record MetricRegistry : Type := mkRegistry {
  metrics : list (string * BaseMetric);
  categories : list (string * list BaseMetric)
}.

(** [MetricRegistry.__init__] *)
Definition new_registry : MetricRegistry := {| metrics := []; categories := [] |}.

(** [MetricRegistry.register] *)
Definition register (self : MetricRegistry) (metric : BaseMetric) : MetricRegistry :=
  let metrics' := dict_set (metrics self) (name metric) metric in
  let category := category metric in
  let categories' :=
    if negb (dict_contains (categories self) category)
    then dict_set (categories self) category []
    else categories self in
  let bucket := match dict_get categories' category with
                | Some b => b
                | None => []
                end in
  {| metrics := metrics';
     categories := dict_set categories' category (bucket ++ [metric]) |}.

(** [MetricRegistry.get_metric] *)
Definition get_metric (self : MetricRegistry) (name : string) : option BaseMetric :=
  dict_get (metrics self) name.

(** [MetricRegistry.get_all_metrics] *)
Definition get_all_metrics (self : MetricRegistry) : list BaseMetric :=
  dict_values (metrics self).

(** [MetricRegistry.get_metrics_by_category] *)
Definition get_metrics_by_category (self : MetricRegistry) (category : string)
  : list BaseMetric :=
  match dict_get (categories self) category with
  | Some b => b
  | None => []
  end.

(** [MetricRegistry.get_enabled_metrics] *)
Definition get_enabled_metrics (self : MetricRegistry) : list BaseMetric :=
  filter (fun m => enabled m = true) (dict_values (metrics self)).

(** [Dict[str, Dict]]: metric name to payload. *)
Abbreviation Results := (list (string * option PyDict)).

(** [metric.collect(connection, **kwargs)] run in the world: the records the
    metric gave to its logger are appended to the log. *)
Definition call_collect (metric : BaseMetric) (connection : Connection) (kwargs : Kwargs)
  : M (option PyDict) :=
  fun w =>
    let '(diag, r) := collect metric connection kwargs in
    (r, set_log w (log w ++ map (fun d => (metric_logger metric, d)) diag)).

(** [try: ... except Exception as e: handler(e)] *)
Definition try_except {A} (body : M A) (handler : exn -> M A) : M A :=
  fun w => match body w with
           | (Ok a, w') => (Ok a, w')
           | (Raise e, w') => handler e w'
           end.

(** The body of the loop of [collect_all], for one metric. *)
Definition collect_one (connection : Connection) (kwargs : Kwargs)
  (results : Results) (metric : BaseMetric) : M Results :=
  try_except
    (data <- call_collect metric connection kwargs ;;
     if truthy_data data then ret (dict_set results (name metric) data)
     else ret results)%m
    (fun e =>
       logging_error ("Error collecting " ++ name metric ++ ": " ++ exn_str e) ;;
       ret results)%m.

Fixpoint collect_loop (connection : Connection) (kwargs : Kwargs)
  (l : list BaseMetric) (results : Results) : M Results :=
  match l with
  | [] => ret results
  | metric :: l' =>
      (results' <- collect_one connection kwargs results metric ;;
       collect_loop connection kwargs l' results')%m
  end.

(** [MetricRegistry.collect_all] *)
Definition collect_all (self : MetricRegistry) (connection : Connection) (kwargs : Kwargs)
  : M Results :=
  collect_loop connection kwargs (get_enabled_metrics self) [].

(** [MetricRegistry.log_all] *)
Definition log_all (self : MetricRegistry) (data : Results)
  (sample_id : option string) : M unit :=
  for_each data (fun '(metric_name, metric_data) =>
    match get_metric self metric_name with
    | Some metric =>
        if truthy_data metric_data then log_data metric metric_data sample_id
        else ret tt
    | None => ret tt
    end).

(** [MetricRegistry.store_all] *)
Definition store_all (self : MetricRegistry) (db_path : string)
  (data : Results) (sample_id : option string) : M unit :=
  for_each data (fun '(metric_name, metric_data) =>
    match get_metric self metric_name with
    | Some metric =>
        if truthy_data metric_data then store_data metric db_path metric_data sample_id
        else ret tt
    | None => ret tt
    end).

(** ** Python operations used by the metric plugins *)

Declare Scope result_scope.
Delimit Scope result_scope with r.
Notation "x <- c1 ;; c2" := (result_bind c1 (fun x => c2))
  (at level 100, c1 at next level, right associativity) : result_scope.

(** A computation without effect on the world, run in [M]. *)
Definition lift_m {A} (r : result A) : M A := fun w => (r, w).

(** [for x in l: s = body(s, x)], the first exception ending the loop. *)
Fixpoint fold_result {A S} (l : list A) (s : S) (body : S -> A -> result S) : result S :=
  match l with
  | [] => Ok s
  | x :: l' => (s' <- body s x ;; fold_result l' s' body)%r
  end.

(** A dict display [{k1: e1, ..., kn: en}]: the values are evaluated from
    left to right and the first exception is the one raised. *)
Fixpoint build_dict (fields : list (string * result PyVal)) : result PyDict :=
  match fields with
  | [] => Ok []
  | (k, e) :: fields' =>
      (v <- e ;; d <- build_dict fields' ;; Ok ((k, v) :: d))%r
  end.

(** [row[i]] on a tuple *)
Definition getitem (row : list PyVal) (i : nat) : result PyVal :=
  match nth_error row i with
  | Some v => Ok v
  | None => Raise (OtherError "IndexError" "tuple index out of range")
  end.

(** The characters of a string, as strings. *)
Fixpoint chars (s : string) : list PyVal :=
  match s with
  | EmptyString => []
  | String c s' => VStr (String c EmptyString) :: chars s'
  end.

(** [iter(v)], all at once: a list gives its elements, a dict its keys, a
    string its characters; the other values are not iterable. *)
Definition py_iter (v : PyVal) : result (list PyVal) :=
  match v with
  | VList l => Ok l
  | VDict d => Ok (map (fun p => VStr (fst p)) d)
  | VStr s => Ok (chars s)
  | _ => Raise (OtherError "TypeError" "object is not iterable")
  end.

(** The receiver of [v.get(...)]: only a dict has the method. *)
Definition as_dict (v : PyVal) : result PyDict :=
  match v with
  | VDict d => Ok d
  | _ => Raise (OtherError "AttributeError" "object has no attribute 'get'")
  end.

(** [v.items()] *)
Definition py_items (v : PyVal) : result (list (string * PyVal)) :=
  match v with
  | VDict d => Ok d
  | _ => Raise (OtherError "AttributeError" "object has no attribute 'items'")
  end.

(** [kwargs.get(k, default)] *)
Definition kwargs_get (kwargs : Kwargs) (k : string) (default : PyVal) : PyVal :=
  match dict_get kwargs k with Some v => v | None => default end.

(** ** SQLite statements *)

(** [cursor.execute("INSERT INTO table (c1, ..., cn) VALUES (?, ..., ?)",
    (v1, ..., vn))] on the working copy of a connection. The statement is
    prepared, which needs the table and the columns it names, then the
    values are bound, then the row is appended. SQLite stores any bound
    value in a column of any declared type. *)
Definition sql_insert (conn : Store) (table : string) (row : Row) : result Store :=
  match conn !! table with
  | None => Raise (OtherError "sqlite3.OperationalError" ("no such table: " ++ table))
  | Some t =>
      match find (fun c => negb (has_column t c)) (map fst row) with
      | Some c =>
          Raise (OtherError "sqlite3.OperationalError"
                            ("table " ++ table ++ " has no column named " ++ c))
      | None =>
          match find (fun v => negb (sqlite_bindable v)) (map snd row) with
          | Some v => Raise (bind_error v)
          | None =>
              Ok (<[table := {| tbl_columns := tbl_columns t;
                                tbl_rows := tbl_rows t ++ [row] |}]> conn)
          end
      end
  end.

(** ** The storage of the metric plugins

    [fields rec cols] is the part [rec.get(c1), ..., rec.get(cn)] of the
    tuple of an INSERT, each value under the column it is bound to; the
    columns are named as the keys they are read from, in the order of the
    statement. *)
Definition fields (rec : PyDict) (cols : list string) : Row :=
  map (fun c => (c, get rec c)) cols.

(** The two leading columns of every history table. *)
Definition stamped (sample_id timestamp : string) (r : Row) : Row :=
  [("sample_id", VStr sample_id); ("timestamp", VStr timestamp)] ++ r.

Definition TopSessionsMetric_columns : list string :=
  ["sid"; "serial"; "username"; "program"; "status";
   "logical_reads_mb"; "cpu_seconds"; "event"; "sql_id";
   "machine"; "module"].

(** [TopSessionsMetric._store_data_impl] *)
Definition TopSessionsMetric_store_data_impl (db_path : string) (data : PyDict)
  (sample_id : option string) : M unit :=
  if negb (dict_contains data "sessions") then ret tt
  else
    (conn <- sqlite3_connect db_path ;;
     timestamp <- now_isoformat ;;
     let sample_id := str_or sample_id timestamp in
     conn <- lift_m
       (records <- py_iter (get data "sessions") ;;
        fold_result records conn (fun conn session =>
          session <- as_dict session ;;
          sql_insert conn "top_sessions_history"
            (stamped sample_id timestamp (fields session TopSessionsMetric_columns))))%r ;;
     commit db_path conn)%m.

Definition BlockingSessionsMetric_columns : list string :=
  ["blocking_sid"; "blocking_serial"; "blocking_user";
   "blocking_program"; "blocked_sid"; "blocked_serial";
   "blocked_user"; "blocked_program"; "wait_event";
   "wait_seconds"].

(** [BlockingSessionsMetric._store_data_impl] *)
Definition BlockingSessionsMetric_store_data_impl (db_path : string) (data : PyDict)
  (sample_id : option string) : M unit :=
  if negb (dict_contains data "blocking_sessions") then ret tt
  else
    (conn <- sqlite3_connect db_path ;;
     timestamp <- now_isoformat ;;
     let sample_id := str_or sample_id timestamp in
     conn <- lift_m
       (records <- py_iter (get data "blocking_sessions") ;;
        fold_result records conn (fun conn block =>
          block <- as_dict block ;;
          sql_insert conn "blocking_sessions_history"
            (stamped sample_id timestamp (fields block BlockingSessionsMetric_columns))))%r ;;
     commit db_path conn)%m.

Definition TablespaceUsageMetric_columns : list string :=
  ["tablespace"; "type"; "status"; "used_mb"; "allocated_mb";
   "max_mb"; "free_mb"; "pct_used"; "autoextend_headroom_mb";
   "files"; "autoextend_files"; "autoextend_capable"].

(** [TablespaceUsageMetric._store_data_impl] *)
Definition TablespaceUsageMetric_store_data_impl (db_path : string) (data : PyDict)
  (sample_id : option string) : M unit :=
  if negb (dict_contains data "tablespaces") then ret tt
  else
    (conn <- sqlite3_connect db_path ;;
     timestamp <- now_isoformat ;;
     let sample_id := str_or sample_id timestamp in
     conn <- lift_m
       (records <- py_iter (get data "tablespaces") ;;
        fold_result records conn (fun conn ts =>
          ts <- as_dict ts ;;
          sql_insert conn "tablespace_usage_history"
            (stamped sample_id timestamp (fields ts TablespaceUsageMetric_columns))))%r ;;
     commit db_path conn)%m.

Definition WaitEventsMetric_columns : list string :=
  ["event"; "total_waits"; "total_wait_seconds"; "avg_wait_ms"].

(** [WaitEventsMetric._store_data_impl] *)
Definition WaitEventsMetric_store_data_impl (db_path : string) (data : PyDict)
  (sample_id : option string) : M unit :=
  if negb (dict_contains data "wait_events") then ret tt
  else
    (conn <- sqlite3_connect db_path ;;
     timestamp <- now_isoformat ;;
     sample_id <- or_else sample_id now_isoformat ;;
     conn <- lift_m
       (records <- py_iter (get data "wait_events") ;;
        fold_result records conn (fun conn event =>
          event <- as_dict event ;;
          sql_insert conn "wait_events_history"
            (stamped sample_id timestamp (fields event WaitEventsMetric_columns))))%r ;;
     commit db_path conn)%m.

Definition TempUsageMetric_columns : list string :=
  ["sid"; "username"; "program"; "tablespace"; "segtype";
   "used_mb"].

(** [TempUsageMetric._store_data_impl] *)
Definition TempUsageMetric_store_data_impl (db_path : string) (data : PyDict)
  (sample_id : option string) : M unit :=
  if negb (dict_contains data "temp_usage") then ret tt
  else
    (conn <- sqlite3_connect db_path ;;
     timestamp <- now_isoformat ;;
     sample_id <- or_else sample_id now_isoformat ;;
     conn <- lift_m
       (records <- py_iter (get data "temp_usage") ;;
        fold_result records conn (fun conn temp =>
          temp <- as_dict temp ;;
          sql_insert conn "temp_usage_history"
            (stamped sample_id timestamp (fields temp TempUsageMetric_columns))))%r ;;
     commit db_path conn)%m.

Definition PlanChurnMetric_columns : list string :=
  ["sql_id"; "plan_hash_value"; "executions";
   "elapsed_seconds"; "buffer_gets"; "disk_reads";
   "rows_processed"; "last_active_time"].

(** [PlanChurnMetric._store_data_impl] *)
Definition PlanChurnMetric_store_data_impl (db_path : string) (data : PyDict)
  (sample_id : option string) : M unit :=
  if negb (dict_contains data "plans") then ret tt
  else
    (conn <- sqlite3_connect db_path ;;
     timestamp <- now_isoformat ;;
     sample_id <- or_else sample_id now_isoformat ;;
     conn <- lift_m
       (records <- py_iter (get data "plans") ;;
        fold_result records conn (fun conn plan =>
          plan <- as_dict plan ;;
          sql_insert conn "plan_churn_history"
            (stamped sample_id timestamp (fields plan PlanChurnMetric_columns))))%r ;;
     commit db_path conn)%m.

Definition IOSessionsMetric_columns : list string :=
  ["sid"; "username"; "program"; "status"; "sql_id";
   "read_mb"; "write_mb"].

(** [IOSessionsMetric._store_data_impl] *)
Definition IOSessionsMetric_store_data_impl (db_path : string) (data : PyDict)
  (sample_id : option string) : M unit :=
  if negb (dict_contains data "io_sessions") then ret tt
  else
    (conn <- sqlite3_connect db_path ;;
     timestamp <- now_isoformat ;;
     sample_id <- or_else sample_id now_isoformat ;;
     conn <- lift_m
       (records <- py_iter (get data "io_sessions") ;;
        fold_result records conn (fun conn session =>
          session <- as_dict session ;;
          sql_insert conn "io_sessions_history"
            (stamped sample_id timestamp (fields session IOSessionsMetric_columns))))%r ;;
     commit db_path conn)%m.

(** [ResourceLimitsMetric._store_data_impl] *)
Definition ResourceLimitsMetric_store_data_impl (db_path : string) (data : PyDict)
  (sample_id : option string) : M unit :=
  if negb (dict_contains data "limits") then ret tt
  else
    (conn <- sqlite3_connect db_path ;;
     timestamp <- now_isoformat ;;
     sample_id <- or_else sample_id now_isoformat ;;
     conn <- lift_m
       (items <- py_items (get data "limits") ;;
        fold_result items conn (fun conn '(resource_name, limit) =>
          limit <- as_dict limit ;;
          sql_insert conn "resource_limits_history"
            (stamped sample_id timestamp
               [("resource_name", VStr resource_name);
                ("current_utilization", get limit "current");
                ("max_utilization", get limit "max");
                ("limit_value", get limit "limit")])))%r ;;
     commit db_path conn)%m.

Definition SessionOverviewMetric_columns : list string :=
  ["total_sessions"; "active_sessions"; "inactive_sessions";
   "blocked_sessions"; "logical_reads_mb";
   "physical_reads_mb"; "cpu_seconds"].

(** [SessionOverviewMetric._store_data_impl] *)
Definition SessionOverviewMetric_store_data_impl (db_path : string) (data : PyDict)
  (sample_id : option string) : M unit :=
  (conn <- sqlite3_connect db_path ;;
   sample_id <- or_else sample_id now_isoformat ;;
   timestamp <- now_isoformat ;;
   conn <- lift_m (sql_insert conn "session_overview_history"
                     (stamped sample_id timestamp (fields data SessionOverviewMetric_columns))) ;;
   commit db_path conn)%m.

Definition UndoMetricsMetric_columns : list string :=
  ["undo_retention"; "active_transactions"; "undo_mb_active";
   "undo_mb_total"].

(** [UndoMetricsMetric._store_data_impl] *)
Definition UndoMetricsMetric_store_data_impl (db_path : string) (data : PyDict)
  (sample_id : option string) : M unit :=
  (conn <- sqlite3_connect db_path ;;
   timestamp <- now_isoformat ;;
   let sample_id := str_or sample_id timestamp in
   conn <- lift_m (sql_insert conn "undo_metrics_history"
                     (stamped sample_id timestamp (fields data UndoMetricsMetric_columns))) ;;
   commit db_path conn)%m.

Definition RedoMetricsMetric_columns : list string :=
  ["redo_size"; "redo_writes"; "redo_write_time"].

(** [RedoMetricsMetric._store_data_impl] *)
Definition RedoMetricsMetric_store_data_impl (db_path : string) (data : PyDict)
  (sample_id : option string) : M unit :=
  (conn <- sqlite3_connect db_path ;;
   timestamp <- now_isoformat ;;
   let sample_id := str_or sample_id timestamp in
   conn <- lift_m (sql_insert conn "redo_metrics_history"
                     (stamped sample_id timestamp (fields data RedoMetricsMetric_columns))) ;;
   commit db_path conn)%m.

Definition HostMetricsMetric_columns : list string :=
  ["cpu_percent"; "cpu_count"; "process_cpu_percent";
   "memory_percent"; "memory_used_gb"; "memory_total_gb";
   "swap_percent"; "process_memory_mb"].

(** [HostMetricsMetric._store_data_impl] *)
Definition HostMetricsMetric_store_data_impl (db_path : string) (data : PyDict)
  (sample_id : option string) : M unit :=
  (conn <- sqlite3_connect db_path ;;
   timestamp <- now_isoformat ;;
   let sample_id := str_or sample_id timestamp in
   conn <- lift_m (sql_insert conn "host_metrics_history"
                     (stamped sample_id timestamp (fields data HostMetricsMetric_columns))) ;;
   commit db_path conn)%m.

(** ** The queries

    The text of each query, white space collapsed. The monitored database is
    a function of the text and of the bind values, so nothing below depends
    on what a query says. *)

Definition statname_query : string :=
  ("SELECT statistic# FROM v$statname WHERE name = :name")%string.

Definition session_overview_query : string :=
  ("SELECT COUNT(*) AS total_sessions, COUNT(CASE WHEN s.status = "
   ++ "'ACTIVE' THEN 1 END) AS active_sessions, COUNT(CASE WHEN s.status "
   ++ "= 'INACTIVE' THEN 1 END) AS inactive_sessions, COUNT(CASE WHEN "
   ++ "s.blocking_session IS NOT NULL THEN 1 END) AS blocked_sessions, "
   ++ "ROUND(SUM(CASE WHEN stat.statistic# = :stat_logical THEN "
   ++ "stat.value ELSE 0 END) / 1024 / 1024, 2) AS "
   ++ "total_logical_reads_mb, ROUND(SUM(CASE WHEN stat.statistic# = "
   ++ ":stat_physical THEN stat.value ELSE 0 END) / 1024 / 1024, 2) AS "
   ++ "total_physical_reads_mb, ROUND(SUM(CASE WHEN stat.statistic# = "
   ++ ":stat_cpu THEN stat.value ELSE 0 END) / 100, 2) AS "
   ++ "total_cpu_seconds FROM v$session s LEFT JOIN v$sesstat stat ON "
   ++ "s.sid = stat.sid AND stat.statistic# IN (:stat_logical, "
   ++ ":stat_physical, :stat_cpu) WHERE s.username IS NOT NULL")%string.

Definition top_sessions_query : string :=
  ("SELECT s.sid, s.serial#, s.username, s.program, s.status, "
   ++ "ROUND(MAX(CASE WHEN stat.statistic# = :stat_logical THEN "
   ++ "stat.value ELSE 0 END) / 1024 / 1024, 2) AS logical_reads_mb, "
   ++ "ROUND(MAX(CASE WHEN stat.statistic# = :stat_cpu THEN stat.value "
   ++ "ELSE 0 END) / 100, 2) AS cpu_seconds, s.event, s.sql_id, "
   ++ "s.machine, s.module FROM v$session s LEFT JOIN v$sesstat stat ON "
   ++ "s.sid = stat.sid AND stat.statistic# IN (:stat_logical, :stat_cpu)"
   ++ " WHERE s.username IS NOT NULL GROUP BY s.sid, s.serial#, "
   ++ "s.username, s.program, s.status, s.event, s.sql_id, s.machine, "
   ++ "s.module ORDER BY MAX(CASE WHEN stat.statistic# = :stat_logical "
   ++ "THEN stat.value ELSE 0 END) DESC FETCH FIRST :limit ROWS ONLY")%string.

Definition blocking_sessions_query : string :=
  ("SELECT blocking.sid AS blocking_sid, blocking.serial# AS "
   ++ "blocking_serial, blocking.username AS blocking_user, "
   ++ "blocking.program AS blocking_program, blocked.sid AS blocked_sid, "
   ++ "blocked.serial# AS blocked_serial, blocked.username AS "
   ++ "blocked_user, blocked.program AS blocked_program, blocked.event AS"
   ++ " wait_event, blocked.seconds_in_wait AS wait_seconds FROM "
   ++ "v$session blocking JOIN v$session blocked ON blocking.sid = "
   ++ "blocked.blocking_session WHERE blocking.username IS NOT NULL ORDER"
   ++ " BY blocked.seconds_in_wait DESC")%string.

Definition io_sessions_query : string :=
  ("SELECT s.sid, s.username, s.program, s.status, s.sql_id, "
   ++ "ROUND(i.block_gets + i.consistent_gets / 1024 / 128, 2) AS "
   ++ "read_mb, ROUND(i.physical_writes / 1024 / 128, 2) AS write_mb FROM"
   ++ " v$session s JOIN v$sess_io i ON s.sid = i.sid WHERE s.username IS"
   ++ " NOT NULL ORDER BY (i.block_gets + i.consistent_gets) DESC FETCH "
   ++ "FIRST :limit ROWS ONLY")%string.

Definition plan_churn_query : string :=
  ("SELECT sql_id, plan_hash_value, executions, elapsed_time/1000000 "
   ++ "AS elapsed_seconds, buffer_gets, disk_reads, rows_processed, "
   ++ "last_active_time FROM v$sql WHERE executions > 0 ORDER BY "
   ++ "executions DESC FETCH FIRST :limit ROWS ONLY")%string.

Definition redo_metrics_query : string :=
  ("SELECT name, value FROM v$sysstat WHERE name IN ('redo size', "
   ++ "'redo writes', 'redo write time')")%string.

Definition resource_limits_query : string :=
  ("SELECT resource_name, current_utilization, max_utilization, "
   ++ "limit_value FROM v$resource_limit WHERE resource_name IN "
   ++ "('processes', 'sessions')")%string.

Definition tablespace_usage_query : string :=
  ("SELECT ts.tablespace_name, ts.contents AS type, ts.status, "
   ++ "NVL(df.used_mb, 0) AS used_mb, NVL(df.allocated_mb, 0) AS "
   ++ "allocated_mb, NVL(df.max_mb, 0) AS max_mb, NVL(df.allocated_mb - "
   ++ "df.used_mb, 0) AS free_mb, CASE WHEN NVL(df.allocated_mb, 0) > 0 "
   ++ "THEN ROUND((NVL(df.used_mb, 0) / df.allocated_mb) * 100, 2) ELSE 0"
   ++ " END AS pct_used, NVL(df.max_mb - df.allocated_mb, 0) AS "
   ++ "autoextend_headroom_mb, NVL(df.file_count, 0) AS files, "
   ++ "NVL(df.autoextend_count, 0) AS autoextend_files, CASE WHEN "
   ++ "NVL(df.autoextend_count, 0) > 0 THEN 1 ELSE 0 END AS "
   ++ "autoextend_capable FROM dba_tablespaces ts LEFT JOIN ( SELECT "
   ++ "tablespace_name, ROUND(SUM(bytes) / 1024 / 1024, 2) AS "
   ++ "allocated_mb, ROUND(SUM(CASE WHEN maxbytes = 0 THEN bytes ELSE "
   ++ "maxbytes END) / 1024 / 1024, 2) AS max_mb, COUNT(*) AS file_count,"
   ++ " SUM(CASE WHEN maxbytes > bytes THEN 1 ELSE 0 END) AS "
   ++ "autoextend_count, ROUND(SUM(bytes - NVL((SELECT SUM(bytes) FROM "
   ++ "dba_free_space WHERE tablespace_name = df.tablespace_name), 0)) / "
   ++ "1024 / 1024, 2) AS used_mb FROM dba_data_files df GROUP BY "
   ++ "tablespace_name ) df ON ts.tablespace_name = df.tablespace_name "
   ++ "WHERE ts.contents != 'UNDO' ORDER BY pct_used DESC")%string.

Definition temp_usage_query : string :=
  ("SELECT s.sid, s.username, s.program, t.tablespace, t.segtype, "
   ++ "ROUND(SUM(t.blocks * 8192) / 1024 / 1024, 2) AS used_mb FROM "
   ++ "v$tempseg_usage t JOIN v$session s ON t.session_addr = s.saddr "
   ++ "GROUP BY s.sid, s.username, s.program, t.tablespace, t.segtype "
   ++ "ORDER BY used_mb DESC")%string.

Definition undo_metrics_query : string :=
  ("SELECT (SELECT value FROM v$parameter WHERE name = "
   ++ "'undo_retention') AS undo_retention, (SELECT COUNT(*) FROM "
   ++ "v$transaction) AS active_transactions, (SELECT "
   ++ "SUM(bytes)/1024/1024 FROM dba_undo_extents WHERE status = "
   ++ "'ACTIVE') AS undo_mb_active, (SELECT SUM(bytes)/1024/1024 FROM "
   ++ "dba_undo_extents) AS undo_mb_total FROM dual")%string.

Definition wait_events_query : string :=
  ("SELECT event, total_waits, time_waited / 100 AS "
   ++ "total_wait_seconds, CASE WHEN total_waits > 0 THEN time_waited / "
   ++ "total_waits / 1000 ELSE 0 END AS avg_wait_ms FROM v$system_event "
   ++ "WHERE wait_class != 'Idle' ORDER BY time_waited DESC FETCH FIRST "
   ++ ":limit ROWS ONLY")%string.

(** ** Cursors *)

(** A cursor: the database it queries and what is left to fetch from its
    last statement. [cursor.close()] is taken to succeed; it has no effect
    that is observed. *)
Record Cursor : Type := mkCursor {
  cur_run : string -> PyDict -> QueryRun;
  cur_rows : list DbRow;
  cur_fetch_error : option exn
}.

(** [connection.cursor()] *)
Definition cursor (connection : Connection) : result Cursor :=
  match cursor_error connection with
  | Some e => Raise e
  | None => Ok {| cur_run := run connection; cur_rows := []; cur_fetch_error := None |}
  end.

(** [cursor.execute(query, binds)] *)
Definition execute (cursor : Cursor) (query : string) (binds : PyDict) : result Cursor :=
  let r := cur_run cursor query binds in
  match exec_error r with
  | Some e => Raise e
  | None => Ok {| cur_run := cur_run cursor; cur_rows := rows r;
                  cur_fetch_error := fetch_error r |}
  end.

(** [cursor.fetchone()] *)
Definition fetchone (cursor : Cursor) : result (option DbRow) :=
  match cur_rows cursor with
  | r :: _ => Ok (Some r)
  | [] => match cur_fetch_error cursor with
          | Some e => Raise e
          | None => Ok None
          end
  end.

Fixpoint each_row {A} (rows : list DbRow) (fetch_error : option exn)
  (body : DbRow -> result A) : result (list A) :=
  match rows with
  | [] => match fetch_error with
          | Some e => Raise e
          | None => Ok []
          end
  | r :: rows' =>
      (a <- body r ;; l <- each_row rows' fetch_error body ;; Ok (a :: l))%r
  end.

(** [[body(row) for row in cursor]], also written as a loop that appends. *)
Definition for_rows {A} (cursor : Cursor) (body : DbRow -> result A) : result (list A) :=
  each_row (cur_rows cursor) (cur_fetch_error cursor) body.

(** ** The collectors *)

(** The conversions of the Python library that the collectors call and that
    are not computed here: the parsers behind [float(s)] and [int(s)] on a
    string ([None] when they raise [ValueError]), [str(v)] on a value that is
    not a string, and [s.lower()]. *)
Record Builtins : Type := mkBuiltins {
  float_of_str : string -> option Q;
  int_of_str : string -> option Z;
  str_of : PyVal -> string;
  str_lower : string -> string
}.

Section Collectors.
Variable py : Builtins.

(** [float(v)] *)
Definition py_float (v : PyVal) : result PyVal :=
  match v with
  | VInt z => Ok (VFloat (inject_Z z))
  | VFloat q => Ok (VFloat q)
  | VBool b => Ok (VFloat (inject_Z (if b then 1 else 0)))
  | VStr s => match float_of_str py s with
              | Some q => Ok (VFloat q)
              | None => Raise (OtherError "ValueError" "could not convert string to float")
              end
  | _ => Raise (OtherError "TypeError" "float() argument must be a string or a real number")
  end.

(** [int(v)]; a float is truncated towards zero. *)
Definition py_int (v : PyVal) : result PyVal :=
  match v with
  | VInt z => Ok (VInt z)
  | VFloat q => Ok (VInt (Z.quot (Qnum q) (Zpos (Qden q))))
  | VBool b => Ok (VInt (if b then 1 else 0))
  | VStr s => match int_of_str py s with
              | Some z => Ok (VInt z)
              | None => Raise (OtherError "ValueError" "invalid literal for int()")
              end
  | _ => Raise (OtherError "TypeError" "int() argument must be a string or a real number")
  end.

(** [str(v)] *)
Definition py_str (v : PyVal) : PyVal :=
  match v with
  | VStr s => VStr s
  | _ => VStr (str_of py v)
  end.

(** [v.lower()] *)
Definition py_lower (v : PyVal) : result string :=
  match v with
  | VStr s => Ok (str_lower py s)
  | _ => Raise (OtherError "AttributeError" "object has no attribute 'lower'")
  end.

(** [row[i] or 0], [row[i] or 'N/A'], [float(row[i] or 0)],
    [int(row[i] or 0)], [str(row[i])] *)
Definition or_0 (row : DbRow) (i : nat) : result PyVal :=
  (x <- getitem row i ;; Ok (py_or x (VInt 0)))%r.
Definition or_na (row : DbRow) (i : nat) : result PyVal :=
  (x <- getitem row i ;; Ok (py_or x (VStr "N/A")))%r.
Definition float_or_0 (row : DbRow) (i : nat) : result PyVal :=
  (x <- getitem row i ;; py_float (py_or x (VInt 0)))%r.
Definition int_or_0 (row : DbRow) (i : nat) : result PyVal :=
  (x <- getitem row i ;; py_int (py_or x (VInt 0)))%r.
Definition str_at (row : DbRow) (i : nat) : result PyVal :=
  (x <- getitem row i ;; Ok (py_str x))%r.

(** [{key: records, 'count': len(records)}] *)
Definition counted (key : string) (records : list PyDict) : PyDict :=
  [(key, VList (map VDict records)); ("count", VInt (Z.of_nat (length records)))].

(** [_get_statistic_id] of [SessionOverviewMetric] and [TopSessionsMetric]
    (the two methods have the same text). *)
Definition _get_statistic_id (cursor : Cursor) (stat_name : string) : Collect PyVal :=
  try_except_oracledb
    (lift (cursor <- execute cursor statname_query [("name", VStr stat_name)] ;;
           result <- fetchone cursor ;;
           match result with
           | Some (r0 :: _) => Ok r0
           | _ => Ok VNone
           end)%r)
    (fun _ => cret VNone).

(** The body of the [try] of [SessionOverviewMetric.collect]. *)
Definition SessionOverviewMetric_collect_body (connection : Connection) (kwargs : Kwargs)
  : Collect (option PyDict) :=
  (cursor <- lift (cursor connection) ;;
   stat_logical <- _get_statistic_id cursor "session logical reads" ;;
   stat_physical <- _get_statistic_id cursor "physical reads" ;;
   stat_cpu <- _get_statistic_id cursor "CPU used by this session" ;;
   if negb (forallb truthy [stat_logical; stat_physical; stat_cpu]) then cret None
   else
     lift (cursor <- execute cursor session_overview_query
                       [("stat_logical", stat_logical);
                        ("stat_physical", stat_physical);
                        ("stat_cpu", stat_cpu)] ;;
           row <- fetchone cursor ;;
           match row with
           | Some ((_ :: _) as row) =>
               d <- build_dict [("total_sessions", or_0 row 0);
                                ("active_sessions", or_0 row 1);
                                ("inactive_sessions", or_0 row 2);
                                ("blocked_sessions", or_0 row 3);
                                ("logical_reads_mb", float_or_0 row 4);
                                ("physical_reads_mb", float_or_0 row 5);
                                ("cpu_seconds", float_or_0 row 6)] ;;
               Ok (Some d)
           | _ => Ok None
           end)%r)%collect.

(** [SessionOverviewMetric.collect] *)
Definition SessionOverviewMetric_collect (connection : Connection) (kwargs : Kwargs)
  : Collect (option PyDict) :=
  try_except_oracledb
    (SessionOverviewMetric_collect_body connection kwargs)
    (fun e =>
       logger_error ("Error collecting session overview: " ++ exn_str e) ;;
       cret None)%collect.

(** The body of the [try] of [TopSessionsMetric.collect]. *)
Definition TopSessionsMetric_collect_body (connection : Connection) (kwargs : Kwargs)
  : Collect (option PyDict) :=
  let limit := kwargs_get kwargs "limit" (VInt 20) in
  (cursor <- lift (cursor connection) ;;
   stat_logical <- _get_statistic_id cursor "session logical reads" ;;
   stat_cpu <- _get_statistic_id cursor "CPU used by this session" ;;
   if negb (forallb truthy [stat_logical; stat_cpu]) then cret None
   else
     lift (cursor <- execute cursor top_sessions_query
                       [("stat_logical", stat_logical);
                        ("stat_cpu", stat_cpu);
                        ("limit", limit)] ;;
           sessions <- for_rows cursor (fun row =>
             build_dict [("sid", getitem row 0);
                         ("serial", getitem row 1);
                         ("username", or_na row 2);
                         ("program", or_na row 3);
                         ("status", or_na row 4);
                         ("logical_reads_mb", float_or_0 row 5);
                         ("cpu_seconds", float_or_0 row 6);
                         ("event", or_na row 7);
                         ("sql_id", or_na row 8);
                         ("machine", or_na row 9);
                         ("module", or_na row 10)]) ;;
           Ok (Some (counted "sessions" sessions)))%r)%collect.

(** [TopSessionsMetric.collect] *)
Definition TopSessionsMetric_collect (connection : Connection) (kwargs : Kwargs)
  : Collect (option PyDict) :=
  try_except_oracledb
    (TopSessionsMetric_collect_body connection kwargs)
    (fun e =>
       logger_error ("Error collecting top sessions: " ++ exn_str e) ;;
       cret None)%collect.

(** The body of the [try] of [BlockingSessionsMetric.collect]. *)
Definition BlockingSessionsMetric_collect_body (connection : Connection)
  (kwargs : Kwargs) : Collect (option PyDict) :=
  lift (cursor <- cursor connection ;;
        cursor <- execute cursor blocking_sessions_query [] ;;
        blocking_info <- for_rows cursor (fun row =>
          build_dict [("blocking_sid", getitem row 0);
                      ("blocking_serial", getitem row 1);
                      ("blocking_user", or_na row 2);
                      ("blocking_program", or_na row 3);
                      ("blocked_sid", getitem row 4);
                      ("blocked_serial", getitem row 5);
                      ("blocked_user", or_na row 6);
                      ("blocked_program", or_na row 7);
                      ("wait_event", or_na row 8);
                      ("wait_seconds", or_0 row 9)]) ;;
        Ok (Some (counted "blocking_sessions" blocking_info)))%r.

(** [BlockingSessionsMetric.collect] *)
Definition BlockingSessionsMetric_collect (connection : Connection) (kwargs : Kwargs)
  : Collect (option PyDict) :=
  try_except_oracledb
    (BlockingSessionsMetric_collect_body connection kwargs)
    (fun e =>
       logger_error ("Error collecting blocking sessions: " ++ exn_str e) ;;
       cret None)%collect.

(** The body of the [try] of [TablespaceUsageMetric.collect]. *)
Definition TablespaceUsageMetric_collect_body (connection : Connection)
  (kwargs : Kwargs) : Collect (option PyDict) :=
  lift (cursor <- cursor connection ;;
        cursor <- execute cursor tablespace_usage_query [] ;;
        tablespaces <- for_rows cursor (fun row =>
          build_dict [("tablespace", getitem row 0);
                      ("type", getitem row 1);
                      ("status", getitem row 2);
                      ("used_mb", float_or_0 row 3);
                      ("allocated_mb", float_or_0 row 4);
                      ("max_mb", float_or_0 row 5);
                      ("free_mb", float_or_0 row 6);
                      ("pct_used", float_or_0 row 7);
                      ("autoextend_headroom_mb", float_or_0 row 8);
                      ("files", int_or_0 row 9);
                      ("autoextend_files", int_or_0 row 10);
                      ("autoextend_capable", int_or_0 row 11)]) ;;
        Ok (Some (counted "tablespaces" tablespaces)))%r.

(** [TablespaceUsageMetric.collect] *)
Definition TablespaceUsageMetric_collect (connection : Connection) (kwargs : Kwargs)
  : Collect (option PyDict) :=
  try_except_oracledb
    (TablespaceUsageMetric_collect_body connection kwargs)
    (fun e =>
       logger_error ("Error collecting tablespace usage: " ++ exn_str e) ;;
       cret None)%collect.

(** The body of the [try] of [WaitEventsMetric.collect]. *)
Definition WaitEventsMetric_collect_body (connection : Connection) (kwargs : Kwargs)
  : Collect (option PyDict) :=
  let limit := kwargs_get kwargs "limit" (VInt 20) in
  lift (cursor <- cursor connection ;;
        cursor <- execute cursor wait_events_query [("limit", limit)] ;;
        events <- for_rows cursor (fun r =>
          build_dict [("event", getitem r 0);
                      ("total_waits", getitem r 1);
                      ("total_wait_seconds", float_or_0 r 2);
                      ("avg_wait_ms", float_or_0 r 3)]) ;;
        Ok (Some (counted "wait_events" events)))%r.

(** [WaitEventsMetric.collect] *)
Definition WaitEventsMetric_collect (connection : Connection) (kwargs : Kwargs)
  : Collect (option PyDict) :=
  try_except_oracledb
    (WaitEventsMetric_collect_body connection kwargs)
    (fun e =>
       logger_error ("Error collecting wait events: " ++ exn_str e) ;;
       cret None)%collect.

(** The body of the [try] of [TempUsageMetric.collect]. *)
Definition TempUsageMetric_collect_body (connection : Connection) (kwargs : Kwargs)
  : Collect (option PyDict) :=
  lift (cursor <- cursor connection ;;
        cursor <- execute cursor temp_usage_query [] ;;
        temp_usage <- for_rows cursor (fun r =>
          build_dict [("sid", getitem r 0);
                      ("username", or_na r 1);
                      ("program", or_na r 2);
                      ("tablespace", getitem r 3);
                      ("segtype", getitem r 4);
                      ("used_mb", float_or_0 r 5)]) ;;
        Ok (Some (counted "temp_usage" temp_usage)))%r.

(** [TempUsageMetric.collect] *)
Definition TempUsageMetric_collect (connection : Connection) (kwargs : Kwargs)
  : Collect (option PyDict) :=
  try_except_oracledb
    (TempUsageMetric_collect_body connection kwargs)
    (fun e =>
       logger_error ("Error collecting temp usage: " ++ exn_str e) ;;
       cret None)%collect.

(** The body of the [try] of [PlanChurnMetric.collect]. *)
Definition PlanChurnMetric_collect_body (connection : Connection) (kwargs : Kwargs)
  : Collect (option PyDict) :=
  let limit := kwargs_get kwargs "limit" (VInt 20) in
  lift (cursor <- cursor connection ;;
        cursor <- execute cursor plan_churn_query [("limit", limit)] ;;
        plans <- for_rows cursor (fun r =>
          build_dict [("sql_id", getitem r 0);
                      ("plan_hash_value", getitem r 1);
                      ("executions", getitem r 2);
                      ("elapsed_seconds", float_or_0 r 3);
                      ("buffer_gets", getitem r 4);
                      ("disk_reads", getitem r 5);
                      ("rows_processed", getitem r 6);
                      ("last_active_time", str_at r 7)]) ;;
        Ok (Some (counted "plans" plans)))%r.

(** [PlanChurnMetric.collect] *)
Definition PlanChurnMetric_collect (connection : Connection) (kwargs : Kwargs)
  : Collect (option PyDict) :=
  try_except_oracledb
    (PlanChurnMetric_collect_body connection kwargs)
    (fun e =>
       logger_error ("Error collecting plan churn: " ++ exn_str e) ;;
       cret None)%collect.

(** The body of the [try] of [IOSessionsMetric.collect]. *)
Definition IOSessionsMetric_collect_body (connection : Connection) (kwargs : Kwargs)
  : Collect (option PyDict) :=
  let limit := kwargs_get kwargs "limit" (VInt 20) in
  lift (cursor <- cursor connection ;;
        cursor <- execute cursor io_sessions_query [("limit", limit)] ;;
        sessions <- for_rows cursor (fun r =>
          build_dict [("sid", getitem r 0);
                      ("username", or_na r 1);
                      ("program", or_na r 2);
                      ("status", getitem r 3);
                      ("sql_id", or_na r 4);
                      ("read_mb", float_or_0 r 5);
                      ("write_mb", float_or_0 r 6)]) ;;
        Ok (Some (counted "io_sessions" sessions)))%r.

(** [IOSessionsMetric.collect] *)
Definition IOSessionsMetric_collect (connection : Connection) (kwargs : Kwargs)
  : Collect (option PyDict) :=
  try_except_oracledb
    (IOSessionsMetric_collect_body connection kwargs)
    (fun e =>
       logger_error ("Error collecting IO sessions: " ++ exn_str e) ;;
       cret None)%collect.

(** [row[i]] on the result of [fetchone], which is a tuple or [None]. *)
Definition subscript (row : option DbRow) (i : nat) : result PyVal :=
  match row with
  | Some row => getitem row i
  | None => Raise (OtherError "TypeError" "'NoneType' object is not subscriptable")
  end.

(** The body of the [try] of [UndoMetricsMetric.collect]. *)
Definition UndoMetricsMetric_collect_body (connection : Connection) (kwargs : Kwargs)
  : Collect (option PyDict) :=
  lift (cursor <- cursor connection ;;
        cursor <- execute cursor undo_metrics_query [] ;;
        row <- fetchone cursor ;;
        d <- build_dict
               [("undo_retention", (x <- subscript row 0 ;; py_int (py_or x (VInt 0))));
                ("active_transactions",
                 (x <- subscript row 1 ;; py_int (py_or x (VInt 0))));
                ("undo_mb_active", (x <- subscript row 2 ;; py_float (py_or x (VInt 0))));
                ("undo_mb_total", (x <- subscript row 3 ;; py_float (py_or x (VInt 0))))] ;;
        Ok (Some d))%r.

(** [UndoMetricsMetric.collect] *)
Definition UndoMetricsMetric_collect (connection : Connection) (kwargs : Kwargs)
  : Collect (option PyDict) :=
  try_except_oracledb
    (UndoMetricsMetric_collect_body connection kwargs)
    (fun e =>
       logger_error ("Error collecting undo metrics: " ++ exn_str e) ;;
       cret None)%collect.

(** A key of a dict has to be hashable. *)
Definition hashable (v : PyVal) : bool :=
  match v with
  | VList _ | VDict _ => false
  | _ => true
  end.

(** [metrics.get(k, 0)] on the dict [{row[0]: float(row[1]) for row in
    cursor}], kept as the list of its assignments: the last assignment to
    the string [k] is the value. *)
Definition comprehension_get (assignments : list (PyVal * PyVal)) (k : string) : PyVal :=
  match find (fun p => match fst p with VStr s => String.eqb s k | _ => false end)
             (rev assignments) with
  | Some p => snd p
  | None => VInt 0
  end.

(** The body of the [try] of [RedoMetricsMetric.collect]. *)
Definition RedoMetricsMetric_collect_body (connection : Connection) (kwargs : Kwargs)
  : Collect (option PyDict) :=
  lift (cursor <- cursor connection ;;
        cursor <- execute cursor redo_metrics_query [] ;;
        metrics <- for_rows cursor (fun row =>
          k <- getitem row 0 ;;
          x <- getitem row 1 ;;
          v <- py_float x ;;
          if hashable k then Ok (k, v)
          else Raise (OtherError "TypeError" "unhashable type")) ;;
        Ok (Some [("redo_size", comprehension_get metrics "redo size");
                  ("redo_writes", comprehension_get metrics "redo writes");
                  ("redo_write_time", comprehension_get metrics "redo write time")]))%r.

(** [RedoMetricsMetric.collect] *)
Definition RedoMetricsMetric_collect (connection : Connection) (kwargs : Kwargs)
  : Collect (option PyDict) :=
  try_except_oracledb
    (RedoMetricsMetric_collect_body connection kwargs)
    (fun e =>
       logger_error ("Error collecting redo metrics: " ++ exn_str e) ;;
       cret None)%collect.

(** The loop of [ResourceLimitsMetric.collect]: the value is built before
    the key is computed. *)
Fixpoint resource_limits_rows (rows : list DbRow) (fetch_error : option exn)
  (limits : PyDict) : result PyDict :=
  match rows with
  | [] => match fetch_error with
          | Some e => Raise e
          | None => Ok limits
          end
  | row :: rows' =>
      (d <- build_dict [("current", int_or_0 row 1);
                        ("max", int_or_0 row 2);
                        ("limit", str_at row 3)] ;;
       r0 <- getitem row 0 ;;
       k <- py_lower r0 ;;
       resource_limits_rows rows' fetch_error (dict_set limits k (VDict d)))%r
  end.

(** The body of the [try] of [ResourceLimitsMetric.collect]. *)
Definition ResourceLimitsMetric_collect_body (connection : Connection)
  (kwargs : Kwargs) : Collect (option PyDict) :=
  lift (cursor <- cursor connection ;;
        cursor <- execute cursor resource_limits_query [] ;;
        limits <- resource_limits_rows (cur_rows cursor) (cur_fetch_error cursor) [] ;;
        Ok (Some [("limits", VDict limits)]))%r.

(** [ResourceLimitsMetric.collect] *)
Definition ResourceLimitsMetric_collect (connection : Connection) (kwargs : Kwargs)
  : Collect (option PyDict) :=
  try_except_oracledb
    (ResourceLimitsMetric_collect_body connection kwargs)
    (fun e =>
       logger_error ("Error collecting resource limits: " ++ exn_str e) ;;
       cret None)%collect.
End Collectors.

(** The readings of [psutil] that [HostMetricsMetric.collect] puts in its
    payload. *)
Record HostSample : Type := mkHostSample {
  cpu_percent : PyVal;
  cpu_count : PyVal;
  process_cpu_percent : PyVal;
  memory_percent : PyVal;
  memory_used_gb : PyVal;
  memory_total_gb : PyVal;
  swap_percent : PyVal;
  load_avg : PyVal;
  process_memory_mb : PyVal
}.

(** [HostMetricsMetric.collect]. The host is [psutil]: [None] when the
    module cannot be imported, else the readings or the exception that taking
    them raises. *)
Definition HostMetricsMetric_collect (psutil : option (result HostSample))
  (connection : Connection) (kwargs : Kwargs) : Collect (option PyDict) :=
  match psutil with
  | None => cret None
  | Some (Ok h) =>
      cret (Some [("cpu_percent", cpu_percent h);
                  ("cpu_count", cpu_count h);
                  ("process_cpu_percent", process_cpu_percent h);
                  ("memory_percent", memory_percent h);
                  ("memory_used_gb", memory_used_gb h);
                  ("memory_total_gb", memory_total_gb h);
                  ("swap_percent", swap_percent h);
                  ("load_avg", load_avg h);
                  ("process_memory_mb", process_memory_mb h)])
  | Some (Raise e) =>
      (logger_error ("Error collecting host metrics: " ++ exn_str e) ;;
       cret None)%collect
  end.

(** ** The metric classes

    [BaseMetric.__init__] sets [name] to the name of the class and [enabled]
    to [True]; [id] is the identity of the instance. *)

Definition SessionOverviewMetric_schema : Schema :=
  {| schema_table := "session_overview_history";
     schema_columns :=
       ["id"; "sample_id"; "timestamp"; "total_sessions"; "active_sessions";
        "inactive_sessions"; "blocked_sessions"; "logical_reads_mb";
        "physical_reads_mb"; "cpu_seconds"] |}.

Definition SessionOverviewMetric (py : Builtins) (id : nat) : BaseMetric :=
  {| obj_id := id;
     name := "SessionOverviewMetric";
     display_name := "Session Overview";
     description := "Overall session statistics including counts, reads, and CPU usage";
     category := "sessions";
     enabled := true;
     collect := SessionOverviewMetric_collect py;
     _get_storage_schema := Some SessionOverviewMetric_schema;
     _get_storage_indexes :=
       ["CREATE INDEX IF NOT EXISTS idx_session_overview_ts ON session_overview_history(timestamp)";
        "CREATE INDEX IF NOT EXISTS idx_session_overview_sample ON session_overview_history(sample_id)"];
     _store_data_impl := SessionOverviewMetric_store_data_impl |}.

Definition TopSessionsMetric_schema : Schema :=
  {| schema_table := "top_sessions_history";
     schema_columns :=
       ["id"; "sample_id"; "timestamp"; "sid"; "serial"; "username";
        "program"; "status"; "logical_reads_mb"; "cpu_seconds"; "event";
        "sql_id"; "machine"; "module"] |}.

Definition TopSessionsMetric (py : Builtins) (id : nat) : BaseMetric :=
  {| obj_id := id;
     name := "TopSessionsMetric";
     display_name := "Top Sessions";
     description := "Top resource-consuming sessions by logical reads and CPU";
     category := "sessions";
     enabled := true;
     collect := TopSessionsMetric_collect py;
     _get_storage_schema := Some TopSessionsMetric_schema;
     _get_storage_indexes :=
       ["CREATE INDEX IF NOT EXISTS idx_top_sessions_ts ON top_sessions_history(timestamp)";
        "CREATE INDEX IF NOT EXISTS idx_top_sessions_sid ON top_sessions_history(sid)"];
     _store_data_impl := TopSessionsMetric_store_data_impl |}.

Definition BlockingSessionsMetric_schema : Schema :=
  {| schema_table := "blocking_sessions_history";
     schema_columns :=
       ["id"; "sample_id"; "timestamp"; "blocking_sid"; "blocking_serial";
        "blocking_user"; "blocking_program"; "blocked_sid"; "blocked_serial";
        "blocked_user"; "blocked_program"; "wait_event"; "wait_seconds"] |}.

Definition BlockingSessionsMetric (py : Builtins) (id : nat) : BaseMetric :=
  {| obj_id := id;
     name := "BlockingSessionsMetric";
     display_name := "Blocking Sessions";
     description := "Sessions that are blocking other sessions";
     category := "sessions";
     enabled := true;
     collect := BlockingSessionsMetric_collect;
     _get_storage_schema := Some BlockingSessionsMetric_schema;
     _get_storage_indexes :=
       ["CREATE INDEX IF NOT EXISTS idx_blocking_ts ON blocking_sessions_history(timestamp)";
        "CREATE INDEX IF NOT EXISTS idx_blocking_sid ON blocking_sessions_history(blocking_sid)"];
     _store_data_impl := BlockingSessionsMetric_store_data_impl |}.

Definition TablespaceUsageMetric_schema : Schema :=
  {| schema_table := "tablespace_usage_history";
     schema_columns :=
       ["id"; "sample_id"; "timestamp"; "tablespace"; "type"; "status";
        "used_mb"; "allocated_mb"; "max_mb"; "free_mb"; "pct_used";
        "autoextend_headroom_mb"; "files"; "autoextend_files";
        "autoextend_capable"] |}.

Definition TablespaceUsageMetric (py : Builtins) (id : nat) : BaseMetric :=
  {| obj_id := id;
     name := "TablespaceUsageMetric";
     display_name := "Tablespace Usage";
     description := "Disk space usage by tablespace";
     category := "storage";
     enabled := true;
     collect := TablespaceUsageMetric_collect py;
     _get_storage_schema := Some TablespaceUsageMetric_schema;
     _get_storage_indexes :=
       ["CREATE INDEX IF NOT EXISTS idx_tablespace_ts ON tablespace_usage_history(timestamp)";
        "CREATE INDEX IF NOT EXISTS idx_tablespace_name ON tablespace_usage_history(tablespace)"];
     _store_data_impl := TablespaceUsageMetric_store_data_impl |}.

Definition WaitEventsMetric_schema : Schema :=
  {| schema_table := "wait_events_history";
     schema_columns :=
       ["id"; "sample_id"; "timestamp"; "event"; "total_waits";
        "total_wait_seconds"; "avg_wait_ms"] |}.

Definition WaitEventsMetric (py : Builtins) (id : nat) : BaseMetric :=
  {| obj_id := id;
     name := "WaitEventsMetric";
     display_name := "Wait Events";
     description := "Top database wait events";
     category := "performance";
     enabled := true;
     collect := WaitEventsMetric_collect py;
     _get_storage_schema := Some WaitEventsMetric_schema;
     _get_storage_indexes := [];
     _store_data_impl := WaitEventsMetric_store_data_impl |}.

Definition TempUsageMetric_schema : Schema :=
  {| schema_table := "temp_usage_history";
     schema_columns :=
       ["id"; "sample_id"; "timestamp"; "sid"; "username"; "program";
        "tablespace"; "segtype"; "used_mb"] |}.

Definition TempUsageMetric (py : Builtins) (id : nat) : BaseMetric :=
  {| obj_id := id;
     name := "TempUsageMetric";
     display_name := "Temp Usage";
     description := "Temporary tablespace usage by session";
     category := "storage";
     enabled := true;
     collect := TempUsageMetric_collect py;
     _get_storage_schema := Some TempUsageMetric_schema;
     _get_storage_indexes := [];
     _store_data_impl := TempUsageMetric_store_data_impl |}.

Definition UndoMetricsMetric_schema : Schema :=
  {| schema_table := "undo_metrics_history";
     schema_columns :=
       ["id"; "sample_id"; "timestamp"; "undo_retention";
        "active_transactions"; "undo_mb_active"; "undo_mb_total"] |}.

Definition UndoMetricsMetric (py : Builtins) (id : nat) : BaseMetric :=
  {| obj_id := id;
     name := "UndoMetricsMetric";
     display_name := "Undo Metrics";
     description := "Undo tablespace and transaction metrics";
     category := "storage";
     enabled := true;
     collect := UndoMetricsMetric_collect py;
     _get_storage_schema := Some UndoMetricsMetric_schema;
     _get_storage_indexes := [];
     _store_data_impl := UndoMetricsMetric_store_data_impl |}.

Definition RedoMetricsMetric_schema : Schema :=
  {| schema_table := "redo_metrics_history";
     schema_columns :=
       ["id"; "sample_id"; "timestamp"; "redo_size"; "redo_writes";
        "redo_write_time"] |}.

Definition RedoMetricsMetric (py : Builtins) (id : nat) : BaseMetric :=
  {| obj_id := id;
     name := "RedoMetricsMetric";
     display_name := "Redo Metrics";
     description := "Redo log generation and performance metrics";
     category := "performance";
     enabled := true;
     collect := RedoMetricsMetric_collect py;
     _get_storage_schema := Some RedoMetricsMetric_schema;
     _get_storage_indexes := [];
     _store_data_impl := RedoMetricsMetric_store_data_impl |}.

Definition PlanChurnMetric_schema : Schema :=
  {| schema_table := "plan_churn_history";
     schema_columns :=
       ["id"; "sample_id"; "timestamp"; "sql_id"; "plan_hash_value";
        "executions"; "elapsed_seconds"; "buffer_gets"; "disk_reads";
        "rows_processed"; "last_active_time"] |}.

Definition PlanChurnMetric (py : Builtins) (id : nat) : BaseMetric :=
  {| obj_id := id;
     name := "PlanChurnMetric";
     display_name := "Plan Churn";
     description := "SQL statements with multiple execution plans";
     category := "performance";
     enabled := true;
     collect := PlanChurnMetric_collect py;
     _get_storage_schema := Some PlanChurnMetric_schema;
     _get_storage_indexes := [];
     _store_data_impl := PlanChurnMetric_store_data_impl |}.

Definition IOSessionsMetric_schema : Schema :=
  {| schema_table := "io_sessions_history";
     schema_columns :=
       ["id"; "sample_id"; "timestamp"; "sid"; "username"; "program";
        "status"; "sql_id"; "read_mb"; "write_mb"] |}.

Definition IOSessionsMetric (py : Builtins) (id : nat) : BaseMetric :=
  {| obj_id := id;
     name := "IOSessionsMetric";
     display_name := "I/O Sessions";
     description := "Session-level I/O statistics";
     category := "performance";
     enabled := true;
     collect := IOSessionsMetric_collect py;
     _get_storage_schema := Some IOSessionsMetric_schema;
     _get_storage_indexes := [];
     _store_data_impl := IOSessionsMetric_store_data_impl |}.

Definition HostMetricsMetric_schema : Schema :=
  {| schema_table := "host_metrics_history";
     schema_columns :=
       ["id"; "sample_id"; "timestamp"; "cpu_percent"; "cpu_count";
        "process_cpu_percent"; "memory_percent"; "memory_used_gb";
        "memory_total_gb"; "swap_percent"; "process_memory_mb"] |}.

Definition HostMetricsMetric (psutil : option (result HostSample)) (id : nat) : BaseMetric :=
  {| obj_id := id;
     name := "HostMetricsMetric";
     display_name := "Host Metrics";
     description := "Host system metrics (CPU, memory, etc.)";
     category := "system";
     enabled := true;
     collect := HostMetricsMetric_collect psutil;
     _get_storage_schema := Some HostMetricsMetric_schema;
     _get_storage_indexes := [];
     _store_data_impl := HostMetricsMetric_store_data_impl |}.

Definition ResourceLimitsMetric_schema : Schema :=
  {| schema_table := "resource_limits_history";
     schema_columns :=
       ["id"; "sample_id"; "timestamp"; "resource_name";
        "current_utilization"; "max_utilization"; "limit_value"] |}.

Definition ResourceLimitsMetric (py : Builtins) (id : nat) : BaseMetric :=
  {| obj_id := id;
     name := "ResourceLimitsMetric";
     display_name := "Resource Limits";
     description := "Database resource usage vs limits";
     category := "system";
     enabled := true;
     collect := ResourceLimitsMetric_collect py;
     _get_storage_schema := Some ResourceLimitsMetric_schema;
     _get_storage_indexes := [];
     _store_data_impl := ResourceLimitsMetric_store_data_impl |}.

(** The table that a metric declares for its history. *)
Definition history_table (m : BaseMetric) : string :=
  match _get_storage_schema m with
  | Some schema => schema_table schema
  | None => ""
  end.

(** The store is ready for a metric when the file has the table of the
    schema of the metric, with the columns of the schema (as [init_storage]
    creates it). *)
Definition table_ready (w : World) (db_path : string) (schema : Schema) : Prop :=
  exists st t,
    files w !! db_path = Some st /\
    st !! schema_table schema = Some t /\
    forallb (has_column t) (schema_columns schema) = true.

Definition storage_ready (w : World) (db_path : string) (m : BaseMetric) : Prop :=
  match _get_storage_schema m with
  | Some schema => table_ready w db_path schema
  | None => False
  end.

(** A record whose values for the given columns can all be bound. *)
Definition storable (cols : list string) (rec : PyDict) : bool :=
  forallb (fun c => sqlite_bindable (get rec c)) cols.

(** The metrics of the package whose [collect] queries the database. *)
Inductive DbMetric : Type :=
| SessionOverview | TopSessions | BlockingSessions | TablespaceUsage
| WaitEvents | TempUsage | UndoMetrics | RedoMetrics | PlanChurn
| IOSessions | ResourceLimits.

Definition db_metric (py : Builtins) (id : nat) (k : DbMetric) : BaseMetric :=
  match k with
  | SessionOverview => SessionOverviewMetric py id
  | TopSessions => TopSessionsMetric py id
  | BlockingSessions => BlockingSessionsMetric py id
  | TablespaceUsage => TablespaceUsageMetric py id
  | WaitEvents => WaitEventsMetric py id
  | TempUsage => TempUsageMetric py id
  | UndoMetrics => UndoMetricsMetric py id
  | RedoMetrics => RedoMetricsMetric py id
  | PlanChurn => PlanChurnMetric py id
  | IOSessions => IOSessionsMetric py id
  | ResourceLimits => ResourceLimitsMetric py id
  end.

(** The block guarded by [try: ... except oracledb.Error] in [collect]. *)
Definition collect_body (py : Builtins) (k : DbMetric)
  : Connection -> Kwargs -> Collect (option PyDict) :=
  match k with
  | SessionOverview => SessionOverviewMetric_collect_body py
  | TopSessions => TopSessionsMetric_collect_body py
  | BlockingSessions => BlockingSessionsMetric_collect_body
  | TablespaceUsage => TablespaceUsageMetric_collect_body py
  | WaitEvents => WaitEventsMetric_collect_body py
  | TempUsage => TempUsageMetric_collect_body py
  | UndoMetrics => UndoMetricsMetric_collect_body py
  | RedoMetrics => RedoMetricsMetric_collect_body py
  | PlanChurn => PlanChurnMetric_collect_body py
  | IOSessions => IOSessionsMetric_collect_body py
  | ResourceLimits => ResourceLimitsMetric_collect_body py
  end.

(** What the handler of [collect] tells the logger of the metric. *)
Definition collect_error_text (k : DbMetric) (e : exn) : string :=
  ("Error collecting " ++
   match k with
   | SessionOverview => "session overview"
   | TopSessions => "top sessions"
   | BlockingSessions => "blocking sessions"
   | TablespaceUsage => "tablespace usage"
   | WaitEvents => "wait events"
   | TempUsage => "temp usage"
   | UndoMetrics => "undo metrics"
   | RedoMetrics => "redo metrics"
   | PlanChurn => "plan churn"
   | IOSessions => "IO sessions"
   | ResourceLimits => "resource limits"
   end ++ ": " ++ exn_str e)%string.

(** The list-shaped metrics: the payload is a list of records under a
    primary key, with its length under [count]. *)
Inductive ListMetric : Type :=
| LTopSessions | LBlockingSessions | LTablespaceUsage | LWaitEvents
| LTempUsage | LPlanChurn | LIOSessions.

Definition list_metric (py : Builtins) (id : nat) (k : ListMetric) : BaseMetric :=
  match k with
  | LTopSessions => TopSessionsMetric py id
  | LBlockingSessions => BlockingSessionsMetric py id
  | LTablespaceUsage => TablespaceUsageMetric py id
  | LWaitEvents => WaitEventsMetric py id
  | LTempUsage => TempUsageMetric py id
  | LPlanChurn => PlanChurnMetric py id
  | LIOSessions => IOSessionsMetric py id
  end.

Definition primary_key (k : ListMetric) : string :=
  match k with
  | LTopSessions => "sessions"
  | LBlockingSessions => "blocking_sessions"
  | LTablespaceUsage => "tablespaces"
  | LWaitEvents => "wait_events"
  | LTempUsage => "temp_usage"
  | LPlanChurn => "plans"
  | LIOSessions => "io_sessions"
  end.

Definition record_columns (k : ListMetric) : list string :=
  match k with
  | LTopSessions => TopSessionsMetric_columns
  | LBlockingSessions => BlockingSessionsMetric_columns
  | LTablespaceUsage => TablespaceUsageMetric_columns
  | LWaitEvents => WaitEventsMetric_columns
  | LTempUsage => TempUsageMetric_columns
  | LPlanChurn => PlanChurnMetric_columns
  | LIOSessions => IOSessionsMetric_columns
  end.

(** The scalar-shaped metrics: the payload is one flat record. *)
Inductive ScalarMetric : Type :=
| SSessionOverview | SUndoMetrics | SRedoMetrics | SHostMetrics.

Definition scalar_metric (py : Builtins) (psutil : option (result HostSample))
  (id : nat) (k : ScalarMetric) : BaseMetric :=
  match k with
  | SSessionOverview => SessionOverviewMetric py id
  | SUndoMetrics => UndoMetricsMetric py id
  | SRedoMetrics => RedoMetricsMetric py id
  | SHostMetrics => HostMetricsMetric psutil id
  end.



(** [for metric in metrics: registry.register(metric)], as
    [_auto_discover_metrics] does. *)
Definition register_all (ms : list BaseMetric) (r : MetricRegistry) : MetricRegistry :=
  fold_left register ms r.

(** [metric.enabled = b] on the object of identity [id]. The registry holds
    the object in its name index and in a bucket of its category index, so
    the assignment shows in both. *)
Definition with_enabled (id : nat) (b : bool) (m : BaseMetric) : BaseMetric :=
  if Nat.eqb (obj_id m) id then
    {| obj_id := obj_id m; name := name m; display_name := display_name m;
       description := description m; category := category m; enabled := b;
       collect := collect m;
       _get_storage_schema := _get_storage_schema m;
       _get_storage_indexes := _get_storage_indexes m;
       _store_data_impl := _store_data_impl m |}
  else m.

Definition set_enabled (id : nat) (b : bool) (r : MetricRegistry) : MetricRegistry :=
  {| metrics := map (fun p => (fst p, with_enabled id b (snd p))) (metrics r);
     categories := map (fun p => (fst p, map (with_enabled id b) (snd p))) (categories r) |}.

(** The list of instances that [_auto_discover_metrics] builds, and the
    registry that [get_registry] returns on its first call. *)
Definition discovered_metrics (py : Builtins) (psutil : option (result HostSample))
  : list BaseMetric :=
  [SessionOverviewMetric py 1;
   TopSessionsMetric py 2;
   BlockingSessionsMetric py 3;
   TablespaceUsageMetric py 4;
   WaitEventsMetric py 5;
   TempUsageMetric py 6;
   UndoMetricsMetric py 7;
   RedoMetricsMetric py 8;
   PlanChurnMetric py 9;
   IOSessionsMetric py 10;
   HostMetricsMetric psutil 11;
   ResourceLimitsMetric py 12].

Definition get_registry (py : Builtins) (psutil : option (result HostSample))
  : MetricRegistry :=
  register_all (discovered_metrics py psutil) new_registry.

(** ** Registration order, in the words of the specification

    The names in the order in which each was registered first, and for a
    name the instance registered last under it. *)

Definition names_by_first_registration (ms : list BaseMetric) : list string :=
  fold_left (fun seen m => if decide (name m ∈ seen) then seen else seen ++ [name m])
            ms [].

Definition last_registered (ms : list BaseMetric) (n : string) : option BaseMetric :=
  find (fun m => String.eqb (name m) n) (rev ms).

Definition registration_order (ms : list BaseMetric) : list BaseMetric :=
  omap (last_registered ms) (names_by_first_registration ms).

(** What one visit of [collect_all] adds to the log: the diagnostics of the
    metric, then the error record of the registry if [collect] raised. *)
Definition visit_events (connection : Connection) (kwargs : Kwargs) (m : BaseMetric)
  : list (logger * LogRecord) :=
  map (fun d => (metric_logger m, d)) (fst (collect m connection kwargs)) ++
  match snd (collect m connection kwargs) with
  | Raise e =>
      [(RootLogger,
        mkLogRecord ERROR (Text ("Error collecting " ++ name m ++ ": " ++ exn_str e)))]
  | Ok _ => []
  end.

(** What one visit of [collect_all] does to the result mapping. *)
Definition visit_result (connection : Connection) (kwargs : Kwargs)
  (results : Results) (m : BaseMetric) : Results :=
  match snd (collect m connection kwargs) with
  | Ok data => if truthy_data data then dict_set results (name m) data else results
  | Raise _ => results
  end.

(** ** The dispatch of [log_all] and [store_all], in the words of the specification

    Each entry of the results goes to the metric registered under its name;
    an entry whose name has no registered metric, or whose payload is [None]
    or empty, is skipped. *)
Definition dispatched (r : MetricRegistry) (results : Results)
  : list (BaseMetric * PyDict) :=
  omap (fun '(n, data) =>
          match get_metric r n, data with
          | Some m, Some (kv :: d) => Some (m, kv :: d)
          | _, _ => None
          end) results.

(** The envelope of a log record as the specification names its fields. *)
Definition specified_envelope_keys : list string :=
  ["timestamp"; "metric_name"; "sample_id"; "data"].

(** ** Notions used by the statements *)

(** The name index has one entry per name, filed under the name of its
    metric. *)
Definition index_wf (r : MetricRegistry) : Prop :=
  NoDup (dict_keys (metrics r)) /\
  Forall (fun p => name (snd p) = fst p) (metrics r).



(** The envelope that [log_data] writes at clock position [t]. *)
Definition envelope (self : BaseMetric) (d : PyDict) (sample_id : option string)
  (clock : nat -> string) (t : nat) : PyVal :=
  VDict [("timestamp", VStr (clock t));
         ("metric", VStr (name self));
         ("sample_id", VStr (str_or sample_id (clock (S t))));
         ("data", VDict d)].

(** A list-shaped metric among the metrics that query the database. *)
Definition as_db_metric (k : ListMetric) : DbMetric :=
  match k with
  | LTopSessions => TopSessions
  | LBlockingSessions => BlockingSessions
  | LTablespaceUsage => TablespaceUsage
  | LWaitEvents => WaitEvents
  | LTempUsage => TempUsage
  | LPlanChurn => PlanChurn
  | LIOSessions => IOSessions
  end.

(** ** The driver

    [oracle_monitor_modular.py]: [DB_PATH], [initialize_storage] and the
    block that the button "Collect Now" runs, which returns the number of
    metrics collected (the page shows it). *)

Definition DB_PATH : string := "logs/monitor_history.db".

(** [initialize_storage] *)
Definition initialize_storage (registry : MetricRegistry) : M unit :=
  for_each (get_all_metrics registry) (fun metric => init_storage metric DB_PATH).

(** The block under [if st.button("Collect Now")] of [main]. *)
Definition collect_now (registry : MetricRegistry) (connection : Connection) : M nat :=
  (sample_id <- now_isoformat ;;
   results <- collect_all registry connection [] ;;
   log_all registry results (Some sample_id) ;;
   store_all registry DB_PATH results (Some sample_id) ;;
   ret (length results))%m.

(** ** Notions used by the further statements *)

(** The entry that a visit of [collect_all] adds to the results, if any. *)
Definition entry_of (connection : Connection) (kwargs : Kwargs) (m : BaseMetric)
  : option (string * option PyDict) :=
  match snd (collect m connection kwargs) with
  | Ok data => if truthy_data data then Some (name m, data) else None
  | Raise _ => None
  end.

(** The clock readings that one [log_data] takes: one when a sample
    identifier is given, two when it falls back on the clock. *)
Definition reading_step (sample_id : option string) : nat :=
  if truthy_str sample_id then 1 else 2.

(** The record that [log_all] writes for the [i]-th entry it dispatches, when
    the clock stands at [t] before the first. *)
Definition logged (sample_id : option string) (clock : nat -> string) (t i : nat)
  (p : BaseMetric * PyDict) : logger * LogRecord :=
  (metric_logger (fst p),
   mkLogRecord INFO
     (Json (envelope (fst p) (snd p) sample_id clock (t + i * reading_step sample_id)))).

(** The same record, from an entry of a results mapping. *)
Definition logged_entry (sample_id : option string) (clock : nat -> string) (t i : nat)
  (p : string * option PyDict) : logger * LogRecord :=
  (MetricLogger (fst p),
   mkLogRecord INFO
     (Json (VDict [("timestamp", VStr (clock (t + i * reading_step sample_id)));
                   ("metric", VStr (fst p));
                   ("sample_id",
                    VStr (str_or sample_id (clock (S (t + i * reading_step sample_id)))));
                   ("data", data_val (snd p))]))).

(** The twelve metric classes of the package. *)
Inductive Plugin : Type :=
| PDb (k : DbMetric)
| PHost.

Definition plugin (py : Builtins) (psutil : option (result HostSample)) (id : nat)
  (p : Plugin) : BaseMetric :=
  match p with
  | PDb k => db_metric py id k
  | PHost => HostMetricsMetric psutil id
  end.

(** Two worlds with the same log and the same rows in every table of every
    database file. *)
Definition same_data (w w' : World) : Prop :=
  log w' = log w /\
  forall db_path table, table_rows w' db_path table = table_rows w db_path table.

(** The fallback reading of a list-shaped metric: the clock reading, counted
    from the one of the timestamp, that becomes the sample identifier when
    none is given. [TopSessionsMetric], [BlockingSessionsMetric] and
    [TablespaceUsageMetric] reuse the timestamp, the others read the clock
    again. *)
Definition fallback_reading (k : ListMetric) : nat :=
  match k with
  | LTopSessions | LBlockingSessions | LTablespaceUsage => 0
  | LWaitEvents | LTempUsage | LPlanChurn | LIOSessions => 1
  end.

(** A step that changes neither the log nor a row, whatever it returns. *)
Definition quiet_step {A} (c : M A) : Prop := forall w, same_data w (snd (c w)).

(** A computation that changes neither the log nor a row when it raises. *)
Definition fails_quietly {A} (c : M A) : Prop :=
  forall w e w', c w = (Raise e, w') -> same_data w w'.


(** A payload of [TopSessionsMetric] whose second record is not a mapping. *)
Definition broken_payload : PyDict :=
  [("sessions", VList [VDict [("sid", VInt 1); ("cpu_seconds", VFloat (5 # 2))]; VInt 3]);
   ("count", VInt 2)].


(** A database that answers every query with no row and no error. *)
Definition answers_nothing (connection : Connection) : Prop :=
  cursor_error connection = None /\
  forall query binds,
    run connection query binds = {| exec_error := None; rows := []; fetch_error := None |}.



(** The tables of a database file after [init_storage] of each metric of a
    list, in turn. *)
Definition init_tables (l : list BaseMetric) (conn : Store) : Store :=
  fold_left (fun conn m => match _get_storage_schema m with
                           | Some schema => create_table_if_not_exists conn schema
                           | None => conn
                           end) l conn.

(** The names of the tables that the metrics of a list declare. *)
Definition declared_tables (l : list BaseMetric) : list string :=
  omap (fun m => match _get_storage_schema m with
                 | Some schema => Some (schema_table schema)
                 | None => None
                 end) l.

(** The rows of a table of a connection ([[]] when there is none). *)
Definition rows_of (conn : Store) (table : string) : list Row :=
  match conn !! table with Some t => tbl_rows t | None => [] end.

(** A connection, or a world, that differs from another one only by rows
    appended to tables, each new row satisfying [P]; the log is the same. *)
Definition st_extends (P : Row -> Prop) (conn conn' : Store) : Prop :=
  forall table, exists new,
    rows_of conn' table = rows_of conn table ++ new /\ Forall P new.

Definition appends_only (P : Row -> Prop) (w w' : World) : Prop :=
  log w' = log w /\
  forall db_path table, exists new,
    table_rows w' db_path table = table_rows w db_path table ++ new /\ Forall P new.

(** A row stamped with the sample identifier of the call, when one was
    given. *)
Definition stamped_with (sample_id : option string) (row : Row) : Prop :=
  forall s, sample_id = Some s -> s <> "" -> dict_get row "sample_id" = Some (VStr s).

(** A metric that persists as one of the twelve classes of the package
    does. *)
Definition package_store (m : BaseMetric) : Prop :=
  exists py psutil id p, _store_data_impl m = _store_data_impl (plugin py psutil id p).

(** ** Test doubles

    A metric whose [collect] is a given run, with the storage of the base
    class (no schema, no table, [_store_data_impl] does nothing); a
    connection on which every query returns no row; a world with an empty
    log, no database file and a clock that reads [T0], [T1], ... *)

Definition stub_metric (id : nat) (n cat : string) (en : bool)
  (run : Collect (option PyDict)) : BaseMetric :=
  {| obj_id := id; name := n; display_name := n; description := n;
     category := cat; enabled := en;
     collect := fun _ _ => run;
     _get_storage_schema := None;
     _get_storage_indexes := [];
     _store_data_impl := fun _ _ _ => ret tt |}.

Definition idle_connection : Connection :=
  {| cursor_error := None;
     run := fun _ _ => {| exec_error := None; rows := []; fetch_error := None |} |}.

Definition empty_world : World :=
  {| log := []; files := ∅; clock := fun n => ("T" ++ pretty n)%string; ticks := 0 |}.

(** The metrics of scenarios 1 and 2 of the specification. *)
Definition metric_A : BaseMetric :=
  stub_metric 1 "A" "sessions" true
    ([], Ok (Some [("x", VList [VInt 1; VInt 2])])).
Definition metric_B_none : BaseMetric :=
  stub_metric 2 "B" "sessions" true ([], Ok None).
Definition metric_B_empty : BaseMetric :=
  stub_metric 2 "B" "sessions" true ([], Ok (Some [])).
Definition metric_B_crash : BaseMetric :=
  stub_metric 2 "B" "sessions" true ([], Raise (OtherError "RuntimeError" "boom")).
Definition metric_C_disabled : BaseMetric :=
  stub_metric 3 "C" "storage" false ([], Ok (Some [("y", VInt 7)])).
Definition metric_C : BaseMetric :=
  stub_metric 3 "C" "storage" true ([], Ok (Some [("y", VInt 7)])).

(** Two instances of one class, as in scenario 3. *)
Definition overview_1 : BaseMetric :=
  stub_metric 10 "Overview" "sessions" true ([], Ok None).
Definition overview_2 : BaseMetric :=
  stub_metric 11 "Overview" "sessions" true ([], Ok (Some [("n", VInt 1)])).

(** Library conversions for the examples: no string parses as a number,
    [str] gives a fixed text, [lower] is the identity. *)
Definition plain_builtins : Builtins :=
  {| float_of_str := fun _ => None;
     int_of_str := fun _ => None;
     str_of := fun _ => "<value>";
     str_lower := fun s => s |}.

(** The world after [init_storage] of a metric on the database file of the
    monitor, starting from the empty world. *)
Definition monitor_db : string := "logs/monitor_history.db".
Definition initialised_world (m : BaseMetric) : World :=
  snd (init_storage m monitor_db empty_world).

Definition one_session : PyDict :=
  [("sid", VInt 1); ("cpu_seconds", VFloat (5 # 2))].
Definition one_session_payload : PyDict :=
  [("sessions", VList [VDict one_session]); ("count", VInt 1)].

(** The payload of scenario 5 of the specification. *)
Definition scenario_5_payload : PyDict :=
  [("redo_size", VFloat (100 # 1)); ("redo_writes", VInt 5)].



Definition two_rows_connection : Connection :=
  {| cursor_error := None;
     run := fun _ _ =>
       {| exec_error := None;
          rows := [[VStr "db file sequential read"; VInt 10; VInt 5; VNone];
                   [VStr "log file sync"; VInt 4; VNone; VFloat (1 # 2)]];
          fetch_error := None |} |}.

(** * Properties *)

(** ** Insertion-ordered dictionaries *)

Section DictFacts.
Context {V : Type}.
Implicit Types (d : list (string * V)) (k : string) (v : V).

Lemma dict_get_set_eq d k v : dict_get (dict_set d k v) k = Some v.
Proof.
  induction d as [|[k' v'] d IH]; simpl.
  - by rewrite String.eqb_refl.
  - destruct (String.eqb k' k) eqn:E; simpl; rewrite E; auto.
Qed.

Lemma dict_get_set_ne d k k' v :
  k <> k' -> dict_get (dict_set d k v) k' = dict_get d k'.
Proof.
  intros Hne. induction d as [|[k0 v0] d IH]; simpl.
  - destruct (String.eqb k k') eqn:E; [apply String.eqb_eq in E; congruence | done].
  - destruct (String.eqb k0 k) eqn:E; simpl.
    + apply String.eqb_eq in E. subst k0.
      destruct (String.eqb k k') eqn:E'; [apply String.eqb_eq in E'; congruence | done].
    + destruct (String.eqb k0 k'); auto.
Qed.

Lemma dict_get_None_keys d k : dict_get d k = None <-> ~ In k (dict_keys d).
Proof.
  induction d as [|[k' v'] d IH]; simpl; [tauto|].
  destruct (String.eqb k' k) eqn:E.
  - apply String.eqb_eq in E. subst. split; [discriminate | tauto].
  - apply String.eqb_neq in E. rewrite IH. tauto.
Qed.

Lemma dict_get_Some_In d k v : dict_get d k = Some v -> In (k, v) d.
Proof.
  induction d as [|[k' v'] d IH]; simpl; [discriminate|].
  destruct (String.eqb k' k) eqn:E.
  - apply String.eqb_eq in E. intros [= ->]. subst. auto.
  - auto.
Qed.

Lemma dict_get_In_NoDup d k v :
  NoDup (dict_keys d) -> In (k, v) d -> dict_get d k = Some v.
Proof.
  induction d as [|[k' v'] d IH]; simpl; [tauto|].
  intros Hnd [Heq | Hin].
  - injection Heq as -> ->. by rewrite String.eqb_refl.
  - apply NoDup_cons in Hnd as [Hni Hnd'].
    destruct (String.eqb k' k) eqn:E.
    + apply String.eqb_eq in E. subst. exfalso. apply Hni.
      apply list_elem_of_In. apply (in_map fst) in Hin. exact Hin.
    + auto.
Qed.

(** A new key goes last. *)
Lemma dict_set_fresh d k v : dict_get d k = None -> dict_set d k v = d ++ [(k, v)].
Proof.
  induction d as [|[k' v'] d IH]; simpl; [done|].
  destruct (String.eqb k' k); [discriminate|]. intros H. by rewrite IH.
Qed.

(** A present key keeps its place: the keys are unchanged. *)
Lemma dict_keys_set_present d k v :
  dict_get d k <> None -> dict_keys (dict_set d k v) = dict_keys d.
Proof.
  induction d as [|[k' v'] d IH]; simpl; [done|].
  destruct (String.eqb k' k) eqn:E; simpl; [done|]. intros H. by rewrite IH.
Qed.

Lemma dict_keys_set d k v :
  dict_keys (dict_set d k v) =
  if dict_contains d k then dict_keys d else dict_keys d ++ [k].
Proof.
  unfold dict_contains. destruct (dict_get d k) eqn:E.
  - apply dict_keys_set_present. congruence.
  - rewrite dict_set_fresh by done. unfold dict_keys. by rewrite map_app.
Qed.

Lemma dict_set_NoDup d k v : NoDup (dict_keys d) -> NoDup (dict_keys (dict_set d k v)).
Proof.
  intros Hnd. rewrite dict_keys_set. unfold dict_contains.
  destruct (dict_get d k) eqn:E; [done|].
  apply NoDup_app. split; [done|]. split.
  - intros x Hx Hk. apply list_elem_of_singleton in Hk. subst.
    apply dict_get_None_keys in E. apply E. by apply list_elem_of_In.
  - apply NoDup_singleton.
Qed.

Lemma dict_set_length_fresh d k v :
  dict_get d k = None -> length (dict_set d k v) = S (length d).
Proof. intros H. rewrite dict_set_fresh by done. rewrite length_app. simpl. lia. Qed.
End DictFacts.

(** ** The registry indexes *)


Lemma dict_set_Forall {V} (P : string * V -> Prop) d k v :
  Forall P d -> (forall k', k' = k -> P (k', v)) -> Forall P (dict_set d k v).
Proof.
  intros Hd Hv. induction Hd as [|[k' v'] d Hp Hd IH]; simpl.
  - constructor; auto.
  - destruct (String.eqb k' k) eqn:E.
    + apply String.eqb_eq in E. constructor; auto.
    + constructor; auto.
Qed.

Lemma new_registry_wf : index_wf new_registry.
Proof. split; simpl; constructor. Qed.

Lemma register_wf r m : index_wf r -> index_wf (register r m).
Proof.
  intros [Hnd Hall]. split; simpl.
  - by apply dict_set_NoDup.
  - apply dict_set_Forall; [done|]. intros k' ->. done.
Qed.

Lemma register_all_wf ms r : index_wf r -> index_wf (register_all ms r).
Proof.
  revert r. induction ms as [|m ms IH]; intros r Hr; simpl; [done|].
  apply IH. by apply register_wf.
Qed.

Lemma register_all_snoc ms m r :
  register_all (ms ++ [m]) r = register (register_all ms r) m.
Proof. unfold register_all. by rewrite fold_left_app. Qed.

Lemma get_metric_register_eq r m : get_metric (register r m) (name m) = Some m.
Proof. unfold get_metric. simpl. apply dict_get_set_eq. Qed.

Lemma get_metric_register_ne r m n :
  name m <> n -> get_metric (register r m) n = get_metric r n.
Proof. intros H. unfold get_metric. simpl. by apply dict_get_set_ne. Qed.

Lemma get_metrics_by_category_register_eq r m :
  get_metrics_by_category (register r m) (category m) =
  get_metrics_by_category r (category m) ++ [m].
Proof.
  unfold get_metrics_by_category, register, dict_contains. simpl.
  rewrite dict_get_set_eq.
  destruct (dict_get (categories r) (category m)) eqn:E; simpl.
  - by rewrite E.
  - by rewrite dict_get_set_eq.
Qed.

Lemma get_metric_name r n m : index_wf r -> get_metric r n = Some m -> name m = n.
Proof.
  intros [_ Hall] H. apply dict_get_Some_In in H.
  rewrite Forall_forall in Hall. apply list_elem_of_In in H. apply (Hall _ H).
Qed.

Lemma dict_contains_keys {V} (d : list (string * V)) k :
  dict_contains d k = true <-> k ∈ dict_keys d.
Proof.
  unfold dict_contains. rewrite list_elem_of_In.
  destruct (dict_get d k) eqn:E.
  - split; [|done]. intros _. apply dict_get_Some_In in E.
    apply (in_map fst) in E. exact E.
  - apply dict_get_None_keys in E. split; [discriminate | tauto].
Qed.

Lemma omap_ext_elem {A B} (f g : A -> option B) (l : list A) :
  (forall x, x ∈ l -> f x = g x) -> omap f l = omap g l.
Proof.
  induction l as [|x l IH]; intros H; [done|]. csimpl.
  rewrite (H x) by constructor. rewrite IH; [done|].
  intros y Hy. apply H. by constructor.
Qed.

Lemma dict_values_omap {V} (d : list (string * V)) :
  NoDup (dict_keys d) -> dict_values d = omap (dict_get d) (dict_keys d).
Proof.
  induction d as [|[k v] d IH]; [done|].
  intros Hnd. apply NoDup_cons in Hnd as [Hni Hnd]. csimpl.
  rewrite String.eqb_refl. f_equal. fold (dict_values d). rewrite IH by done.
  apply omap_ext_elem. intros x Hx.
  destruct (String.eqb k x) eqn:E; [|done].
  apply String.eqb_eq in E. subst. done.
Qed.

(** ** Toggling a metric *)

Lemma dict_get_map_values {V W} (f : V -> W) (d : list (string * V)) k :
  dict_get (map (fun p => (fst p, f (snd p))) d) k = f <$> dict_get d k.
Proof.
  induction d as [|[k' v] d IH]; simpl; [done|].
  destruct (String.eqb k' k); [done | exact IH].
Qed.

Lemma dict_set_map_values {V W} (f : V -> W) (d : list (string * V)) k v :
  map (fun p => (fst p, f (snd p))) (dict_set d k v) =
  dict_set (map (fun p => (fst p, f (snd p))) d) k (f v).
Proof.
  induction d as [|[k' v'] d IH]; simpl; [done|].
  destruct (String.eqb k' k); simpl; [done | by rewrite IH].
Qed.

Lemma with_enabled_name id b m : name (with_enabled id b m) = name m.
Proof. unfold with_enabled. by destruct (Nat.eqb (obj_id m) id). Qed.

Lemma with_enabled_category id b m : category (with_enabled id b m) = category m.
Proof. unfold with_enabled. by destruct (Nat.eqb (obj_id m) id). Qed.

Lemma set_enabled_register id b r m :
  set_enabled id b (register r m) = register (set_enabled id b r) (with_enabled id b m).
Proof.
  unfold set_enabled, register. simpl.
  rewrite with_enabled_name, with_enabled_category. f_equal.
  - apply dict_set_map_values.
  - unfold dict_contains.
    rewrite (dict_get_map_values (map (with_enabled id b)) (categories r) (category m)).
    destruct (dict_get (categories r) (category m)) as [bucket|] eqn:E; simpl.
    + rewrite E, (dict_get_map_values (map (with_enabled id b))), E. simpl.
      rewrite (dict_set_map_values (map (with_enabled id b))). by rewrite map_app.
    + rewrite !dict_get_set_eq.
      rewrite (dict_set_map_values (map (with_enabled id b))).
      by rewrite (dict_set_map_values (map (with_enabled id b))).
Qed.

(** A registry in which a metric was toggled after its registration is the
    registry of the toggled instances: the statements about
    [register_all ms new_registry], for every list [ms] of instances with any
    [enabled] flags, cover the registries that the driver reaches by
    registering and toggling. *)
Lemma set_enabled_register_all id b ms :
  set_enabled id b (register_all ms new_registry) =
  register_all (map (with_enabled id b) ms) new_registry.
Proof.
  induction ms as [|m ms IH] using rev_ind; [done|].
  rewrite map_app. simpl. rewrite !register_all_snoc.
  by rewrite set_enabled_register, IH.
Qed.

(** ** Registration order *)

Lemma names_by_first_registration_snoc ms m :
  names_by_first_registration (ms ++ [m]) =
  if decide (name m ∈ names_by_first_registration ms)
  then names_by_first_registration ms
  else names_by_first_registration ms ++ [name m].
Proof. unfold names_by_first_registration. by rewrite fold_left_app. Qed.

Lemma last_registered_snoc ms m n :
  last_registered (ms ++ [m]) n =
  if String.eqb (name m) n then Some m else last_registered ms n.
Proof. unfold last_registered. rewrite rev_app_distr. done. Qed.

(** The keys of the name index are the names in the order of their first
    registration. *)
Lemma register_all_keys ms :
  dict_keys (metrics (register_all ms new_registry)) = names_by_first_registration ms.
Proof.
  induction ms as [|m ms IH] using rev_ind; [done|].
  rewrite register_all_snoc, names_by_first_registration_snoc. simpl.
  rewrite dict_keys_set, <- IH.
  destruct (dict_contains _ (name m)) eqn:E.
  - apply dict_contains_keys in E. by rewrite decide_True.
  - rewrite decide_False; [done|]. intros H. apply dict_contains_keys in H. congruence.
Qed.

(** The name index maps a name to the instance registered last under it. *)
Lemma register_all_get ms n :
  get_metric (register_all ms new_registry) n = last_registered ms n.
Proof.
  induction ms as [|m ms IH] using rev_ind; [done|].
  rewrite register_all_snoc, last_registered_snoc.
  destruct (String.eqb (name m) n) eqn:E.
  - apply String.eqb_eq in E. subst. apply get_metric_register_eq.
  - apply String.eqb_neq in E. by rewrite get_metric_register_ne.
Qed.

Lemma get_all_metrics_registration_order ms :
  get_all_metrics (register_all ms new_registry) = registration_order ms.
Proof.
  unfold get_all_metrics, registration_order.
  rewrite dict_values_omap by apply register_all_wf, new_registry_wf.
  rewrite register_all_keys. apply omap_ext_elem. intros n _.
  apply (register_all_get ms n).
Qed.

Lemma names_by_first_registration_NoDup ms :
  NoDup (map name ms) -> names_by_first_registration ms = map name ms.
Proof.
  induction ms as [|m ms IH] using rev_ind; [done|].
  rewrite map_app. simpl. intros Hnd. apply NoDup_app in Hnd as (Hnd & Hdisj & _).
  rewrite names_by_first_registration_snoc, IH by done.
  rewrite decide_False; [done|]. intros H. apply (Hdisj _ H). by constructor.
Qed.

Lemma last_registered_NoDup ms m :
  NoDup (map name ms) -> m ∈ ms -> last_registered ms (name m) = Some m.
Proof.
  induction ms as [|m' ms IH] using rev_ind; [by intros _ ?%elem_of_nil|].
  rewrite map_app. simpl. intros Hnd Hin. apply NoDup_app in Hnd as (Hnd & Hdisj & _).
  rewrite last_registered_snoc. apply elem_of_app in Hin as [Hin | Hin].
  - destruct (String.eqb (name m') (name m)) eqn:E; [|by apply IH].
    apply String.eqb_eq in E. exfalso. apply (Hdisj (name m)).
    + apply list_elem_of_In, in_map. by apply list_elem_of_In.
    + rewrite E. by constructor.
  - apply list_elem_of_singleton in Hin. subst. by rewrite String.eqb_refl.
Qed.

(** With one registration per name, registration order is the order of the
    calls. *)
Lemma registration_order_NoDup ms :
  NoDup (map name ms) -> registration_order ms = ms.
Proof.
  intros Hnd. unfold registration_order.
  rewrite names_by_first_registration_NoDup by done.
  assert (H : forall l, (forall m, m ∈ l -> m ∈ ms) ->
                        omap (last_registered ms) (map name l) = l).
  { induction l as [|m l IH]; intros Hl; [done|]. csimpl.
    rewrite last_registered_NoDup; [|done|apply Hl; constructor].
    f_equal. apply IH. intros m' Hm'. apply Hl. by constructor. }
  by apply H.
Qed.

(** ** The world after logging *)

Lemma set_log_log w l : log (set_log w l) = l.
Proof. done. Qed.

Lemma set_log_set_log w l l' : set_log (set_log w l) l' = set_log w l'.
Proof. done. Qed.

Lemma set_log_id w : set_log w (log w) = w.
Proof. by destruct w. Qed.


Lemma logger_eqb_eq a b : logger_eqb a b = true <-> a = b.
Proof.
  destruct a, b; simpl; try (split; [discriminate | congruence]); try done.
  rewrite String.eqb_eq. split; congruence.
Qed.

(** ** collect_all as a fold over the enabled metrics *)

Section CollectAll.
Variables (connection : Connection) (kwargs : Kwargs).

Lemma collect_one_spec results m w :
  collect_one connection kwargs results m w =
  (Ok (visit_result connection kwargs results m),
   set_log w (log w ++ visit_events connection kwargs m)).
Proof.
  unfold collect_one, try_except, bind, call_collect, visit_result, visit_events.
  destruct (collect m connection kwargs) as [diag [data|e]]; simpl.
  - rewrite app_nil_r. by destruct (truthy_data data).
  - unfold logging_error, emit, bind, ret. simpl.
    by rewrite set_log_set_log, app_assoc.
Qed.

Lemma collect_loop_spec l results w :
  collect_loop connection kwargs l results w =
  (Ok (fold_left (visit_result connection kwargs) l results),
   set_log w (log w ++ concat (map (visit_events connection kwargs) l))).
Proof.
  revert results w. induction l as [|m l IH]; intros results w; simpl.
  - by rewrite app_nil_r, set_log_id.
  - unfold bind. rewrite collect_one_spec, IH.
    by rewrite set_log_set_log, set_log_log, app_assoc.
Qed.


Lemma visit_result_get_ne results m n :
  name m <> n ->
  dict_get (visit_result connection kwargs results m) n = dict_get results n.
Proof.
  intros Hne. unfold visit_result.
  destruct (snd (collect m connection kwargs)) as [data|e]; [|done].
  destruct (truthy_data data); [|done]. by apply dict_get_set_ne.
Qed.

Lemma fold_visit_get_notin l results n :
  n ∉ map name l ->
  dict_get (fold_left (visit_result connection kwargs) l results) n =
  dict_get results n.
Proof.
  revert results. induction l as [|m l IH]; intros results Hn; simpl; [done|].
  simpl in Hn. apply not_elem_of_cons in Hn as [Hne Hn].
  rewrite IH by done. by apply visit_result_get_ne.
Qed.

Lemma fold_visit_get l results m :
  NoDup (map name l) -> m ∈ l ->
  dict_get (fold_left (visit_result connection kwargs) l results) (name m) =
  match snd (collect m connection kwargs) with
  | Ok data => if truthy_data data then Some data else dict_get results (name m)
  | Raise _ => dict_get results (name m)
  end.
Proof.
  revert results. induction l as [|m' l IH]; intros results Hnd Hin; simpl.
  - by apply elem_of_nil in Hin.
  - simpl in Hnd. apply NoDup_cons in Hnd as [Hni Hnd].
    apply elem_of_cons in Hin as [-> | Hin].
    + rewrite fold_visit_get_notin by done. unfold visit_result.
      destruct (snd (collect m' connection kwargs)) as [data|e]; [|done].
      destruct (truthy_data data); [|done]. apply dict_get_set_eq.
    + rewrite IH by done.
      assert (name m' <> name m) as Hne.
      { intros Heq. apply Hni. rewrite Heq.
        apply list_elem_of_In, in_map. by apply list_elem_of_In. }
      by rewrite visit_result_get_ne.
Qed.

End CollectAll.

(** ** The enabled metrics of a registry *)

Lemma values_names r :
  index_wf r -> map name (dict_values (metrics r)) = dict_keys (metrics r).
Proof.
  intros [_ Hall]. unfold dict_values, dict_keys.
  induction Hall as [|[k m] d Hk Hall IH]; simpl; [done|].
  simpl in Hk. by rewrite Hk, IH.
Qed.

Lemma NoDup_map_filter {A B} (f : A -> B) (P : A -> Prop) `{!forall x, Decision (P x)}
  (l : list A) :
  NoDup (map f l) -> NoDup (map f (filter P l)).
Proof.
  induction l as [|x l IH]; simpl; [done|].
  intros Hnd. apply NoDup_cons in Hnd as [Hni Hnd]. rewrite filter_cons.
  destruct (decide (P x)); [|by apply IH]. simpl. apply NoDup_cons. split; [|by apply IH].
  intros Hin. apply Hni. apply list_elem_of_In, in_map_iff in Hin as (y & Hy & Hin).
  apply list_elem_of_In, in_map_iff. exists y. split; [done|].
  apply list_elem_of_In in Hin. apply list_elem_of_filter in Hin as [_ Hin].
  by apply list_elem_of_In.
Qed.

Lemma get_enabled_metrics_NoDup r :
  index_wf r -> NoDup (map name (get_enabled_metrics r)).
Proof.
  intros Hwf. unfold get_enabled_metrics. apply NoDup_map_filter.
  rewrite values_names by done. apply Hwf.
Qed.

Lemma elem_of_values_get r m :
  index_wf r -> (m ∈ dict_values (metrics r) <-> get_metric r (name m) = Some m).
Proof.
  intros Hwf. unfold get_metric, dict_values. split.
  - intros Hin. apply list_elem_of_In, in_map_iff in Hin as ([k m'] & Heq & Hin).
    simpl in Heq. subst m'. destruct Hwf as [Hnd Hall].
    rewrite Forall_forall in Hall. apply list_elem_of_In in Hin.
    pose proof (Hall _ Hin) as Hk. simpl in Hk. subst k.
    apply dict_get_In_NoDup; [done|]. by apply list_elem_of_In.
  - intros Hget. apply dict_get_Some_In in Hget.
    apply list_elem_of_In, in_map_iff. by exists (name m, m).
Qed.

Lemma elem_of_get_enabled_metrics r m :
  index_wf r ->
  (m ∈ get_enabled_metrics r <-> get_metric r (name m) = Some m /\ enabled m = true).
Proof.
  intros Hwf. unfold get_enabled_metrics.
  rewrite list_elem_of_filter, elem_of_values_get by done. tauto.
Qed.


Lemma filter_none {A} (P : A -> Prop) `{!forall x, Decision (P x)} (l : list A) :
  (forall x, x ∈ l -> ~ P x) -> filter P l = [].
Proof.
  induction l as [|x l IH]; intros HP; [done|].
  rewrite filter_cons, decide_False by (apply HP; constructor).
  apply IH. intros y Hy. apply HP. by constructor.
Qed.

Lemma truthy_data_iff data :
  truthy_data data = true <-> data <> None /\ data <> Some [].
Proof. destruct data as [[|? ?]|]; simpl; split; try done; intros [? ?]; done. Qed.

(** ** The records of the root logger *)






(** ** The fan-out of [collect_all] *)

Lemma collect_all_spec r connection kwargs w :
  collect_all r connection kwargs w =
  (Ok (fold_left (visit_result connection kwargs) (get_enabled_metrics r) []),
   set_log w (log w ++
              concat (map (visit_events connection kwargs) (get_enabled_metrics r)))).
Proof. apply collect_loop_spec. Qed.



(** C2. The mapping returned by [collect_all] has an entry for a name exactly
    when a metric is registered under that name, is enabled, and its
    [collect] returned a payload that is neither [None] nor an empty
    mapping. The entry is that payload. *)
Theorem collect_all_entries
  (ms : list BaseMetric) (connection : Connection) (kwargs : Kwargs) (w : World) :
  let r := register_all ms new_registry in
  exists results w',
    collect_all r connection kwargs w = (Ok results, w') /\
    forall n data,
      dict_get results n = Some data <->
      exists m, get_metric r n = Some m /\ enabled m = true /\
                snd (collect m connection kwargs) = Ok data /\
                data <> None /\ data <> Some [].
Proof.
  intros r.
  assert (Hwf : index_wf r) by apply register_all_wf, new_registry_wf.
  pose proof (get_enabled_metrics_NoDup r Hwf) as Hnd.
  eexists _, _. split; [apply collect_all_spec|].
  intros n data. split.
  - intros Hget.
    destruct (decide (n ∈ map name (get_enabled_metrics r))) as [Hin | Hni].
    + apply list_elem_of_In, in_map_iff in Hin as (m & <- & Hm).
      apply list_elem_of_In in Hm. rewrite fold_visit_get in Hget by done.
      apply elem_of_get_enabled_metrics in Hm as [Hm Hen]; [|done].
      exists m. split; [done|]. split; [done|].
      destruct (snd (collect m connection kwargs)) as [data'|e]; [|done].
      destruct (truthy_data data') eqn:Ht; [|done].
      injection Hget as ->. apply truthy_data_iff in Ht. tauto.
    + by rewrite fold_visit_get_notin in Hget.
  - intros (m & Hm & Hen & Hdata & Hn1 & Hn2).
    pose proof (get_metric_name r n m Hwf Hm) as <-.
    assert (m ∈ get_enabled_metrics r) as Hin by by apply elem_of_get_enabled_metrics.
    rewrite fold_visit_get, Hdata by done.
    assert (truthy_data data = true) as -> by by apply truthy_data_iff.
    done.
Qed.

(** C3. After two registrations under one name and one category, lookup by
    the name gives the second instance, the name index has one entry for the
    name, and the bucket of the category has gained both instances. *)
Theorem register_same_name_twice (ms : list BaseMetric) (m1 m2 : BaseMetric) :
  name m1 = name m2 ->
  category m1 = category m2 ->
  let r := register_all ms new_registry in
  let r' := register (register r m1) m2 in
  get_metric r' (name m2) = Some m2 /\
  NoDup (dict_keys (metrics r')) /\
  length (filter (fun p => fst p = name m2) (metrics r')) = 1 /\
  get_metrics_by_category r' (category m2) =
    get_metrics_by_category r (category m2) ++ [m1; m2].
Proof.
  intros Hname Hcat r r'.
  assert (Hwf : index_wf r') by (do 2 apply register_wf; apply register_all_wf, new_registry_wf).
  split; [apply get_metric_register_eq|]. split; [apply Hwf|]. split.
  - pose proof (get_metric_register_eq (register r m1) m2) as Hget. fold r' in Hget.
    unfold get_metric in Hget. destruct Hwf as [Hnd _].
    revert Hnd Hget. generalize (metrics r') as d. generalize (name m2) as k.
    induction d as [|[k' v] d IH]; simpl; [discriminate|].
    intros Hnd Hget. apply NoDup_cons in Hnd as [Hni Hnd]. rewrite filter_cons. simpl.
    destruct (String.eqb k' k) eqn:E.
    + apply String.eqb_eq in E. subst k'. rewrite decide_True by done. simpl. f_equal.
      rewrite filter_none; [done|].
      intros [k'' v''] Hin Heq. simpl in Heq. subst k''.
      apply Hni. apply list_elem_of_In, in_map_iff. exists (k, v''). split; [done|].
      by apply list_elem_of_In.
    + apply String.eqb_neq in E. rewrite decide_False by done. by apply IH.
  - unfold r'. rewrite get_metrics_by_category_register_eq.
    rewrite <- Hcat, get_metrics_by_category_register_eq. by rewrite <- app_assoc.
Qed.

Lemma register_same_name_twice_witness :
  let r := register_all [metric_A] new_registry in
  let r' := register (register r overview_1) overview_2 in
  overview_1 <> overview_2 /\
  get_metric r' "Overview" = Some overview_2 /\
  NoDup (dict_keys (metrics r')) /\
  length (filter (fun p => fst p = "Overview") (metrics r')) = 1 /\
  get_metrics_by_category r' "sessions" = [metric_A] ++ [overview_1; overview_2].
Proof.
  split; [discriminate|].
  apply (register_same_name_twice [metric_A] overview_1 overview_2); reflexivity.
Defined.

(** C9. The enabled metrics are visited in registration order: the list that
    [collect_all] iterates is the list of the enabled instances in the order
    in which their names were registered first, it does not depend on the
    connection, the parameters or the world, and the log shows the events of
    the visits in that order. *)
Theorem collect_all_registration_order
  (ms : list BaseMetric) (connection : Connection) (kwargs : Kwargs) (w : World) :
  let r := register_all ms new_registry in
  let visited := filter (fun m => enabled m = true) (registration_order ms) in
  get_enabled_metrics r = visited /\
  collect_all r connection kwargs w =
    collect_loop connection kwargs visited [] w /\
  log (snd (collect_all r connection kwargs w)) =
    log w ++ concat (map (visit_events connection kwargs) visited).
Proof.
  intros r visited.
  assert (Heq : get_enabled_metrics r = visited).
  { unfold get_enabled_metrics, visited.
    by rewrite <- get_all_metrics_registration_order. }
  split; [done|]. split.
  - unfold collect_all. by rewrite Heq.
  - rewrite collect_all_spec. simpl. by rewrite Heq.
Qed.

(** ** Logging and storing one payload *)

Lemma log_data_None self sample_id w : log_data self None sample_id w = (Ok tt, w).
Proof. done. Qed.

Lemma log_data_empty self sample_id w : log_data self (Some []) sample_id w = (Ok tt, w).
Proof. done. Qed.

Lemma store_data_None self db_path sample_id w :
  store_data self db_path None sample_id w = (Ok tt, w).
Proof. done. Qed.

Lemma store_data_empty self db_path sample_id w :
  store_data self db_path (Some []) sample_id w = (Ok tt, w).
Proof. done. Qed.

Lemma store_data_nonempty self db_path kv d sample_id :
  store_data self db_path (Some (kv :: d)) sample_id =
  _store_data_impl self db_path (kv :: d) sample_id.
Proof. done. Qed.


Lemma log_data_spec self d sample_id w :
  d <> [] ->
  log_data self (Some d) sample_id w =
  (Ok tt,
   {| log := log w ++ [(metric_logger self,
                        mkLogRecord INFO (Json (envelope self d sample_id (clock w) (ticks w))))];
      files := files w;
      clock := clock w;
      ticks := if truthy_str sample_id then S (ticks w) else S (S (ticks w)) |}).
Proof.
  intros Hd. destruct d as [|kv d]; [done|].
  unfold log_data, envelope, bind, now_isoformat, or_else, emit. simpl.
  destruct sample_id as [s|]; simpl; [|done].
  destruct (String.eqb s ""); done.
Qed.

(** C6, amended. One call of [log_data] with a non-empty mapping returns
    without raising and appends exactly one record to the log, on the logger
    of the metric: the INFO record of the four-field envelope with keys
    [timestamp], [metric], [sample_id], [data] in this order, holding a clock
    reading, the name of the metric, the sample identifier and the mapping.
    When [sample_id] is [None] the identifier is the next clock reading. The
    store is untouched. *)
Theorem log_data_envelope (self : BaseMetric) (d : PyDict) (sample_id : option string)
  (w : World) :
  d <> [] ->
  exists w' sid,
    log_data self (Some d) sample_id w = (Ok tt, w') /\
    log w' = log w ++
             [(metric_logger self,
               mkLogRecord INFO (Json (VDict [("timestamp", VStr (clock w (ticks w)));
                                             ("metric", VStr (name self));
                                             ("sample_id", VStr sid);
                                             ("data", VDict d)])))] /\
    channel (metric_logger self) w' =
      channel (metric_logger self) w ++
      [mkLogRecord INFO (Json (VDict [("timestamp", VStr (clock w (ticks w)));
                                     ("metric", VStr (name self));
                                     ("sample_id", VStr sid);
                                     ("data", VDict d)]))] /\
    sid = str_or sample_id (clock w (S (ticks w))) /\
    (sample_id = None -> sid = clock w (S (ticks w))) /\
    files w' = files w.
Proof.
  intros Hd. eexists _, _. split; [by apply log_data_spec|]. simpl.
  split; [reflexivity|]. split; [|split; [reflexivity|split; [by intros ->|done]]].
  unfold channel. simpl. rewrite filter_app, map_app. f_equal.
  rewrite filter_cons, decide_True; [done|]. simpl. apply String.eqb_refl.
Qed.

Lemma log_data_envelope_witness :
  exists w' sid,
    log_data metric_A (Some [("x", VInt 1)]) None empty_world = (Ok tt, w') /\
    log w' = [(MetricLogger "A",
               mkLogRecord INFO (Json (VDict [("timestamp", VStr "T0");
                                             ("metric", VStr "A");
                                             ("sample_id", VStr sid);
                                             ("data", VDict [("x", VInt 1)])])))] /\
    channel (MetricLogger "A") w' =
      [mkLogRecord INFO (Json (VDict [("timestamp", VStr "T0");
                                     ("metric", VStr "A");
                                     ("sample_id", VStr sid);
                                     ("data", VDict [("x", VInt 1)])]))] /\
    sid = "T1" /\
    (@None string = None -> sid = "T1") /\
    files w' = ∅.
Proof.
  apply (log_data_envelope metric_A [("x", VInt 1)] None empty_world). discriminate.
Defined.

(** C6 as stated fails: the record written for metric [A] has no field
    [metric_name]; the name of the metric is under the key [metric]. *)
Lemma log_data_envelope_counterexample :
  exists entry,
    log (snd (log_data metric_A (Some [("x", VInt 1)]) (Some "s1") empty_world)) =
      [(MetricLogger "A", mkLogRecord INFO (Json (VDict entry)))] /\
    dict_keys entry = ["timestamp"; "metric"; "sample_id"; "data"] /\
    dict_keys entry <> specified_envelope_keys /\
    dict_get entry "metric_name" = None /\
    dict_get entry "metric" = Some (VStr "A").
Proof.
  eexists. split; [reflexivity|]. split; [reflexivity|]. split; [discriminate|].
  split; reflexivity.
Qed.

(** ** The dispatch of [log_all] and [store_all] *)

Lemma dispatched_cons r n data results :
  dispatched r ((n, data) :: results) =
  match get_metric r n, data with
  | Some m, Some (kv :: d) => (m, kv :: d) :: dispatched r results
  | _, _ => dispatched r results
  end.
Proof.
  unfold dispatched. csimpl.
  destruct (get_metric r n) as [m|]; [|done]. by destruct data as [[|kv d]|].
Qed.

Lemma log_all_dispatched r results sample_id w :
  log_all r results sample_id w =
  for_each (dispatched r results) (fun '(m, d) => log_data m (Some d) sample_id) w.
Proof.
  revert w. induction results as [|[n data] results IH]; intros w; [done|].
  rewrite dispatched_cons. unfold log_all in *. simpl.
  destruct (get_metric r n) as [m|]; simpl.
  - destruct data as [[|kv d]|]; simpl; unfold bind; simpl; try apply IH.
    destruct (log_data m (Some (kv :: d)) sample_id w) as [[[]|e] w']; [apply IH | done].
  - unfold bind. simpl. apply IH.
Qed.

Lemma store_all_dispatched r db_path results sample_id w :
  store_all r db_path results sample_id w =
  for_each (dispatched r results)
           (fun '(m, d) => _store_data_impl m db_path d sample_id) w.
Proof.
  revert w. induction results as [|[n data] results IH]; intros w; [done|].
  rewrite dispatched_cons. unfold store_all in *. simpl.
  destruct (get_metric r n) as [m|]; simpl.
  - destruct data as [[|kv d]|]; simpl; unfold bind; simpl; try apply IH.
    rewrite store_data_nonempty.
    destruct (_store_data_impl m db_path (kv :: d) sample_id w) as [[[]|e] w'];
      [apply IH | done].
  - unfold bind. simpl. apply IH.
Qed.

Lemma dispatched_nil r results :
  (forall n data, (n, data) ∈ results ->
                  get_metric r n = None \/ data = None \/ data = Some []) ->
  dispatched r results = [].
Proof.
  induction results as [|[n data] results IH]; intros H; [done|].
  rewrite dispatched_cons, IH by (intros ? ? ?; apply H; by constructor).
  destruct (H n data) as [-> | [-> | ->]]; [constructor| | |]; try done.
  - by destruct (get_metric r n).
  - by destruct (get_metric r n).
Qed.

(** C5. [log_all] and [store_all] hand each entry of the results to the
    metric registered under its name, in the order of the entries, and skip
    the entries whose name is not registered or whose payload is [None] or
    empty: they behave as the plain sequence of [log_data] (of
    [_store_data_impl]) calls over the dispatched entries. When no entry is
    dispatched they return without raising and leave the world as it was.
    [log_data] and [store_data] themselves do nothing on [None] or empty
    data. *)
Theorem log_all_store_all_dispatch
  (r : MetricRegistry) (db_path : string) (results : Results)
  (sample_id : option string) (w : World) :
  log_all r results sample_id w =
    for_each (dispatched r results) (fun '(m, d) => log_data m (Some d) sample_id) w /\
  store_all r db_path results sample_id w =
    for_each (dispatched r results)
             (fun '(m, d) => store_data m db_path (Some d) sample_id) w /\
  ((forall n data, (n, data) ∈ results ->
                   get_metric r n = None \/ data = None \/ data = Some []) ->
   log_all r results sample_id w = (Ok tt, w) /\
   store_all r db_path results sample_id w = (Ok tt, w)) /\
  (forall m, log_data m None sample_id w = (Ok tt, w) /\
             log_data m (Some []) sample_id w = (Ok tt, w) /\
             store_data m db_path None sample_id w = (Ok tt, w) /\
             store_data m db_path (Some []) sample_id w = (Ok tt, w)).
Proof.
  split; [apply log_all_dispatched|]. split; [|split].
  - rewrite store_all_dispatched.
    assert (Hd : Forall (fun p => snd p <> []) (dispatched r results)).
    { apply Forall_forall. intros [m d] Hin. unfold dispatched in Hin.
      apply list_elem_of_omap in Hin as ([n data] & _ & Heq).
      destruct (get_metric r n); [|done]. destruct data as [[|kv d']|]; try done.
      by injection Heq as _ <-. }
    revert w. induction Hd as [|[m d] l Hne Hd IH]; intros w; [done|]. simpl in *.
    destruct d as [|kv d]; [done|]. rewrite store_data_nonempty. unfold bind.
    destruct (_store_data_impl m db_path (kv :: d) sample_id w) as [[[]|e] w']; [apply IH|done].
  - intros H. rewrite log_all_dispatched, store_all_dispatched.
    by rewrite dispatched_nil.
  - done.
Qed.

Lemma log_all_store_all_dispatch_witness :
  let r := register_all [metric_A; metric_C] new_registry in
  let results : Results := [("ghost", Some [("x", VInt 1)]); ("A", None); ("C", Some [])] in
  log_all r results (Some "s1") empty_world = (Ok tt, empty_world) /\
  store_all r "monitor_history.db" results (Some "s1") empty_world = (Ok tt, empty_world).
Proof.
  intros r results.
  apply (log_all_store_all_dispatch r "monitor_history.db" results (Some "s1") empty_world).
  intros n data Hin. unfold results in Hin.
  apply elem_of_cons in Hin as [Heq | Hin]; [injection Heq as -> ->; by left|].
  apply elem_of_cons in Hin as [Heq | Hin]; [injection Heq as -> ->; right; by left|].
  apply list_elem_of_singleton in Hin. injection Hin as -> ->. right; by right.
Defined.

(** ** Writing the history store *)

Lemma find_negb_forallb {A} (p : A -> bool) (l : list A) :
  forallb p l = true -> find (fun x => negb (p x)) l = None.
Proof.
  induction l as [|x l IH]; simpl; [done|].
  destruct (p x); simpl; [exact IH | discriminate].
Qed.

Lemma sql_insert_ok (conn : Store) table t row :
  conn !! table = Some t ->
  forallb (has_column t) (map fst row) = true ->
  forallb sqlite_bindable (map snd row) = true ->
  sql_insert conn table row =
  Ok (<[table := {| tbl_columns := tbl_columns t; tbl_rows := tbl_rows t ++ [row] |}]> conn).
Proof.
  intros Ht Hcols Hvals. unfold sql_insert. rewrite Ht.
  by rewrite (find_negb_forallb _ _ Hcols), (find_negb_forallb _ _ Hvals).
Qed.

Lemma stamped_columns s ts rec cols :
  map fst (stamped s ts (fields rec cols)) = "sample_id" :: "timestamp" :: cols.
Proof.
  unfold stamped, fields. simpl. do 2 f_equal.
  rewrite map_map. simpl. apply map_id.
Qed.

Lemma stamped_bindable s ts rec cols :
  storable cols rec = true ->
  forallb sqlite_bindable (map snd (stamped s ts (fields rec cols))) = true.
Proof.
  unfold storable, stamped, fields. simpl. rewrite map_map. simpl.
  induction cols as [|c cols IH]; simpl; [done|].
  intros H. apply andb_true_iff in H as [-> H]. simpl. by apply IH.
Qed.

Lemma stamped_insert_ok (conn : Store) table t s ts rec cols :
  conn !! table = Some t ->
  forallb (has_column t) ("sample_id" :: "timestamp" :: cols) = true ->
  storable cols rec = true ->
  sql_insert conn table (stamped s ts (fields rec cols)) =
  Ok (<[table := {| tbl_columns := tbl_columns t;
                    tbl_rows := tbl_rows t ++ [stamped s ts (fields rec cols)] |}]> conn).
Proof.
  intros Ht Hcols Hrec. apply sql_insert_ok; [done| |by apply stamped_bindable].
  by rewrite stamped_columns.
Qed.

Lemma insert_records_ok (conn : Store) table t s ts cols (recs : list PyDict) :
  conn !! table = Some t ->
  forallb (has_column t) ("sample_id" :: "timestamp" :: cols) = true ->
  Forall (fun rec => storable cols rec = true) recs ->
  fold_result (map VDict recs) conn
    (fun conn v => (d <- as_dict v ;;
                    sql_insert conn table (stamped s ts (fields d cols)))%r) =
  Ok (<[table := {| tbl_columns := tbl_columns t;
                    tbl_rows := tbl_rows t ++
                                map (fun d => stamped s ts (fields d cols)) recs |}]> conn).
Proof.
  intros Ht Hcols Hrecs. revert conn t Ht Hcols.
  induction Hrecs as [|d recs Hd Hrecs IH]; intros conn t Ht Hcols.
  - simpl. rewrite app_nil_r. rewrite insert_id; [done|]. by destruct t.
  - cbn [map fold_result as_dict result_bind].
    rewrite (stamped_insert_ok conn table t s ts d cols Ht Hcols Hd).
    cbn [result_bind].
    set (t' := {| tbl_columns := tbl_columns t;
                  tbl_rows := tbl_rows t ++ [stamped s ts (fields d cols)] |}).
    rewrite (IH (<[table := t']> conn) t' (lookup_insert_eq _ _ _) Hcols).
    cbn [tbl_columns tbl_rows map t']. by rewrite insert_insert_eq, <- app_assoc.
Qed.

Lemma iter_insert_records_ok (data : PyDict) key (conn : Store) table t s ts cols
  (recs : list PyDict) :
  dict_get data key = Some (VList (map VDict recs)) ->
  conn !! table = Some t ->
  forallb (has_column t) ("sample_id" :: "timestamp" :: cols) = true ->
  Forall (fun rec => storable cols rec = true) recs ->
  (records <- py_iter (get data key) ;;
   fold_result records conn
     (fun conn v => d <- as_dict v ;;
                    sql_insert conn table (stamped s ts (fields d cols))))%r =
  Ok (<[table := {| tbl_columns := tbl_columns t;
                    tbl_rows := tbl_rows t ++
                                map (fun d => stamped s ts (fields d cols)) recs |}]> conn).
Proof.
  intros Hkey Ht Hcols Hrecs. unfold get. rewrite Hkey. cbn [py_iter result_bind].
  by apply insert_records_ok.
Qed.

Lemma sqlite3_connect_existing db_path st w :
  files w !! db_path = Some st -> sqlite3_connect db_path w = (Ok st, w).
Proof. intros H. unfold sqlite3_connect. by rewrite H. Qed.

Lemma table_rows_committed w l (st : Store) db_path table t n :
  table_rows {| log := l; files := <[db_path := <[table := t]> st]> (files w);
                clock := clock w; ticks := n |} db_path table = tbl_rows t.
Proof. unfold table_rows. simpl. by rewrite !lookup_insert_eq. Qed.


Lemma table_rows_lookup w db_path table st t :
  files w !! db_path = Some st -> st !! table = Some t ->
  table_rows w db_path table = tbl_rows t.
Proof. intros H1 H2. unfold table_rows. by rewrite H1, H2. Qed.


Lemma str_or_supplied s fallback : s <> "" -> str_or (Some s) fallback = s.
Proof.
  intros Hs. unfold str_or. destruct (String.eqb s "") eqn:E; [|done].
  by apply String.eqb_eq in E.
Qed.

(** The columns that a statement names exist when they are columns of the
    schema and the table has the columns of the schema. *)
Lemma has_columns_trans t (schema_cols cols : list string) :
  forallb (has_column t) schema_cols = true ->
  forallb (fun c => existsb (String.eqb c) schema_cols) cols = true ->
  forallb (has_column t) cols = true.
Proof.
  rewrite !forallb_forall. intros Hs Hc c Hin.
  specialize (Hc c Hin). apply existsb_exists in Hc as (c' & Hin' & Heq).
  apply String.eqb_eq in Heq. subst c'. by apply Hs.
Qed.

Section ListStore.
Variables (key table : string) (cols : list string) (db_path : string).
Variables (data : PyDict) (recs : list PyDict) (s : string) (w : World).
Variables (st : Store) (t : Table).
Hypothesis Hkey : dict_get data key = Some (VList (map VDict recs)).
Hypothesis Hs : s <> "".
Hypothesis Hst : files w !! db_path = Some st.
Hypothesis Ht : st !! table = Some t.
Hypothesis Hcols : forallb (has_column t) ("sample_id" :: "timestamp" :: cols) = true.
Hypothesis Hrecs : Forall (fun rec => storable cols rec = true) recs.


End ListStore.

Section ScalarStore.
Variables (table : string) (cols : list string) (db_path : string).
Variables (data : PyDict) (w : World) (st : Store) (t : Table).
Hypothesis Hst : files w !! db_path = Some st.
Hypothesis Ht : st !! table = Some t.
Hypothesis Hcols : forallb (has_column t) ("sample_id" :: "timestamp" :: cols) = true.
Hypothesis Hdata : storable cols data = true.


End ScalarStore.

(** ** init_storage *)




Lemma init_storage_spec m db_path w :
  init_storage m db_path w =
  (Ok tt,
   set_files w (<[db_path := match _get_storage_schema m with
                             | Some schema =>
                                 create_table_if_not_exists
                                   (default ∅ (files w !! db_path)) schema
                             | None => default ∅ (files w !! db_path)
                             end]> (files w))).
Proof.
  unfold init_storage, bind, sqlite3_connect, commit.
  destruct (files w !! db_path) as [st|]; simpl; [done|].
  unfold set_files. simpl. by rewrite insert_insert_eq.
Qed.



Lemma init_storage_keeps_rows m db_path w table :
  (exists st t, files w !! db_path = Some st /\ st !! table = Some t) ->
  table_rows (snd (init_storage m db_path w)) db_path table = table_rows w db_path table.
Proof.
  intros (st & t & Hst & Ht). rewrite init_storage_spec. unfold table_rows. simpl.
  rewrite lookup_insert_eq, Hst. simpl. rewrite Ht.
  destruct (_get_storage_schema m) as [schema|]; [|by rewrite Ht].
  unfold create_table_if_not_exists.
  destruct (st !! schema_table schema) eqn:E; [by rewrite Ht|].
  destruct (decide (schema_table schema = table)) as [<-|Hne]; [congruence|].
  by rewrite lookup_insert_ne, Ht.
Qed.

(** ** Persisting the payload of a list-shaped metric *)

Lemma list_insert_columns py id k schema :
  _get_storage_schema (list_metric py id k) = Some schema ->
  forallb (fun c => existsb (String.eqb c) (schema_columns schema))
          ("sample_id" :: "timestamp" :: record_columns k) = true.
Proof. destruct k; intros [= <-]; reflexivity. Qed.





(** ** Persisting the payload of a scalar-shaped metric *)





(** ** The collectors and the errors of the database *)

Lemma result_bind_Ok {A B} (r : result A) (f : A -> result B) b :
  result_bind r f = Ok b -> exists a, r = Ok a /\ f a = Ok b.
Proof. destruct r as [a|e]; simpl; [eauto | discriminate]. Qed.

Lemma cbind_Ok {A B} (m : Collect A) (f : A -> Collect B) b :
  snd (cbind m f) = Ok b -> exists a, snd m = Ok a /\ snd (f a) = Ok b.
Proof.
  destruct m as [l [a|e]]; simpl; [|discriminate].
  destruct (f a) as [l' r] eqn:E. simpl. intros ->. exists a. by rewrite E.
Qed.

Section Handlers.
Context {A : Type} (body : Collect (option A)) (text : exn -> string).

(** Every collector has the handler [log the error, return None]. *)



Lemma guarded_Ok_Some d :
  snd (try_except_oracledb body
         (fun e => (logger_error (text e) ;; cret None)%collect)) = Ok (Some d) ->
  snd body = Ok (Some d).
Proof.
  unfold try_except_oracledb. destruct body as [l [a|e']]; simpl; [done|].
  destruct (is_oracledb_error e'); simpl; discriminate.
Qed.

(** An exception that is not of the driver goes through. *)
Lemma guarded_other e :
  snd body = Raise e -> is_oracledb_error e = false ->
  try_except_oracledb body
    (fun e => (logger_error (text e) ;; cret None)%collect) = body.
Proof.
  unfold try_except_oracledb. destruct body as [l [a|e']]; simpl; [discriminate|].
  by intros [= ->] ->.
Qed.

Lemma guarded_Ok a :
  snd body = Ok a ->
  try_except_oracledb body
    (fun e => (logger_error (text e) ;; cret None)%collect) = body.
Proof.
  unfold try_except_oracledb. destruct body as [l [a'|e']]; simpl; [done | discriminate].
Qed.
End Handlers.

(** [collect] of a database metric is its body under the handler. *)
Lemma collect_guarded py id k connection kwargs :
  collect (db_metric py id k) connection kwargs =
  try_except_oracledb (collect_body py k connection kwargs)
    (fun e => (logger_error (collect_error_text k e) ;; cret None)%collect).
Proof. by destruct k. Qed.






(** ** The shape of the list payloads *)


Lemma list_metric_db_metric py id k : list_metric py id k = db_metric py id (as_db_metric k).
Proof. by destruct k. Qed.

Ltac invert_binds H :=
  repeat first [ apply result_bind_Ok in H as (? & _ & H)
               | apply cbind_Ok in H as (? & _ & H) ].

(** The guarded block of a list-shaped metric returns [None] or the counted
    list. *)
Lemma list_body_counted py k connection kwargs d :
  snd (collect_body py (as_db_metric k) connection kwargs) = Ok (Some d) ->
  exists recs, d = counted (primary_key k) recs.
Proof.
  intros H. destruct k; cbn [collect_body as_db_metric primary_key] in H;
    unfold TopSessionsMetric_collect_body, BlockingSessionsMetric_collect_body,
           TablespaceUsageMetric_collect_body, WaitEventsMetric_collect_body,
           TempUsageMetric_collect_body, PlanChurnMetric_collect_body,
           IOSessionsMetric_collect_body in H;
    cbv zeta in H; cbn [snd lift] in H; invert_binds H;
    try (destruct (negb _); [discriminate H|]; cbn [snd lift] in H; invert_binds H);
    injection H as <-; eauto.
Qed.

(** C10. Whenever [collect] of a list-shaped metric returns a payload, the
    payload is the primary list and its length: [count] is the length of the
    list under the primary key. *)
Theorem list_payload_count
  (py : Builtins) (id : nat) (k : ListMetric) (connection : Connection) (kwargs : Kwargs)
  (d : PyDict) :
  snd (collect (list_metric py id k) connection kwargs) = Ok (Some d) ->
  exists records : list PyVal,
    d = [(primary_key k, VList records); ("count", VInt (Z.of_nat (length records)))] /\
    dict_get d (primary_key k) = Some (VList records) /\
    dict_get d "count" = Some (VInt (Z.of_nat (length records))).
Proof.
  intros H. rewrite list_metric_db_metric, collect_guarded in H.
  apply guarded_Ok_Some in H. apply list_body_counted in H as [recs ->].
  exists (map VDict recs). unfold counted. rewrite length_map.
  split; [done|]. by destruct k.
Qed.

Lemma list_payload_count_witness :
  exists records : list PyVal,
    [("wait_events",
      VList [VDict [("event", VStr "db file sequential read"); ("total_waits", VInt 10);
                    ("total_wait_seconds", VFloat (5 # 1)); ("avg_wait_ms", VFloat (0 # 1))];
             VDict [("event", VStr "log file sync"); ("total_waits", VInt 4);
                    ("total_wait_seconds", VFloat (0 # 1)); ("avg_wait_ms", VFloat (1 # 2))]]);
     ("count", VInt 2)] =
    [("wait_events", VList records); ("count", VInt (Z.of_nat (length records)))] /\
    dict_get [("wait_events",
      VList [VDict [("event", VStr "db file sequential read"); ("total_waits", VInt 10);
                    ("total_wait_seconds", VFloat (5 # 1)); ("avg_wait_ms", VFloat (0 # 1))];
             VDict [("event", VStr "log file sync"); ("total_waits", VInt 4);
                    ("total_wait_seconds", VFloat (0 # 1)); ("avg_wait_ms", VFloat (1 # 2))]]);
     ("count", VInt 2)] "wait_events" = Some (VList records) /\
    dict_get [("wait_events",
      VList [VDict [("event", VStr "db file sequential read"); ("total_waits", VInt 10);
                    ("total_wait_seconds", VFloat (5 # 1)); ("avg_wait_ms", VFloat (0 # 1))];
             VDict [("event", VStr "log file sync"); ("total_waits", VInt 4);
                    ("total_wait_seconds", VFloat (0 # 1)); ("avg_wait_ms", VFloat (1 # 2))]]);
     ("count", VInt 2)] "count" = Some (VInt (Z.of_nat (length records))).
Proof.
  apply (list_payload_count plain_builtins 1 LWaitEvents two_rows_connection []).
  reflexivity.
Defined.

(** ** The scenarios of the specification, run *)

(** Scenario 1: A enabled with a payload, B enabled returning [None], C
    disabled. *)
Example scenario_1 :
  fst (collect_all (register_all [metric_A; metric_B_none; metric_C_disabled] new_registry)
                   idle_connection [] empty_world) =
  Ok [("A", Some [("x", VList [VInt 1; VInt 2])])].
Proof. reflexivity. Qed.

(** The same when B returns an empty mapping. *)
Example scenario_1_empty :
  fst (collect_all (register_all [metric_A; metric_B_empty; metric_C_disabled] new_registry)
                   idle_connection [] empty_world) =
  Ok [("A", Some [("x", VList [VInt 1; VInt 2])])].
Proof. reflexivity. Qed.

(** Scenario 2: B crashes; the others are collected and one error record
    names B. *)
Example scenario_2 :
  collect_all (register_all [metric_A; metric_B_crash; metric_C] new_registry)
              idle_connection [] empty_world =
  (Ok [("A", Some [("x", VList [VInt 1; VInt 2])]); ("C", Some [("y", VInt 7)])],
   set_log empty_world
     [(RootLogger, mkLogRecord ERROR (Text "Error collecting B: boom"))]).
Proof. reflexivity. Qed.

(** Registering a name again keeps its place in the visiting order. *)
Example visiting_order_after_reregistration :
  map obj_id (get_enabled_metrics
                (register_all [overview_1; metric_A; overview_2] new_registry)) = [11; 1].
Proof. reflexivity. Qed.

(** A pass of the driver over a database that answers every query with two
    rows of four columns: the session overview finds its three statistics,
    then fails on the short row of its main query with an error that is not
    of the driver, which the registry catches; the wait events are
    collected, logged and stored. *)
Example sampling_pass :
  let so := SessionOverviewMetric plain_builtins 1 in
  let we := WaitEventsMetric plain_builtins 2 in
  let r := register_all [so; we] new_registry in
  let w0 := snd (init_storage we monitor_db (snd (init_storage so monitor_db empty_world))) in
  let '(results, w1) := collect_all r two_rows_connection [] w0 in
  match results with
  | Ok results =>
      dict_keys results = ["WaitEventsMetric"] /\
      channel RootLogger w1 =
        [mkLogRecord ERROR
           (Text "Error collecting SessionOverviewMetric: tuple index out of range")] /\
      let w2 := snd (log_all r results (Some "s1") w1) in
      let w3 := snd (store_all r monitor_db results (Some "s1") w2) in
      length (channel (MetricLogger "WaitEventsMetric") w3) = 1 /\
      length (table_rows w3 monitor_db "wait_events_history") = 2 /\
      length (table_rows w3 monitor_db "session_overview_history") = 0
  | Raise _ => False
  end.
Proof. vm_compute. repeat split. Qed.

(** The registry of [get_registry]: the twelve metrics are visited in the
    order of the list of [_auto_discover_metrics], and filed under four
    categories. *)
Example get_registry_visiting_order :
  map name (get_enabled_metrics (get_registry plain_builtins None)) =
  ["SessionOverviewMetric"; "TopSessionsMetric"; "BlockingSessionsMetric";
   "TablespaceUsageMetric"; "WaitEventsMetric"; "TempUsageMetric";
   "UndoMetricsMetric"; "RedoMetricsMetric"; "PlanChurnMetric";
   "IOSessionsMetric"; "HostMetricsMetric"; "ResourceLimitsMetric"].
Proof. reflexivity. Qed.

Example get_registry_categories :
  map (fun p => (fst p, map name (snd p))) (categories (get_registry plain_builtins None)) =
  [("sessions", ["SessionOverviewMetric"; "TopSessionsMetric"; "BlockingSessionsMetric"]);
   ("storage", ["TablespaceUsageMetric"; "TempUsageMetric"; "UndoMetricsMetric"]);
   ("performance", ["WaitEventsMetric"; "RedoMetricsMetric"; "PlanChurnMetric";
                    "IOSessionsMetric"]);
   ("system", ["HostMetricsMetric"; "ResourceLimitsMetric"])].
Proof. reflexivity. Qed.

(** A disabled metric is skipped by the next pass. *)
Example disabled_metric_is_skipped :
  map name (get_enabled_metrics (set_enabled 5 false (get_registry plain_builtins None))) =
  ["SessionOverviewMetric"; "TopSessionsMetric"; "BlockingSessionsMetric";
   "TablespaceUsageMetric"; "TempUsageMetric";
   "UndoMetricsMetric"; "RedoMetricsMetric"; "PlanChurnMetric";
   "IOSessionsMetric"; "HostMetricsMetric"; "ResourceLimitsMetric"].
Proof. reflexivity. Qed.

(** * Further properties of the code *)

(** ** The indexes of the registry *)

Lemma get_metrics_by_category_register_ne r m c :
  category m <> c ->
  get_metrics_by_category (register r m) c = get_metrics_by_category r c.
Proof.
  intros Hne. unfold get_metrics_by_category, register. simpl.
  rewrite dict_get_set_ne by done.
  destruct (negb (dict_contains (categories r) (category m))); [|done].
  by rewrite dict_get_set_ne.
Qed.

(** X1. Whatever the registrations, the name index lists every name once:
    the names of [get_all_metrics] are pairwise distinct, they are the
    registered names in the order of their first registration, each listed
    metric is the one that [get_metric] returns for its name, and the index
    never has more entries than [register] was called. *)
Theorem name_index_unique (ms : list BaseMetric) :
  let r := register_all ms new_registry in
  NoDup (map name (get_all_metrics r)) /\
  map name (get_all_metrics r) = names_by_first_registration ms /\
  (forall m, m ∈ get_all_metrics r -> get_metric r (name m) = Some m) /\
  length (get_all_metrics r) <= length ms.
Proof.
  intros r.
  assert (Hwf : index_wf r) by apply register_all_wf, new_registry_wf.
  unfold get_all_metrics. rewrite values_names by done.
  split; [apply Hwf|]. split; [apply register_all_keys|]. split.
  - intros m Hm. by apply elem_of_values_get.
  - unfold dict_values. rewrite length_map.
    clear Hwf. unfold r. clear r.
    induction ms as [|m ms IH] using rev_ind; [simpl; lia|].
    rewrite register_all_snoc, length_app. simpl.
    destruct (dict_get (metrics (register_all ms new_registry)) (name m)) eqn:E.
    + assert (length (dict_set (metrics (register_all ms new_registry)) (name m) m) =
              length (metrics (register_all ms new_registry))) as ->; [|lia].
      rewrite <- !(length_map fst). fold (dict_keys (dict_set
        (metrics (register_all ms new_registry)) (name m) m)).
      rewrite dict_keys_set_present; [done | congruence].
    + rewrite dict_set_length_fresh by done. lia.
Qed.

(** X2. The bucket of a category holds every registration of that category,
    in the order of the calls, also the instances that a later registration
    under the same name has replaced in the name index; the bucket of a
    category that was never registered is empty. *)
Theorem category_bucket_registrations (ms : list BaseMetric) (c : string) :
  get_metrics_by_category (register_all ms new_registry) c =
  filter (fun m => category m = c) ms.
Proof.
  induction ms as [|m ms IH] using rev_ind; [done|].
  rewrite register_all_snoc, filter_app, filter_cons, filter_nil.
  destruct (decide (category m = c)) as [<-|Hne].
  - by rewrite get_metrics_by_category_register_eq, IH.
  - rewrite get_metrics_by_category_register_ne by done. by rewrite IH, app_nil_r.
Qed.

(** X3. Lookup by name returns the instance that was registered last under
    the name, and [None] exactly for the names that were never registered. *)
Theorem get_metric_last_registered (ms : list BaseMetric) (n : string) :
  let r := register_all ms new_registry in
  get_metric r n = last_registered ms n /\
  (get_metric r n = None <-> n ∉ map name ms).
Proof.
  intros r. split; [apply register_all_get|].
  unfold r. rewrite register_all_get. unfold last_registered.
  split.
  - intros Hnone Hin. apply list_elem_of_In, in_map_iff in Hin as (m & <- & Hm).
    apply find_none with (x := m) in Hnone; [|by apply in_rev in Hm].
    by rewrite String.eqb_refl in Hnone.
  - intros Hni. destruct (find _ (rev ms)) as [m|] eqn:E; [|done].
    apply find_some in E as [Hin Heq]. apply String.eqb_eq in Heq. subst n.
    exfalso. apply Hni. apply list_elem_of_In, in_map. by apply in_rev.
Qed.

(** ** The mapping that [collect_all] returns *)

Lemma fold_visit_entries connection kwargs l results :
  NoDup (map name l) ->
  (forall m, m ∈ l -> dict_get results (name m) = None) ->
  fold_left (visit_result connection kwargs) l results =
  results ++ omap (entry_of connection kwargs) l.
Proof.
  revert results. induction l as [|m l IH]; intros results Hnd Hfresh.
  - simpl. by rewrite app_nil_r.
  - simpl in Hnd. apply NoDup_cons in Hnd as [Hni Hnd]. cbn [fold_left].
    rewrite IH; [|done|].
    + csimpl. unfold visit_result, entry_of.
      destruct (snd (collect m connection kwargs)) as [data|e]; [|done].
      destruct (truthy_data data); [|done].
      rewrite dict_set_fresh by (apply Hfresh; constructor).
      by rewrite <- app_assoc.
    + intros m' Hm'. rewrite visit_result_get_ne.
      * apply Hfresh. by constructor.
      * intros Heq. apply Hni. rewrite Heq.
        apply list_elem_of_In, in_map. by apply list_elem_of_In.
Qed.


(** ** What [log_all] writes *)

Lemma dispatched_nonempty r results :
  Forall (fun p => snd p <> []) (dispatched r results).
Proof.
  apply Forall_forall. intros [m d] Hin. unfold dispatched in Hin.
  apply list_elem_of_omap in Hin as ([n data] & _ & Heq).
  destruct (get_metric r n); [|done]. destruct data as [[|kv d']|]; try done.
  by injection Heq as _ <-.
Qed.

Lemma logged_shift sample_id clock t i p :
  logged sample_id clock (t + reading_step sample_id) i p =
  logged sample_id clock t (S i) p.
Proof. unfold logged. do 4 f_equal. simpl. lia. Qed.

Lemma for_each_log_data (l : list (BaseMetric * PyDict)) sample_id w :
  Forall (fun p => snd p <> []) l ->
  for_each l (fun '(m, d) => log_data m (Some d) sample_id) w =
  (Ok tt,
   {| log := log w ++ imap (logged sample_id (clock w) (ticks w)) l;
      files := files w;
      clock := clock w;
      ticks := ticks w + reading_step sample_id * length l |}).
Proof.
  intros Hl. revert w. induction Hl as [|[m d] l Hd Hl IH]; intros w.
  - simpl. rewrite app_nil_r, Nat.mul_0_r, Nat.add_0_r. by destruct w.
  - cbn [for_each]. unfold bind. simpl in Hd. rewrite (log_data_spec m d sample_id w Hd).
    rewrite IH. cbn [log files clock ticks]. f_equal.
    rewrite imap_cons.
    assert (imap (logged sample_id (clock w)
                    (if truthy_str sample_id then S (ticks w) else S (S (ticks w)))) l =
            imap (logged sample_id (clock w) (ticks w) ∘ S) l) as ->.
    { apply imap_ext. intros i p _. simpl. rewrite <- logged_shift. f_equal.
      unfold reading_step. destruct (truthy_str sample_id); lia. }
    f_equal.
    + rewrite <- app_assoc. f_equal. simpl. f_equal. unfold logged. simpl.
      by rewrite Nat.add_0_r.
    + unfold reading_step. simpl. destruct (truthy_str sample_id); lia.
Qed.

(** X5. [log_all] never raises and writes exactly one record per dispatched
    entry, in the order of the entries: the INFO envelope of the entry on the
    logger of the metric registered under its name, its timestamp read from
    the clock at the turn of the entry. It leaves the store as it was. *)
Theorem log_all_records
  (r : MetricRegistry) (results : Results) (sample_id : option string) (w : World) :
  exists w',
    log_all r results sample_id w = (Ok tt, w') /\
    log w' = log w ++ imap (logged sample_id (clock w) (ticks w)) (dispatched r results) /\
    length (log w') = length (log w) + length (dispatched r results) /\
    files w' = files w /\
    ticks w' = ticks w + reading_step sample_id * length (dispatched r results).
Proof.
  eexists. rewrite log_all_dispatched.
  rewrite for_each_log_data by apply dispatched_nonempty.
  split; [reflexivity|]. simpl. split; [done|]. split; [|done].
  by rewrite length_app, length_imap.
Qed.

(** ** Collecting, then logging *)

Lemma dispatched_collected r connection kwargs (l : list BaseMetric) :
  (forall m, m ∈ l -> get_metric r (name m) = Some m) ->
  Forall2 (fun p q => fst q = name (fst p) /\ snd q = Some (snd p))
          (dispatched r (omap (entry_of connection kwargs) l))
          (omap (entry_of connection kwargs) l).
Proof.
  induction l as [|m l IH]; intros Hl; [constructor|].
  assert (IH' := IH (fun m' Hm' => Hl m' (proj2 (elem_of_cons l m' m) (or_intror Hm')))).
  assert (Hm : get_metric r (name m) = Some m) by (apply Hl; constructor).
  change (omap (entry_of connection kwargs) (m :: l))
    with (match entry_of connection kwargs m with
          | Some e => e :: omap (entry_of connection kwargs) l
          | None => omap (entry_of connection kwargs) l
          end).
  destruct (entry_of connection kwargs m) as [[n data]|] eqn:E; [|exact IH'].
  unfold entry_of in E.
  destruct (snd (collect m connection kwargs)) as [data'|e]; [|discriminate E].
  destruct (truthy_data data') eqn:Ht; [|discriminate E].
  injection E as <- <-. rewrite dispatched_cons, Hm.
  destruct data' as [[|kv d]|]; try discriminate Ht.
  constructor; [done | exact IH'].
Qed.

Lemma imap_Forall2 {A B C} (R : A -> B -> Prop) (f : nat -> A -> C) (g : nat -> B -> C)
  (l1 : list A) (l2 : list B) :
  Forall2 R l1 l2 ->
  (forall i x y, R x y -> f i x = g i y) ->
  imap f l1 = imap g l2.
Proof.
  intros H. revert f g. induction H as [|x y l1 l2 Hxy H IH]; intros f g Hfg; [done|].
  rewrite !imap_cons. f_equal; [by apply Hfg|].
  apply IH. intros i x' y' Hr. simpl. by apply Hfg.
Qed.

(** X6. A pass that collects and then logs with the same registry skips no
    entry: [collect_all] followed by [log_all] returns without raising and
    adds to the log, after the events of the collection, exactly one envelope
    per entry of the results, in their order, on the logger of the metric of
    the entry, holding its name and its payload. *)
Theorem collect_then_log
  (ms : list BaseMetric) (connection : Connection) (kwargs : Kwargs)
  (sample_id : option string) (w : World) :
  let r := register_all ms new_registry in
  exists results w1 w2,
    collect_all r connection kwargs w = (Ok results, w1) /\
    log_all r results sample_id w1 = (Ok tt, w2) /\
    log w2 = log w1 ++ imap (logged_entry sample_id (clock w) (ticks w)) results /\
    length (log w2) = length (log w1) + length results.
Proof.
  intros r.
  assert (Hwf : index_wf r) by apply register_all_wf, new_registry_wf.
  pose proof (get_enabled_metrics_NoDup r Hwf) as Hnd.
  eexists _, _, _. split; [apply collect_all_spec|].
  rewrite fold_visit_entries by done. simpl app.
  rewrite log_all_dispatched, for_each_log_data by apply dispatched_nonempty.
  split; [reflexivity|]. cbn [log clock ticks set_log].
  assert (Himap :
    imap (logged sample_id (clock w) (ticks w))
         (dispatched r (omap (entry_of connection kwargs) (get_enabled_metrics r))) =
    imap (logged_entry sample_id (clock w) (ticks w))
         (omap (entry_of connection kwargs) (get_enabled_metrics r))).
  { apply (imap_Forall2 _ _ _ _ _
             (dispatched_collected r connection kwargs (get_enabled_metrics r)
                (fun m Hm => proj1 (proj1 (elem_of_get_enabled_metrics r m Hwf) Hm)))).
    intros i [m d] [n data] [Hn Hdata]. simpl in *. subst. reflexivity. }
  rewrite Himap. split; [done|].
  by rewrite length_app, length_imap.
Qed.

(** ** What the store keeps *)

Lemma same_data_refl w : same_data w w.
Proof. by split. Qed.

Lemma same_data_trans w1 w2 w3 : same_data w1 w2 -> same_data w2 w3 -> same_data w1 w3.
Proof.
  intros [Hl1 Hr1] [Hl2 Hr2]. split; [congruence|].
  intros db_path table. by rewrite Hr2, Hr1.
Qed.

Lemma sqlite3_connect_quiet db_path : quiet_step (sqlite3_connect db_path).
Proof.
  intros w. unfold sqlite3_connect.
  destruct (files w !! db_path) as [st|] eqn:E; simpl; [apply same_data_refl|].
  split; [done|]. intros db' table. unfold table_rows. simpl.
  destruct (decide (db_path = db')) as [<-|Hne].
  - by rewrite lookup_insert_eq, E, lookup_empty.
  - by rewrite lookup_insert_ne.
Qed.

Lemma now_isoformat_quiet : quiet_step now_isoformat.
Proof. intros w. by split. Qed.

Lemma or_else_now_quiet sample_id : quiet_step (or_else sample_id now_isoformat).
Proof.
  intros w. unfold or_else. destruct sample_id as [s|]; [|by split].
  destruct (String.eqb s ""); by split.
Qed.

Lemma lift_m_quiet {A} (r : result A) : quiet_step (lift_m r).
Proof. intros w. apply same_data_refl. Qed.

Lemma ret_fails_quietly {A} (a : A) : fails_quietly (ret a).
Proof. intros w e w' H. discriminate H. Qed.

Lemma commit_fails_quietly db_path conn : fails_quietly (commit db_path conn).
Proof. intros w e w' H. discriminate H. Qed.

Lemma bind_fails_quietly {A B} (m : M A) (f : A -> M B) :
  quiet_step m -> (forall a, fails_quietly (f a)) -> fails_quietly (bind m f).
Proof.
  intros Hm Hf w e w' H. unfold bind in H. specialize (Hm w).
  destruct (m w) as [[a|e'] w1]; simpl in Hm.
  - eapply same_data_trans; [exact Hm|]. by eapply Hf.
  - by injection H as _ <-.
Qed.

Ltac fails_quietly_steps :=
  repeat first
    [ apply ret_fails_quietly
    | apply commit_fails_quietly
    | apply bind_fails_quietly;
      [ first [ apply sqlite3_connect_quiet | apply now_isoformat_quiet
              | apply or_else_now_quiet | apply lift_m_quiet ]
      | intros ? ] ].

Lemma _store_data_impl_fails_quietly py psutil id p db_path data sample_id :
  fails_quietly (_store_data_impl (plugin py psutil id p) db_path data sample_id).
Proof.
  destruct p as [k|]; [destruct k|]; cbn [plugin db_metric _store_data_impl
    SessionOverviewMetric TopSessionsMetric BlockingSessionsMetric TablespaceUsageMetric
    WaitEventsMetric TempUsageMetric UndoMetricsMetric RedoMetricsMetric PlanChurnMetric
    IOSessionsMetric ResourceLimitsMetric HostMetricsMetric];
    unfold SessionOverviewMetric_store_data_impl, TopSessionsMetric_store_data_impl,
      BlockingSessionsMetric_store_data_impl, TablespaceUsageMetric_store_data_impl,
      WaitEventsMetric_store_data_impl, TempUsageMetric_store_data_impl,
      UndoMetricsMetric_store_data_impl, RedoMetricsMetric_store_data_impl,
      PlanChurnMetric_store_data_impl, IOSessionsMetric_store_data_impl,
      ResourceLimitsMetric_store_data_impl, HostMetricsMetric_store_data_impl;
    try match goal with
        | |- fails_quietly (if ?c then _ else _) => destruct c
        end;
    cbv zeta; fails_quietly_steps.
Qed.

(** X7. Persisting is all or nothing for each metric: when [store_data] of
    any of the twelve metrics raises (a record that is not a mapping, a value
    that SQLite cannot bind, a missing table), nothing it inserted before the
    failure is kept, since the commit is not reached: every table of every
    database file has the rows it had, and nothing was logged. *)
Theorem store_data_all_or_nothing
  (py : Builtins) (psutil : option (result HostSample)) (id : nat) (p : Plugin)
  (db_path : string) (data : option PyDict) (sample_id : option string)
  (w w' : World) (e : exn) :
  store_data (plugin py psutil id p) db_path data sample_id w = (Raise e, w') ->
  log w' = log w /\
  forall db_path' table, table_rows w' db_path' table = table_rows w db_path' table.
Proof.
  intros H. unfold store_data in H.
  destruct (negb (truthy_data data)); [discriminate H|].
  exact (_store_data_impl_fails_quietly py psutil id p db_path _ sample_id w e w' H).
Qed.

Lemma store_data_all_or_nothing_witness :
  let m := TopSessionsMetric plain_builtins 1 in
  let w := snd (init_storage m DB_PATH
                  {| log := []; files := ∅; clock := fun n => pretty n; ticks := 0 |}) in
  let w' := snd (store_data m DB_PATH (Some broken_payload) (Some "s1") w) in
  log w' = log w /\
  forall db_path' table, table_rows w' db_path' table = table_rows w db_path' table.
Proof.
  intros m w w'.
  apply (store_data_all_or_nothing plain_builtins None 1 (PDb TopSessions) DB_PATH
           (Some broken_payload) (Some "s1") w w'
           (OtherError "AttributeError" "object has no attribute 'get'")).
  vm_compute. reflexivity.
Defined.

(** ** Creating the tables *)



(** ** Persisting without a sample identifier *)

Lemma str_or_fallback sid fallback : truthy_str sid = false -> str_or sid fallback = fallback.
Proof.
  destruct sid as [s|]; simpl; [|done].
  destruct (String.eqb s ""); [done | discriminate].
Qed.

Lemma or_else_fallback sid fallback : truthy_str sid = false -> or_else sid fallback = fallback.
Proof.
  destruct sid as [s|]; simpl; [|done].
  destruct (String.eqb s ""); [done | discriminate].
Qed.

Section ListStoreFallback.
Variables (key table : string) (cols : list string) (db_path : string).
Variables (data : PyDict) (recs : list PyDict) (sid : option string) (w : World).
Variables (st : Store) (t : Table).
Hypothesis Hkey : dict_get data key = Some (VList (map VDict recs)).
Hypothesis Hsid : truthy_str sid = false.
Hypothesis Hst : files w !! db_path = Some st.
Hypothesis Ht : st !! table = Some t.
Hypothesis Hcols : forallb (has_column t) ("sample_id" :: "timestamp" :: cols) = true.
Hypothesis Hrecs : Forall (fun rec => storable cols rec = true) recs.

Lemma list_store_single_fallback :
  (if negb (dict_contains data key) then ret tt
   else
     (conn <- sqlite3_connect db_path ;;
      timestamp <- now_isoformat ;;
      let sample_id := str_or sid timestamp in
      conn <- lift_m
        (records <- py_iter (get data key) ;;
         fold_result records conn (fun conn r =>
           r <- as_dict r ;;
           sql_insert conn table (stamped sample_id timestamp (fields r cols))))%r ;;
      commit db_path conn)%m) w =
  (Ok tt,
   {| log := log w;
      files := <[db_path :=
                   <[table := {| tbl_columns := tbl_columns t;
                                 tbl_rows := tbl_rows t ++
                                   map (fun rec => stamped (clock w (ticks w + 0))
                                                     (clock w (ticks w))
                                                     (fields rec cols)) recs |}]> st]>
                 (files w);
      clock := clock w;
      ticks := S (ticks w + 0) |}).
Proof.
  rewrite Nat.add_0_r.
  unfold dict_contains. rewrite Hkey. cbn [negb].
  unfold bind. rewrite (sqlite3_connect_existing _ _ _ Hst).
  unfold now_isoformat. cbv zeta. rewrite str_or_fallback by done.
  unfold lift_m.
  rewrite (iter_insert_records_ok data key st table t (clock w (ticks w))
             (clock w (ticks w)) cols recs Hkey Ht Hcols Hrecs).
  reflexivity.
Qed.

Lemma list_store_double_fallback :
  (if negb (dict_contains data key) then ret tt
   else
     (conn <- sqlite3_connect db_path ;;
      timestamp <- now_isoformat ;;
      sample_id <- or_else sid now_isoformat ;;
      conn <- lift_m
        (records <- py_iter (get data key) ;;
         fold_result records conn (fun conn r =>
           r <- as_dict r ;;
           sql_insert conn table (stamped sample_id timestamp (fields r cols))))%r ;;
      commit db_path conn)%m) w =
  (Ok tt,
   {| log := log w;
      files := <[db_path :=
                   <[table := {| tbl_columns := tbl_columns t;
                                 tbl_rows := tbl_rows t ++
                                   map (fun rec => stamped (clock w (ticks w + 1))
                                                     (clock w (ticks w))
                                                     (fields rec cols)) recs |}]> st]>
                 (files w);
      clock := clock w;
      ticks := S (ticks w + 1) |}).
Proof.
  rewrite Nat.add_1_r.
  unfold dict_contains. rewrite Hkey. cbn [negb].
  unfold bind. rewrite (sqlite3_connect_existing _ _ _ Hst).
  rewrite or_else_fallback by done.
  unfold now_isoformat. cbn [ticks clock set_ticks files log].
  unfold lift_m.
  rewrite (iter_insert_records_ok data key st table t (clock w (S (ticks w)))
             (clock w (ticks w)) cols recs Hkey Ht Hcols Hrecs).
  reflexivity.
Qed.
End ListStoreFallback.

Lemma store_list_run_fallback py id k db_path data recs sid w :
  let m := list_metric py id k in
  dict_get data (primary_key k) = Some (VList (map VDict recs)) ->
  truthy_str sid = false ->
  storage_ready w db_path m ->
  Forall (fun rec => storable (record_columns k) rec = true) recs ->
  exists st t,
    files w !! db_path = Some st /\
    st !! history_table m = Some t /\
    _store_data_impl m db_path data sid w =
    (Ok tt,
     {| log := log w;
        files := <[db_path :=
                     <[history_table m :=
                         {| tbl_columns := tbl_columns t;
                            tbl_rows := tbl_rows t ++
                              map (fun rec => stamped (clock w (ticks w + fallback_reading k))
                                                (clock w (ticks w))
                                                (fields rec (record_columns k))) recs |}]>
                       st]> (files w);
        clock := clock w;
        ticks := S (ticks w + fallback_reading k) |}).
Proof.
  intros m Hkey Hsid Hready Hrecs. unfold m in *. clear m.
  unfold storage_ready in Hready. unfold history_table.
  destruct (_get_storage_schema (list_metric py id k)) as [schema|] eqn:Hschema; [|done].
  destruct Hready as (st & t & Hst & Ht & Hhas).
  pose proof (has_columns_trans t _ _ Hhas (list_insert_columns py id k schema Hschema))
    as Hcols.
  exists st, t. split; [exact Hst|]. split; [exact Ht|].
  destruct k; injection Hschema as <-;
    first [ exact (list_store_single_fallback _ _ _ _ _ _ _ _ _ _ Hkey Hsid Hst Ht Hcols Hrecs)
          | exact (list_store_double_fallback _ _ _ _ _ _ _ _ _ _ Hkey Hsid Hst Ht Hcols Hrecs) ].
Qed.

(** X9. A list-shaped metric that persists its records with no sample
    identifier ([None] or the empty string) stamps every row of the call with
    the same fallback identifier, a clock reading: [TopSessionsMetric],
    [BlockingSessionsMetric] and [TablespaceUsageMetric] reuse the reading of
    the [timestamp] column, so the two columns agree; the four others read
    the clock a second time, so the identifier is the later reading. *)
Theorem store_list_fallback_id
  (py : Builtins) (id : nat) (k : ListMetric) (db_path : string)
  (data : PyDict) (recs : list PyDict) (sid : option string) (w : World) :
  let m := list_metric py id k in
  dict_get data (primary_key k) = Some (VList (map VDict recs)) ->
  truthy_str sid = false ->
  storage_ready w db_path m ->
  Forall (fun rec => storable (record_columns k) rec = true) recs ->
  exists w',
    store_data m db_path (Some data) sid w = (Ok tt, w') /\
    table_rows w' db_path (history_table m) =
      table_rows w db_path (history_table m) ++
      map (fun rec => stamped (clock w (ticks w + fallback_reading k)) (clock w (ticks w))
                        (fields rec (record_columns k))) recs /\
    ticks w' = S (ticks w + fallback_reading k) /\
    log w' = log w.
Proof.
  intros m Hkey Hsid Hready Hrecs. subst m.
  destruct (store_list_run_fallback py id k db_path data recs sid w Hkey Hsid Hready Hrecs)
    as (st & t & Hst & Ht & Hrun).
  assert (Hdata : exists kv d, data = kv :: d).
  { destruct data as [|kv d]; [discriminate Hkey | eauto]. }
  destruct Hdata as (kv & d & ->).
  eexists. rewrite store_data_nonempty. split; [exact Hrun|].
  rewrite (table_rows_lookup _ _ _ _ _ Hst Ht).
  split; [apply table_rows_committed | done].
Qed.

Lemma store_list_fallback_id_witness :
  let m := WaitEventsMetric plain_builtins 5 in
  let rec := [("event", VStr "log file sync"); ("total_waits", VInt 4)] in
  exists w',
    store_data m monitor_db (Some [("wait_events", VList [VDict rec]); ("count", VInt 1)])
      None (initialised_world m) = (Ok tt, w') /\
    table_rows w' monitor_db "wait_events_history" =
      table_rows (initialised_world m) monitor_db "wait_events_history" ++
      map (fun rec => stamped "T1" "T0" (fields rec WaitEventsMetric_columns)) [rec] /\
    ticks w' = 2 /\
    log w' = [].
Proof.
  apply (store_list_fallback_id plain_builtins 5 LWaitEvents monitor_db
           [("wait_events",
             VList [VDict [("event", VStr "log file sync"); ("total_waits", VInt 4)]]);
            ("count", VInt 1)]
           [[("event", VStr "log file sync"); ("total_waits", VInt 4)]] None
           (initialised_world (WaitEventsMetric plain_builtins 5))).
  - reflexivity.
  - reflexivity.
  - eexists _, _. split; [vm_compute; reflexivity|]. split; vm_compute; reflexivity.
  - repeat constructor.
Defined.

(** ** Persisting a scalar payload under a given sample identifier *)

Section ScalarStoreSupplied.
Variables (table : string) (cols : list string) (db_path : string).
Variables (data : PyDict) (s : string) (w : World) (st : Store) (t : Table).
Hypothesis Hs : s <> "".
Hypothesis Hst : files w !! db_path = Some st.
Hypothesis Ht : st !! table = Some t.
Hypothesis Hcols : forallb (has_column t) ("sample_id" :: "timestamp" :: cols) = true.
Hypothesis Hdata : storable cols data = true.


End ScalarStoreSupplied.




(** ** Persisting before and after [init_storage] *)

Lemma connect_lookup db_path w :
  sqlite3_connect db_path w =
  (Ok (default ∅ (files w !! db_path)),
   match files w !! db_path with
   | Some _ => w
   | None => set_files w (<[db_path := ∅]> (files w))
   end).
Proof. unfold sqlite3_connect. by destruct (files w !! db_path). Qed.

Lemma sql_insert_no_table (conn : Store) table row :
  conn !! table = None ->
  sql_insert conn table row =
  Raise (OtherError "sqlite3.OperationalError" ("no such table: " ++ table)).
Proof. intros H. unfold sql_insert. by rewrite H. Qed.

Lemma table_absent_default (w : World) db_path table :
  (forall st, files w !! db_path = Some st -> st !! table = None) ->
  default ∅ (files w !! db_path) !! table = None.
Proof.
  intros H. destruct (files w !! db_path) as [st|] eqn:E; simpl; [by apply H|].
  apply lookup_empty.
Qed.

Lemma scalar_store_no_table py psutil id k db_path data sid w :
  let m := scalar_metric py psutil id k in
  (forall st, files w !! db_path = Some st -> st !! history_table m = None) ->
  fst (_store_data_impl m db_path data sid w) =
  Raise (OtherError "sqlite3.OperationalError" ("no such table: " ++ history_table m)).
Proof.
  intros m Habsent. subst m. apply table_absent_default in Habsent.
  destruct k; cbn [scalar_metric history_table _get_storage_schema _store_data_impl
                   SessionOverviewMetric UndoMetricsMetric RedoMetricsMetric
                   HostMetricsMetric schema_table
                   SessionOverviewMetric_schema UndoMetricsMetric_schema
                   RedoMetricsMetric_schema HostMetricsMetric_schema] in *;
    unfold SessionOverviewMetric_store_data_impl, UndoMetricsMetric_store_data_impl,
           RedoMetricsMetric_store_data_impl, HostMetricsMetric_store_data_impl;
    unfold bind; rewrite connect_lookup;
    destruct sid as [s|]; cbn [or_else]; try destruct (String.eqb s "");
    unfold ret, now_isoformat, lift_m; rewrite (sql_insert_no_table _ _ _ Habsent);
    reflexivity.
Qed.

(** X11. A scalar-shaped metric that persists a non-empty payload in a
    database file that lacks its history table (the file may be missing
    too) raises [sqlite3.OperationalError: no such table: <table>], whatever
    the payload and the sample identifier; no row is written and nothing is
    logged. *)
Theorem store_scalar_without_table
  (py : Builtins) (psutil : option (result HostSample)) (id : nat) (k : ScalarMetric)
  (db_path : string) (data : PyDict) (sid : option string) (w : World) :
  let m := scalar_metric py psutil id k in
  data <> [] ->
  (forall st, files w !! db_path = Some st -> st !! history_table m = None) ->
  exists w',
    store_data m db_path (Some data) sid w =
      (Raise (OtherError "sqlite3.OperationalError"
                         ("no such table: " ++ history_table m)), w') /\
    (forall db_path' table, table_rows w' db_path' table = table_rows w db_path' table) /\
    log w' = log w.
Proof.
  intros m Hne Habsent. destruct data as [|kv d]; [done|].
  rewrite store_data_nonempty.
  pose proof (scalar_store_no_table py psutil id k db_path (kv :: d) sid w Habsent) as Hfst.
  fold m in Hfst.
  destruct (_store_data_impl m db_path (kv :: d) sid w) as [r w'] eqn:Hrun.
  simpl in Hfst. subst r. exists w'. split; [reflexivity|].
  assert (Hq : same_data w w').
  { assert (Hp : exists p, m = plugin py psutil id p).
    { subst m. destruct k; [by exists (PDb SessionOverview) | by exists (PDb UndoMetrics)
                           | by exists (PDb RedoMetrics) | by exists PHost]. }
    destruct Hp as [p Hp]. rewrite Hp in Hrun.
    exact (_store_data_impl_fails_quietly py psutil id p db_path (kv :: d) sid w _ w' Hrun). }
  destruct Hq as [Hlog Hrows]. split; [exact Hrows | exact Hlog].
Qed.

Lemma store_scalar_without_table_witness :
  let m := RedoMetricsMetric plain_builtins 8 in
  exists w',
    store_data m monitor_db (Some scenario_5_payload) (Some "s1") empty_world =
      (Raise (OtherError "sqlite3.OperationalError" "no such table: redo_metrics_history"),
       w') /\
    (forall db_path' table,
        table_rows w' db_path' table = table_rows empty_world db_path' table) /\
    log w' = [].
Proof.
  apply (store_scalar_without_table plain_builtins None 8 SRedoMetrics monitor_db
           scenario_5_payload (Some "s1") empty_world).
  - discriminate.
  - intros st H. vm_compute in H. discriminate H.
Defined.




(** ** What is collected is what is persisted *)

Lemma build_dict_keys fs d : build_dict fs = Ok d -> map fst d = map fst fs.
Proof.
  revert d. induction fs as [|[k e] fs IH]; intros d H; simpl in H.
  - by injection H as <-.
  - apply result_bind_Ok in H as (v & _ & H).
    apply result_bind_Ok in H as (d' & Hd' & H).
    injection H as <-. simpl. f_equal. by apply IH.
Qed.

Lemma each_row_Forall {A} (P : A -> Prop) rows fe (body : DbRow -> result A) l :
  (forall r a, body r = Ok a -> P a) ->
  each_row rows fe body = Ok l -> Forall P l /\ length l = length rows.
Proof.
  intros Hbody. revert l. induction rows as [|r rows IH]; intros l H; simpl in H.
  - destruct fe; [discriminate H|]. injection H as <-. by split.
  - apply result_bind_Ok in H as (a & Ha & H).
    apply result_bind_Ok in H as (l' & Hl' & H).
    injection H as <-. destruct (IH l' Hl') as [HF Hlen].
    split; [constructor; eauto | simpl; by rewrite Hlen].
Qed.

(** A record with distinct keys is the tuple of its values under its keys. *)
Lemma fields_own_keys (rec : PyDict) : NoDup (map fst rec) -> fields rec (map fst rec) = rec.
Proof.
  unfold fields. rewrite map_map.
  induction rec as [|[k v] rec IH]; intros Hnd; [done|].
  apply NoDup_cons in Hnd as [Hni Hnd]. simpl.
  unfold get at 1. simpl. rewrite String.eqb_refl. f_equal.
  rewrite <- (IH Hnd) at 2.
  apply map_ext_in. intros [k' v'] Hin. simpl. f_equal.
  unfold get. simpl.
  destruct (String.eqb k k') eqn:E; [|done].
  apply String.eqb_eq in E. subst k'. exfalso. apply Hni.
  apply list_elem_of_In in Hin. apply (list_elem_of_fmap_2 fst) in Hin. exact Hin.
Qed.

Ltac invert_binds_keep H :=
  repeat first [ apply result_bind_Ok in H as (? & ? & H)
               | apply cbind_Ok in H as (? & ? & H) ].

Lemma list_body_records py k connection kwargs d :
  snd (collect_body py (as_db_metric k) connection kwargs) = Ok (Some d) ->
  exists recs, d = counted (primary_key k) recs /\
               Forall (fun rec => map fst rec = record_columns k) recs.
Proof.
  intros H. destruct k; cbn [collect_body as_db_metric primary_key record_columns] in H |- *;
    unfold TopSessionsMetric_collect_body, BlockingSessionsMetric_collect_body,
           TablespaceUsageMetric_collect_body, WaitEventsMetric_collect_body,
           TempUsageMetric_collect_body, PlanChurnMetric_collect_body,
           IOSessionsMetric_collect_body in H;
    cbv zeta in H; cbn [snd lift] in H; invert_binds_keep H;
    try (destruct (negb _); [discriminate H|]; cbn [snd lift] in H; invert_binds_keep H);
    injection H as <-;
    match goal with
    | Hf : for_rows _ _ = Ok ?recs |- _ =>
        exists recs; split; [reflexivity|];
        unfold for_rows in Hf;
        refine (proj1 (each_row_Forall _ _ _ _ _ _ Hf));
        intros r a Ha; exact (build_dict_keys _ _ Ha)
    end.
Qed.

(** X13. The records that a list-shaped metric collects have exactly the
    keys that its history table has as columns, in the order of the INSERT
    statement: the tuple that [_store_data_impl] binds for a collected record
    is the record itself, so no collected field is dropped or left NULL for
    want of a key. *)
Theorem collected_records_fit_columns
  (py : Builtins) (id : nat) (k : ListMetric) (connection : Connection) (kwargs : Kwargs)
  (d : PyDict) :
  snd (collect (list_metric py id k) connection kwargs) = Ok (Some d) ->
  exists recs,
    d = counted (primary_key k) recs /\
    Forall (fun rec => dict_keys rec = record_columns k /\
                       fields rec (record_columns k) = rec) recs.
Proof.
  intros H. rewrite list_metric_db_metric, collect_guarded in H.
  apply guarded_Ok_Some in H. apply list_body_records in H as (recs & -> & HF).
  exists recs. split; [done|].
  eapply Forall_impl; [exact HF|]. intros rec Hk. split; [exact Hk|].
  rewrite <- Hk. apply fields_own_keys. rewrite Hk.
  destruct k; apply (bool_decide_unpack _); vm_compute; exact I.
Qed.

Lemma collected_records_fit_columns_witness :
  exists recs,
    [("wait_events",
      VList [VDict [("event", VStr "db file sequential read"); ("total_waits", VInt 10);
                    ("total_wait_seconds", VFloat (5 # 1)); ("avg_wait_ms", VFloat (0 # 1))];
             VDict [("event", VStr "log file sync"); ("total_waits", VInt 4);
                    ("total_wait_seconds", VFloat (0 # 1)); ("avg_wait_ms", VFloat (1 # 2))]]);
     ("count", VInt 2)] = counted "wait_events" recs /\
    Forall (fun rec => dict_keys rec = WaitEventsMetric_columns /\
                       fields rec WaitEventsMetric_columns = rec) recs.
Proof.
  apply (collected_records_fit_columns plain_builtins 5 LWaitEvents two_rows_connection []).
  vm_compute. reflexivity.
Defined.





(** ** Empty result sets *)

Ltac run_on_empty Hcur Hrun :=
  unfold SessionOverviewMetric_collect, TopSessionsMetric_collect,
         BlockingSessionsMetric_collect, TablespaceUsageMetric_collect,
         WaitEventsMetric_collect, TempUsageMetric_collect, UndoMetricsMetric_collect,
         RedoMetricsMetric_collect, PlanChurnMetric_collect, IOSessionsMetric_collect,
         ResourceLimitsMetric_collect,
         SessionOverviewMetric_collect_body, TopSessionsMetric_collect_body,
         BlockingSessionsMetric_collect_body, TablespaceUsageMetric_collect_body,
         WaitEventsMetric_collect_body, TempUsageMetric_collect_body,
         UndoMetricsMetric_collect_body, RedoMetricsMetric_collect_body,
         PlanChurnMetric_collect_body, IOSessionsMetric_collect_body,
         ResourceLimitsMetric_collect_body, _get_statistic_id,
         cursor, execute, for_rows, fetchone;
  rewrite Hcur; cbn [lift cbind result_bind cur_run cur_rows cur_fetch_error];
  rewrite ?Hrun; cbn [exec_error rows fetch_error];
  cbn [lift cbind result_bind cur_run cur_rows cur_fetch_error try_except_oracledb cret
       each_row resource_limits_rows app];
  rewrite ?Hrun; cbn [exec_error rows fetch_error];
  cbn [lift cbind result_bind cur_run cur_rows cur_fetch_error try_except_oracledb cret
       each_row resource_limits_rows app forallb truthy negb andb];
  rewrite ?Hrun; try reflexivity.

(** X15. On a database that answers every query with no row:
    [SessionOverviewMetric] and [TopSessionsMetric] find no statistic
    identifier and return [None] without logging; the six list-shaped
    metrics with a single query return a payload with an empty list and
    [count] 0, which is a non-empty dict and so is logged and persisted;
    [RedoMetricsMetric] returns its three defaults 0; [ResourceLimitsMetric]
    returns an empty [limits]; [UndoMetricsMetric] subscripts the [None] that
    [fetchone] returned and raises [TypeError], which its handler for the
    errors of the driver does not catch. *)
Theorem collect_on_empty_results
  (py : Builtins) (id : nat) (connection : Connection) (kwargs : Kwargs) :
  answers_nothing connection ->
  collect (SessionOverviewMetric py id) connection kwargs = ([], Ok None) /\
  collect (TopSessionsMetric py id) connection kwargs = ([], Ok None) /\
  (forall k, k <> LTopSessions ->
     collect (list_metric py id k) connection kwargs =
     ([], Ok (Some [(primary_key k, VList []); ("count", VInt 0)]))) /\
  collect (RedoMetricsMetric py id) connection kwargs =
    ([], Ok (Some [("redo_size", VInt 0); ("redo_writes", VInt 0);
                   ("redo_write_time", VInt 0)])) /\
  collect (ResourceLimitsMetric py id) connection kwargs =
    ([], Ok (Some [("limits", VDict [])])) /\
  collect (UndoMetricsMetric py id) connection kwargs =
    ([], Raise (OtherError "TypeError" "'NoneType' object is not subscriptable")).
Proof.
  intros [Hcur Hrun].
  split; [cbn [collect SessionOverviewMetric]; run_on_empty Hcur Hrun|].
  split; [cbn [collect TopSessionsMetric]; run_on_empty Hcur Hrun|].
  split.
  { intros k Hk.
    destruct k; [done| | | | | |];
      cbn [list_metric collect primary_key BlockingSessionsMetric TablespaceUsageMetric
           WaitEventsMetric TempUsageMetric PlanChurnMetric IOSessionsMetric];
      run_on_empty Hcur Hrun. }
  split; [cbn [collect RedoMetricsMetric]; run_on_empty Hcur Hrun|].
  split; [cbn [collect ResourceLimitsMetric]; run_on_empty Hcur Hrun|].
  cbn [collect UndoMetricsMetric]; run_on_empty Hcur Hrun.
Qed.

Lemma collect_on_empty_results_witness :
  collect (SessionOverviewMetric plain_builtins 1) idle_connection [] = ([], Ok None) /\
  collect (TopSessionsMetric plain_builtins 1) idle_connection [] = ([], Ok None) /\
  (forall k, k <> LTopSessions ->
     collect (list_metric plain_builtins 1 k) idle_connection [] =
     ([], Ok (Some [(primary_key k, VList []); ("count", VInt 0)]))) /\
  collect (RedoMetricsMetric plain_builtins 1) idle_connection [] =
    ([], Ok (Some [("redo_size", VInt 0); ("redo_writes", VInt 0);
                   ("redo_write_time", VInt 0)])) /\
  collect (ResourceLimitsMetric plain_builtins 1) idle_connection [] =
    ([], Ok (Some [("limits", VDict [])])) /\
  collect (UndoMetricsMetric plain_builtins 1) idle_connection [] =
    ([], Raise (OtherError "TypeError" "'NoneType' object is not subscriptable")).
Proof.
  apply (collect_on_empty_results plain_builtins 1 idle_connection []).
  split; reflexivity.
Defined.

(** ** Persisting the resource limits *)




(** ** The storage of the driver *)





Lemma init_tables_absent l (st : Store) n :
  st !! n = None -> n ∉ declared_tables l -> init_tables l st !! n = None.
Proof.
  revert st. induction l as [|m l IH]; intros st H Hni; [done|].
  cbn [init_tables fold_left]. unfold declared_tables in Hni. cbn [omap list_omap] in Hni.
  destruct (_get_storage_schema m) as [schema|].
  - apply not_elem_of_cons in Hni as [Hne Hni]. apply IH; [|exact Hni].
    unfold create_table_if_not_exists.
    destruct (st !! schema_table schema); [done|]. by rewrite lookup_insert_ne.
  - by apply IH.
Qed.




(** ** Switching a metric off *)

Lemma filter_enabled_disabled id (l : list BaseMetric) :
  filter (fun m => enabled m = true) (map (with_enabled id false) l) =
  filter (fun m => obj_id m <> id) (filter (fun m => enabled m = true) l).
Proof.
  induction l as [|m l IH]; [done|].
  rewrite map_cons, !filter_cons.
  destruct (Nat.eqb (obj_id m) id) eqn:E.
  - assert (Hen : enabled (with_enabled id false m) = false)
      by (unfold with_enabled; by rewrite E).
    apply Nat.eqb_eq in E. rewrite decide_False by (by rewrite Hen).
    destruct (decide (enabled m = true)); [|exact IH].
    rewrite filter_cons, decide_False by (intros H; by apply H). exact IH.
  - assert (Hm : with_enabled id false m = m) by (unfold with_enabled; by rewrite E).
    apply Nat.eqb_neq in E. rewrite Hm.
    destruct (decide (enabled m = true)); [|exact IH].
    rewrite filter_cons, decide_True by done. by rewrite IH.
Qed.

(** X18. Clearing the [enabled] flag of a registered metric object, as the
    sidebar of the driver does, takes exactly that object out of
    [get_enabled_metrics] and out of the next [collect_all], whose result is
    the one of the remaining enabled metrics in their order; the object
    stays registered under its name, and the bucket of its category shows
    the same flag, since both indexes hold the one object. *)
Theorem disable_metric
  (ms : list BaseMetric) (id : nat) (connection : Connection) (kwargs : Kwargs) (w : World) :
  let r := register_all ms new_registry in
  let r' := set_enabled id false r in
  get_enabled_metrics r' = filter (fun m => obj_id m <> id) (get_enabled_metrics r) /\
  map name (get_all_metrics r') = map name (get_all_metrics r) /\
  (forall c, get_metrics_by_category r' c =
             map (with_enabled id false) (get_metrics_by_category r c)) /\
  fst (collect_all r' connection kwargs w) =
    Ok (omap (entry_of connection kwargs)
             (filter (fun m => obj_id m <> id) (get_enabled_metrics r))).
Proof.
  intros r r'.
  assert (Hvalues : dict_values (metrics r') =
                    map (with_enabled id false) (dict_values (metrics r))).
  { unfold r', set_enabled, dict_values. cbn [metrics]. by rewrite !map_map. }
  assert (Henabled : get_enabled_metrics r' =
                     filter (fun m => obj_id m <> id) (get_enabled_metrics r)).
  { unfold get_enabled_metrics. rewrite Hvalues. apply filter_enabled_disabled. }
  split; [exact Henabled|]. split.
  { unfold get_all_metrics. rewrite Hvalues, map_map.
    apply map_ext. intros m. apply with_enabled_name. }
  split.
  { intros c. unfold get_metrics_by_category, r', set_enabled. cbn [categories].
    rewrite (dict_get_map_values (map (with_enabled id false))).
    by destruct (dict_get (categories r) c). }
  rewrite collect_all_spec. cbn [fst]. f_equal.
  rewrite <- Henabled. apply fold_visit_entries; [|done].
  unfold r'. unfold r. rewrite set_enabled_register_all.
  apply get_enabled_metrics_NoDup, register_all_wf, new_registry_wf.
Qed.

(** ** The history is only appended to *)

Lemma st_extends_refl P conn : st_extends P conn conn.
Proof. intros table. exists []. by rewrite app_nil_r. Qed.

Lemma st_extends_trans P c1 c2 c3 :
  st_extends P c1 c2 -> st_extends P c2 c3 -> st_extends P c1 c3.
Proof.
  intros H1 H2 table. destruct (H1 table) as (n1 & E1 & F1).
  destruct (H2 table) as (n2 & E2 & F2). exists (n1 ++ n2).
  split; [by rewrite E2, E1, app_assoc | by apply Forall_app].
Qed.

Lemma sql_insert_extends (P : Row -> Prop) conn table row conn' :
  P row -> sql_insert conn table row = Ok conn' -> st_extends P conn conn'.
Proof.
  intros HP H. unfold sql_insert in H.
  destruct (conn !! table) as [t|] eqn:Ht; [|discriminate H].
  destruct (find _ (map fst row)); [discriminate H|].
  destruct (find _ (map snd row)); [discriminate H|].
  injection H as <-. intros table'. unfold rows_of.
  destruct (decide (table = table')) as [<-|Hne].
  - rewrite lookup_insert_eq, Ht. exists [row]. split; [done | by constructor].
  - rewrite lookup_insert_ne by done. exists []. by rewrite app_nil_r.
Qed.

Lemma fold_result_extends {A} (P : Row -> Prop) (l : list A) conn body conn' :
  (forall c x c', body c x = Ok c' -> st_extends P c c') ->
  fold_result l conn body = Ok conn' -> st_extends P conn conn'.
Proof.
  intros Hbody. revert conn. induction l as [|x l IH]; intros conn H; simpl in H.
  - injection H as <-. apply st_extends_refl.
  - apply result_bind_Ok in H as (c1 & H1 & H).
    eapply st_extends_trans; [by eapply Hbody | by apply IH].
Qed.

Lemma same_data_appends P w w' : same_data w w' -> appends_only P w w'.
Proof.
  intros [Hlog Hrows]. split; [done|]. intros db_path table. exists [].
  by rewrite app_nil_r.
Qed.

Lemma appends_only_trans P w1 w2 w3 :
  appends_only P w1 w2 -> appends_only P w2 w3 -> appends_only P w1 w3.
Proof.
  intros [L1 H1] [L2 H2]. split; [congruence|]. intros db_path table.
  destruct (H1 db_path table) as (n1 & E1 & F1).
  destruct (H2 db_path table) as (n2 & E2 & F2). exists (n1 ++ n2).
  split; [by rewrite E2, E1, app_assoc | by apply Forall_app].
Qed.

Lemma commit_appends P w db_path (conn' : Store) F c n :
  st_extends P (default ∅ (files w !! db_path)) conn' ->
  (forall db_path', db_path' <> db_path -> F !! db_path' = files w !! db_path') ->
  appends_only P w {| log := log w; files := <[db_path := conn']> F; clock := c; ticks := n |}.
Proof.
  intros Hext HF. split; [done|]. intros db' table. unfold table_rows. cbn [files].
  destruct (decide (db' = db_path)) as [->|Hne].
  - rewrite lookup_insert_eq. destruct (Hext table) as (new & E & HP).
    exists new. split; [|done]. unfold rows_of in E.
    destruct (files w !! db_path) as [st|]; simpl in E; [exact E|].
    by rewrite lookup_empty in E.
  - rewrite lookup_insert_ne by done. rewrite (HF db' Hne). exists [].
    by rewrite app_nil_r.
Qed.

Lemma stamped_is_stamped_with sample_id x ts r :
  (forall s, sample_id = Some s -> s <> "" -> x = s) ->
  stamped_with sample_id (stamped x ts r).
Proof.
  intros Hx s Hs Hne. rewrite (Hx s Hs Hne). unfold stamped. simpl. reflexivity.
Qed.

Ltac stamp_side :=
  let s0 := fresh "s" in
  let Hs0 := fresh "Hs" in
  let Hne := fresh "Hne" in
  intros s0 Hs0 Hne;
  first [ discriminate Hs0
        | injection Hs0 as ->;
          first [ reflexivity
                | by rewrite str_or_supplied
                | match goal with
                  | Es : String.eqb _ "" = true |- _ =>
                      apply String.eqb_eq in Es; contradiction
                  end ] ].

Lemma fold_insert_extends {A B} (P : Row -> Prop) (l : list A) conn conn'
  (pre : A -> result B) table (row : B -> Row) :
  (forall b, P (row b)) ->
  fold_result l conn (fun conn x => (b <- pre x ;; sql_insert conn table (row b))%r) =
    Ok conn' ->
  st_extends P conn conn'.
Proof.
  intros HP. apply fold_result_extends. intros c x c' Hb.
  apply result_bind_Ok in Hb as (b & _ & Hb).
  by eapply sql_insert_extends.
Qed.

Ltac insert_extends HR :=
  first
    [ eapply sql_insert_extends; [|exact HR];
      apply stamped_is_stamped_with; stamp_side
    | apply result_bind_Ok in HR as (? & _ & HR);
      first
        [ eapply fold_insert_extends; [|exact HR];
          intros ?; apply stamped_is_stamped_with; stamp_side
        | eapply fold_result_extends; [|exact HR];
          intros ? [? ?] ? Hbody_ok;
          apply result_bind_Ok in Hbody_ok as (? & _ & Hbody_ok);
          eapply sql_insert_extends; [|exact Hbody_ok];
          apply stamped_is_stamped_with; stamp_side ] ].

Ltac run_store H :=
  unfold bind, sqlite3_connect in H;
  match type of H with
  | context [files ?w !! ?db] =>
      let E := fresh "E" in
      destruct (files w !! db) as [?|] eqn:E;
      unfold now_isoformat, ret, lift_m, commit in H;
      unfold set_files, set_ticks in H;
      cbv beta iota in H;
      cbn [log files clock ticks] in H;
      match type of H with
      | context [match ?r with Ok _ => _ | Raise _ => _ end] =>
          let HR := fresh "HR" in
          destruct r eqn:HR; [|discriminate H];
          injection H as <-;
          rewrite ?insert_insert_eq;
          apply commit_appends;
          [ rewrite E; cbn [default from_option id]; insert_extends HR
          | intros ? ?; rewrite ?lookup_insert_ne by done; reflexivity ]
      end
  end.

Lemma _store_data_impl_appends py psutil id p db_path data sample_id w w' :
  _store_data_impl (plugin py psutil id p) db_path data sample_id w = (Ok tt, w') ->
  appends_only (stamped_with sample_id) w w'.
Proof.
  intros H.
  destruct p as [k|]; [destruct k|]; cbn [plugin db_metric _store_data_impl
    SessionOverviewMetric TopSessionsMetric BlockingSessionsMetric TablespaceUsageMetric
    WaitEventsMetric TempUsageMetric UndoMetricsMetric RedoMetricsMetric PlanChurnMetric
    IOSessionsMetric ResourceLimitsMetric HostMetricsMetric] in H;
    unfold SessionOverviewMetric_store_data_impl, TopSessionsMetric_store_data_impl,
      BlockingSessionsMetric_store_data_impl, TablespaceUsageMetric_store_data_impl,
      WaitEventsMetric_store_data_impl, TempUsageMetric_store_data_impl,
      UndoMetricsMetric_store_data_impl, RedoMetricsMetric_store_data_impl,
      PlanChurnMetric_store_data_impl, IOSessionsMetric_store_data_impl,
      ResourceLimitsMetric_store_data_impl, HostMetricsMetric_store_data_impl in H;
    try match type of H with
        | (if ?c then _ else _) _ = _ =>
            destruct c; [injection H as <-; apply same_data_appends, same_data_refl|]
        end;
    cbv zeta in H; unfold or_else in H;
    (destruct sample_id as [sid|];
     [ first [ progress (destruct (String.eqb sid "") eqn:?) | idtac ] | ]);
    run_store H.
Qed.

Lemma store_data_appends m db_path data sample_id w :
  package_store m ->
  appends_only (stamped_with sample_id) w (snd (store_data m db_path data sample_id w)).
Proof.
  intros (py & psutil & id & p & Himpl). unfold store_data.
  destruct (negb (truthy_data data)); [apply same_data_appends, same_data_refl|].
  rewrite Himpl.
  destruct (_store_data_impl (plugin py psutil id p) db_path (default [] data) sample_id w)
    as [[[]|e] w'] eqn:Hrun; simpl.
  - by eapply _store_data_impl_appends.
  - apply same_data_appends. by eapply _store_data_impl_fails_quietly.
Qed.

Lemma get_metric_elem_of_all r n m : get_metric r n = Some m -> m ∈ get_all_metrics r.
Proof.
  unfold get_metric, get_all_metrics, dict_values.
  induction (metrics r) as [|[k v] d IH]; simpl; [discriminate|].
  destruct (String.eqb k n).
  - intros [= ->]. apply elem_of_cons. by left.
  - intros H. apply elem_of_cons. right. by apply IH.
Qed.

Lemma store_all_appends r db_path results sample_id w :
  (forall n m, get_metric r n = Some m -> package_store m) ->
  appends_only (stamped_with sample_id) w (snd (store_all r db_path results sample_id w)).
Proof.
  intros Hpkg. unfold store_all. revert w.
  induction results as [|[n data] results IH]; intros w.
  - apply same_data_appends, same_data_refl.
  - cbn [for_each]. unfold bind at 1.
    destruct (get_metric r n) as [m|] eqn:Hm.
    + destruct (truthy_data data).
      * pose proof (store_data_appends m db_path data sample_id w (Hpkg n m Hm)) as Hstep.
        destruct (store_data m db_path data sample_id w) as [[[]|e] w1]; simpl in Hstep.
        -- eapply appends_only_trans; [exact Hstep | apply IH].
        -- exact Hstep.
      * apply IH.
    + apply IH.
Qed.

(** X19. The history is only appended to. Whatever the results and
    whether it returns or raises, [store_all] on a registry of metrics of the
    package logs nothing and leaves every table of every database file with
    the rows it had, in their order, followed by the rows of this call; when
    a non-empty sample identifier is given, every new row carries it. *)
Theorem store_all_appends_only
  (r : MetricRegistry) (db_path : string) (results : Results)
  (sample_id : option string) (w : World) :
  (forall n m, get_metric r n = Some m -> package_store m) ->
  let w' := snd (store_all r db_path results sample_id w) in
  log w' = log w /\
  forall db_path' table, exists new,
    table_rows w' db_path' table = table_rows w db_path' table ++ new /\
    Forall (fun row => forall s, sample_id = Some s -> s <> "" ->
                                 dict_get row "sample_id" = Some (VStr s)) new.
Proof. intros Hpkg w'. exact (store_all_appends r db_path results sample_id w Hpkg). Qed.

Lemma store_all_appends_only_witness :
  let r := get_registry plain_builtins None in
  let w := initialised_world (TopSessionsMetric plain_builtins 2) in
  let w' := snd (store_all r monitor_db
                   [("TopSessionsMetric", Some one_session_payload);
                    ("RedoMetricsMetric", Some scenario_5_payload)] (Some "s1") w) in
  log w' = log w /\
  forall db_path' table, exists new,
    table_rows w' db_path' table = table_rows w db_path' table ++ new /\
    Forall (fun row => forall s, Some "s1" = Some s -> s <> "" ->
                                 dict_get row "sample_id" = Some (VStr s)) new.
Proof.
  apply (store_all_appends_only (get_registry plain_builtins None) monitor_db
           [("TopSessionsMetric", Some one_session_payload);
            ("RedoMetricsMetric", Some scenario_5_payload)] (Some "s1")
           (initialised_world (TopSessionsMetric plain_builtins 2))).
  intros n m Hm. exists plain_builtins, None.
  apply get_metric_elem_of_all in Hm.
  change (get_all_metrics (get_registry plain_builtins None))
    with (discovered_metrics plain_builtins None) in Hm.
  unfold discovered_metrics in Hm.
  repeat (apply elem_of_cons in Hm as [->|Hm];
          [first [ by exists 1, (PDb SessionOverview) | by exists 2, (PDb TopSessions)
                 | by exists 3, (PDb BlockingSessions) | by exists 4, (PDb TablespaceUsage)
                 | by exists 5, (PDb WaitEvents) | by exists 6, (PDb TempUsage)
                 | by exists 7, (PDb UndoMetrics) | by exists 8, (PDb RedoMetrics)
                 | by exists 9, (PDb PlanChurn) | by exists 10, (PDb IOSessions)
                 | by exists 11, PHost | by exists 12, (PDb ResourceLimits) ]|]).
  by apply elem_of_nil in Hm.
Defined.

(** ** One pass of the driver *)

Lemma registry_of_package py psutil n m :
  get_metric (get_registry py psutil) n = Some m -> package_store m.
Proof.
  intros Hm. exists py, psutil.
  apply get_metric_elem_of_all in Hm.
  change (get_all_metrics (get_registry py psutil)) with (discovered_metrics py psutil) in Hm.
  unfold discovered_metrics in Hm.
  repeat (apply elem_of_cons in Hm as [->|Hm];
          [first [ by exists 1, (PDb SessionOverview) | by exists 2, (PDb TopSessions)
                 | by exists 3, (PDb BlockingSessions) | by exists 4, (PDb TablespaceUsage)
                 | by exists 5, (PDb WaitEvents) | by exists 6, (PDb TempUsage)
                 | by exists 7, (PDb UndoMetrics) | by exists 8, (PDb RedoMetrics)
                 | by exists 9, (PDb PlanChurn) | by exists 10, (PDb IOSessions)
                 | by exists 11, PHost | by exists 12, (PDb ResourceLimits) ]|]).
  by apply elem_of_nil in Hm.
Qed.

(** X20. One pass of "Collect Now" reads the clock once for the sample
    identifier and uses it throughout: after the events of the collection,
    the log gains one envelope per dispatched entry, each under that
    identifier; every row that the pass appends to the history carries it
    too, and no earlier row is changed; when the pass returns, the number it
    reports is the number of entries collected. The pass raises only if
    persisting does. *)
Theorem collect_now_one_sample_id
  (registry : MetricRegistry) (connection : Connection) (w : World) :
  (forall n m, get_metric registry n = Some m -> package_store m) ->
  clock w (ticks w) <> "" ->
  let s := clock w (ticks w) in
  let w' := snd (collect_now registry connection w) in
  exists results w1,
    collect_all registry connection [] (set_ticks w (S (ticks w))) = (Ok results, w1) /\
    log w' = log w1 ++
             imap (logged (Some s) (clock w) (S (ticks w))) (dispatched registry results) /\
    (forall db_path table, exists new,
        table_rows w' db_path table = table_rows w db_path table ++ new /\
        Forall (fun row => dict_get row "sample_id" = Some (VStr s)) new) /\
    (forall n, fst (collect_now registry connection w) = Ok n -> n = length results).
Proof.
  intros Hpkg Hs s w'. subst w'.
  set (results := fold_left (visit_result connection []) (get_enabled_metrics registry) []).
  assert (Hrun : exists w2,
    collect_now registry connection w =
      bind (store_all registry DB_PATH results (Some s)) (fun _ => ret (length results)) w2 /\
    log w2 = log (snd (collect_all registry connection [] (set_ticks w (S (ticks w))))) ++
             imap (logged (Some s) (clock w) (S (ticks w))) (dispatched registry results) /\
    files w2 = files w).
  { eexists. split; [|split].
    - unfold collect_now, bind at 1, now_isoformat. unfold bind at 1.
      rewrite collect_all_spec. unfold bind at 1.
      rewrite log_all_dispatched, for_each_log_data by apply dispatched_nonempty.
      reflexivity.
    - rewrite collect_all_spec. reflexivity.
    - reflexivity. }
  destruct Hrun as (w2 & Hrun & Hlog2 & Hfiles2).
  rewrite Hrun. rewrite collect_all_spec in *. cbn [snd] in Hlog2.
  eexists _, _. split; [reflexivity|].
  pose proof (store_all_appends registry DB_PATH results (Some s) w2 Hpkg) as [Hlog Hrows].
  assert (Hnew : forall db_path table, exists new,
             table_rows (snd (store_all registry DB_PATH results (Some s) w2)) db_path table =
             table_rows w db_path table ++ new /\
             Forall (fun row => dict_get row "sample_id" = Some (VStr s)) new).
  { intros db_path table. destruct (Hrows db_path table) as (new & Hnew & HP).
    exists new. split.
    - rewrite Hnew. unfold table_rows. by rewrite Hfiles2.
    - eapply Forall_impl; [exact HP|]. intros row Hrow. by apply Hrow. }
  unfold bind.
  destruct (store_all registry DB_PATH results (Some s) w2) as [[[]|e] w3];
    cbn [fst snd ret] in *.
  - split; [by rewrite Hlog, Hlog2|]. split; [exact Hnew|].
    intros n Hn. by injection Hn as <-.
  - split; [by rewrite Hlog, Hlog2|]. split; [exact Hnew | discriminate].
Qed.

Lemma collect_now_one_sample_id_witness :
  let registry := get_registry plain_builtins None in
  let w := snd (initialize_storage registry empty_world) in
  let w' := snd (collect_now registry two_rows_connection w) in
  exists results w1,
    collect_all registry two_rows_connection [] (set_ticks w (S (ticks w))) =
      (Ok results, w1) /\
    log w' = log w1 ++
             imap (logged (Some (clock w (ticks w))) (clock w) (S (ticks w)))
                  (dispatched registry results) /\
    (forall db_path table, exists new,
        table_rows w' db_path table = table_rows w db_path table ++ new /\
        Forall (fun row => dict_get row "sample_id" = Some (VStr (clock w (ticks w)))) new) /\
    (forall n, fst (collect_now registry two_rows_connection w) = Ok n ->
               n = length results).
Proof.
  apply (collect_now_one_sample_id (get_registry plain_builtins None) two_rows_connection
           (snd (initialize_storage (get_registry plain_builtins None) empty_world))).
  - intros n m. apply registry_of_package.
  - vm_compute. discriminate.
Defined.
